(** * scripts/deploy.js : build, provision and upload pipeline

    A shallow embedding of the deployment script.  The script is glue code
    around Node built-ins ([fs], [Date], [Promise], [String.prototype]) and
    three libraries ([execa], [listr], [webdav-fs]).  The built-ins are
    embedded after ECMAScript, the libraries after their documented
    behaviour.  The outside world (arguments, files, the build tool, the
    WebDAV server and the order in which its answers arrive) is a record of
    oracles, so that every function below computes.  A remote write that
    is issued may be answered with success, answered with an error, or
    never answered. *)

From Stdlib Require Import ZArith Lia List Bool String Ascii DecimalString.
Import ListNotations.
Open Scope string_scope.
Set Warnings "-register-all".

(* ================================================================== *)
(** ** String built-ins used by the script *)
(* ================================================================== *)

Module JSString.

(** [s.includes(sub)]: [sub] occurs in [s] as a substring. *)
Fixpoint includes (s sub : string) : bool :=
  if String.prefix sub s then true
  else match s with
       | EmptyString => false
       | String _ s' => includes s' sub
       end.

Fixpoint drop (n : nat) (s : string) : string :=
  match n, s with
  | O, _ => s
  | S _, EmptyString => EmptyString
  | S n', String _ s' => drop n' s'
  end.

(** [s.replace(/c/g, by)] for a one-character pattern [c]. *)
Fixpoint replace_all_char (c : ascii) (by_ : string) (s : string) : string :=
  match s with
  | EmptyString => EmptyString
  | String x s' =>
      if Ascii.eqb x c then by_ ++ replace_all_char c by_ s'
      else String x (replace_all_char c by_ s')
  end.

(** [s.replace(pat, by)] with a string pattern: only the first occurrence
    is replaced. *)
Fixpoint replace_first (pat by_ : string) (s : string) : string :=
  if String.prefix pat s then by_ ++ drop (String.length pat) s
  else match s with
       | EmptyString => EmptyString
       | String x s' => String x (replace_first pat by_ s')
       end.

(** Line terminators of the 8-bit alphabet: the regular expression [.]
    matches every character but these. *)
Definition is_line_terminator (c : ascii) : bool :=
  Ascii.eqb c "010"%char || Ascii.eqb c "013"%char.

Fixpoint skip_line (s : string) : string :=
  match s with
  | EmptyString => EmptyString
  | String x s' => if is_line_terminator x then s else skip_line s'
  end.

(** [s.replace(/\..+/, "")]: the first dot that is followed by at least
    one character of the same line is removed together with the rest of
    that line (the quantifier is greedy). *)
Fixpoint remove_dot_rest (s : string) : string :=
  match s with
  | EmptyString => EmptyString
  | String x s' =>
      if Ascii.eqb x "."%char then
        match s' with
        | EmptyString => String x EmptyString
        | String y _ =>
            if is_line_terminator y then String x (remove_dot_rest s')
            else skip_line s'
        end
      else String x (remove_dot_rest s')
  end.

(** Strings compare by code unit, left to right; a proper prefix is
    smaller.  This is [String.compare]. *)
Definition lex_lt (a b : string) : Prop := String.compare a b = Lt.

(** Tests on the characters of a string, for the proofs about
    [toISOString]. *)
Fixpoint all_chars (P : ascii -> bool) (s : string) : bool :=
  match s with
  | EmptyString => true
  | String c s' => P c && all_chars P s'
  end.

Definition is_digit (c : ascii) : bool :=
  ((48 <=? N_of_ascii c) && (N_of_ascii c <=? 57))%N.

Definition differs (c : ascii) (x : ascii) : bool := negb (Ascii.eqb x c).

End JSString.

(* ================================================================== *)
(** ** [Date.prototype.toISOString] (ECMAScript, Date objects) *)
(* ================================================================== *)

Module JSDate.
Local Open Scope Z_scope.

Definition msPerDay : Z := 86400000.
Definition msPerHour : Z := 3600000.
Definition msPerMinute : Z := 60000.
Definition msPerSecond : Z := 1000.

Definition Day (t : Z) : Z := t / msPerDay.

Definition DayFromYear (y : Z) : Z :=
  365 * (y - 1970) + (y - 1969) / 4 - (y - 1901) / 100 + (y - 1601) / 400.

(** [YearFromTime]: the largest [y] with [DayFromYear y <= Day t].  The
    search starts from a year that is never too large and walks up. *)
Fixpoint year_search (fuel : nat) (y d : Z) : Z :=
  match fuel with
  | O => y
  | S f => if DayFromYear (y + 1) <=? d then year_search f (y + 1) d else y
  end.

Definition year_start (d : Z) : Z := 1970 + Z.min (d / 365) (d / 366).
Definition year_fuel (d : Z) : nat := Z.to_nat (Z.abs d / 100000 + 2).

Definition YearFromDay (d : Z) : Z := year_search (year_fuel d) (year_start d) d.
Definition YearFromTime (t : Z) : Z := YearFromDay (Day t).

Definition DaysInYear (y : Z) : Z :=
  if negb (y mod 4 =? 0) then 365
  else if negb (y mod 100 =? 0) then 366
  else if negb (y mod 400 =? 0) then 365
  else 366.

Definition InLeapYear (t : Z) : Z :=
  if DaysInYear (YearFromTime t) =? 366 then 1 else 0.

Definition DayWithinYear (t : Z) : Z := Day t - DayFromYear (YearFromTime t).

(** Month number (0 = January) of day [dwy] of a year, [leap] being 1 in a
    leap year and 0 otherwise. *)
Definition month_of (dwy leap : Z) : Z :=
  if dwy <? 31 then 0
  else if dwy <? 59 + leap then 1
  else if dwy <? 90 + leap then 2
  else if dwy <? 120 + leap then 3
  else if dwy <? 151 + leap then 4
  else if dwy <? 181 + leap then 5
  else if dwy <? 212 + leap then 6
  else if dwy <? 243 + leap then 7
  else if dwy <? 273 + leap then 8
  else if dwy <? 304 + leap then 9
  else if dwy <? 334 + leap then 10
  else 11.

(** Day of the month (1-based) of day [dwy] of a year. *)
Definition date_of (dwy leap : Z) : Z :=
  match month_of dwy leap with
  | 0 => dwy + 1
  | 1 => dwy - 30
  | 2 => dwy - 58 - leap
  | 3 => dwy - 89 - leap
  | 4 => dwy - 119 - leap
  | 5 => dwy - 150 - leap
  | 6 => dwy - 180 - leap
  | 7 => dwy - 211 - leap
  | 8 => dwy - 242 - leap
  | 9 => dwy - 272 - leap
  | 10 => dwy - 303 - leap
  | _ => dwy - 333 - leap
  end.

Definition MonthFromTime (t : Z) : Z := month_of (DayWithinYear t) (InLeapYear t).
Definition DateFromTime (t : Z) : Z := date_of (DayWithinYear t) (InLeapYear t).
Definition HourFromTime (t : Z) : Z := (t / msPerHour) mod 24.
Definition MinFromTime (t : Z) : Z := (t / msPerMinute) mod 60.
Definition SecFromTime (t : Z) : Z := (t / msPerSecond) mod 60.
Definition msFromTime (t : Z) : Z := t mod msPerSecond.

Definition digit (n : Z) : ascii := ascii_of_N (Z.to_N (48 + n mod 10)).

(** The [w] low decimal digits of [n >= 0], most significant first.  On
    [n < 10^w], the only case [toISOString] has, this is ECMAScript's
    [ToZeroPaddedDecimalString(n, w)]. *)
Fixpoint pad (w : nat) (n : Z) : string :=
  match w with
  | O => EmptyString
  | S w' => pad w' (n / 10) ++ String (digit n) EmptyString
  end.

(** Years 0 to 9999 print as four digits, the others as a sign and six. *)
Definition year_string (y : Z) : string :=
  if (0 <=? y) && (y <=? 9999) then pad 4 y
  else (if y <? 0 then "-" else "+") ++ pad 6 (Z.abs y).

(** [new Date(t).toISOString()], [t] in milliseconds since the epoch:
    [YYYY-MM-DDTHH:mm:ss.sssZ]. *)
Definition toISOString (t : Z) : string :=
  year_string (YearFromTime t) ++ "-" ++ pad 2 (MonthFromTime t + 1) ++ "-"
    ++ pad 2 (DateFromTime t) ++ "T" ++ pad 2 (HourFromTime t) ++ ":"
    ++ pad 2 (MinFromTime t) ++ ":" ++ pad 2 (SecFromTime t) ++ "."
    ++ pad 3 (msFromTime t) ++ "Z".

End JSDate.

Import JSString JSDate.

(** Line 131: [new Date().toISOString().replace(/\:/g, "_").replace("T", "")
    .replace(/\..+/, "")], the clock reading [now] in milliseconds. *)
Definition make_timestamp (now : Z) : string :=
  remove_dot_rest
    (replace_first "T" ""
       (replace_all_char ":"%char "_" (toISOString now))).

(** The identifier as it is laid out: [YYYY-MM-DDHH_mm_ss]. *)
Definition timestamp_format (y mo d h mi s : Z) : string :=
  pad 4 y ++ "-" ++ pad 2 mo ++ "-" ++ pad 2 d
    ++ pad 2 h ++ "_" ++ pad 2 mi ++ "_" ++ pad 2 s.

Definition four_digit_years (t : Z) : Prop :=
  (-62167219200000 <= t < 253402300800000)%Z.

(** The fields of a time, compared from the year down to the second. *)
Definition fields_lt (t1 t2 : Z) : Prop :=
  (YearFromTime t1 < YearFromTime t2 \/
  YearFromTime t1 = YearFromTime t2 /\
  (MonthFromTime t1 < MonthFromTime t2 \/
   MonthFromTime t1 = MonthFromTime t2 /\
   (DateFromTime t1 < DateFromTime t2 \/
    DateFromTime t1 = DateFromTime t2 /\
    (HourFromTime t1 < HourFromTime t2 \/
     HourFromTime t1 = HourFromTime t2 /\
     (MinFromTime t1 < MinFromTime t2 \/
      MinFromTime t1 = MinFromTime t2 /\ SecFromTime t1 < SecFromTime t2)))))%Z.

(* ================================================================== *)
(** ** JSON values, as [require] and [JSON.stringify] see them *)
(* ================================================================== *)

Module JSON.

(** A number is kept as an integer: the script only tests a credential
    for being falsy, which for a number means being zero. *)
Inductive json : Type :=
| JNull
| JBool (b : bool)
| JNumber (n : Z)
| JString (s : string)
| JArray (items : list json)
| JObject (fields : list (string * json)).

(** [!v] is [negb (truthy v)]; [None] stands for [undefined]. *)
Definition truthy (v : option json) : bool :=
  match v with
  | None | Some JNull | Some (JBool false) => false
  | Some (JNumber n) => negb (n =? 0)%Z
  | Some (JString s) => negb (String.eqb s EmptyString)
  | Some _ => true
  end.

(** Of several members with one key, [JSON.parse] keeps the last. *)
Fixpoint lookup (k : string) (fields : list (string * json)) : option json :=
  match fields with
  | [] => None
  | (k', v) :: rest =>
      match lookup k rest with
      | Some v' => Some v'
      | None => if String.eqb k' k then Some v else None
      end
  end.

(** [v.k] for a key that no prototype defines: a [TypeError] ([None]) on
    [null], [undefined] ([Some None]) on the other non-objects. *)
Definition get (v : json) (k : string) : option (option json) :=
  match v with
  | JNull => None
  | JObject fields => Some (lookup k fields)
  | _ => Some None
  end.

Definition dquote : ascii := "034"%char.
Definition backslash : ascii := "092"%char.
Definition newline : string := String "010"%char EmptyString.

Definition hex_digit (n : N) : ascii :=
  if (n <? 10)%N then ascii_of_N (48 + n) else ascii_of_N (87 + n).

(** [QuoteJSONString] without its surrounding quotes. *)
Fixpoint escape (s : string) : string :=
  match s with
  | EmptyString => EmptyString
  | String c s' =>
      let n := N_of_ascii c in
      (if Ascii.eqb c dquote then String backslash (String dquote EmptyString)
       else if Ascii.eqb c backslash then String backslash (String backslash EmptyString)
       else if (n =? 8)%N then String backslash "b"
       else if (n =? 9)%N then String backslash "t"
       else if (n =? 10)%N then String backslash "n"
       else if (n =? 12)%N then String backslash "f"
       else if (n =? 13)%N then String backslash "r"
       else if (n <? 32)%N then
         String backslash "u00" ++ String (hex_digit (n / 16)) (String (hex_digit (n mod 16)) EmptyString)
       else String c EmptyString) ++ escape s'
  end.

Definition quote (s : string) : string :=
  String dquote (escape s) ++ String dquote EmptyString.

(** [JSON.stringify(v, null, 2)] prints with [gap] two spaces; [indent] is
    the indentation of the enclosing level. *)
Fixpoint stringify_at (gap indent : string) (v : json) : string :=
  match v with
  | JNull => "null"
  | JBool true => "true"
  | JBool false => "false"
  | JNumber n => NilZero.string_of_int (Z.to_int n)
  | JString s => quote s
  | JArray [] => "[]"
  | JArray items =>
      let inner := indent ++ gap in
      "[" ++ newline ++ inner
        ++ String.concat ("," ++ newline ++ inner) (map (stringify_at gap inner) items)
        ++ newline ++ indent ++ "]"
  | JObject [] => "{}"
  | JObject fields =>
      let inner := indent ++ gap in
      "{" ++ newline ++ inner
        ++ String.concat ("," ++ newline ++ inner)
             (map (fun kv => quote (fst kv) ++ ": " ++ stringify_at gap inner (snd kv)) fields)
        ++ newline ++ indent ++ "}"
  end.

Definition stringify (v : json) (space : nat) : string :=
  stringify_at (String.concat EmptyString (repeat " " space)) EmptyString v.

End JSON.

(* ================================================================== *)
(** ** Promises: settle once; [Promise.all] *)
(* ================================================================== *)

Module Promise.

Inductive state (A E : Type) : Type :=
| Pending
| Fulfilled (a : A)
| Rejected (e : E).
Arguments Pending {A E}.
Arguments Fulfilled {A E} a.
Arguments Rejected {A E} e.

Section Settle.
Context {A E : Type}.

  (** The [resolve] and [reject] functions of a promise: the first call
      settles it, the later ones do nothing. *)
Definition resolve (a : A) (p : state A E) : state A E :=
    match p with Pending => Fulfilled a | _ => p end.

Definition reject (e : E) (p : state A E) : state A E :=
    match p with Pending => Rejected e | _ => p end.

Definition settled (p : state A E) : bool :=
    match p with Pending => false | _ => true end.
End Settle.

(** The aggregate that [Promise.all] returns: the number of inputs not yet
    fulfilled, and its own state (the array of values is not used by the
    script, so the aggregate fulfils with [tt]). *)
Record all_state (E : Type) : Type := AllState {
  remaining : nat;
  result : state unit E
}.
Arguments AllState {E} remaining result.
Arguments remaining {E} a.
Arguments result {E} a.

Section All.
Context {A E : Type}.

  (** [Promise.all] of [k] inputs; with none it fulfils at once. *)
Definition all_start (k : nat) : all_state E :=
    AllState k (match k with O => Fulfilled tt | S _ => Pending end).

  (** One input fulfils: the last one to do so fulfils the aggregate. *)
Definition all_fulfilled (a : all_state E) : all_state E :=
    let r := Nat.pred (remaining a) in
    AllState r (match r with O => resolve tt (result a) | S _ => result a end).

  (** One input rejects: the aggregate rejects with its reason, at once. *)
Definition all_rejected (e : E) (a : all_state E) : all_state E :=
    AllState (remaining a) (reject e (result a)).

  (** The reaction of the aggregate to the state of one input. *)
Definition all_notify (p : state A E) (a : all_state E) : all_state E :=
    match p with
    | Pending => a
    | Fulfilled _ => all_fulfilled a
    | Rejected e => all_rejected e a
    end.

  (** [Promise.all(promises)] just after the call: the inputs that are
      settled already react first, in the order of the array. *)
Definition all (promises : list (state A E)) : all_state E :=
    fold_left (fun a p => all_notify p a) promises (all_start (List.length promises)).
End All.

(** The reason of the first rejected promise of an array. *)
Fixpoint first_rejection {A E} (ps : list (state A E)) : option E :=
  match ps with
  | [] => None
  | Rejected e :: _ => Some e
  | _ :: ps' => first_rejection ps'
  end.

Definition unfulfilled {A E} (p : state A E) : bool :=
  match p with Fulfilled _ => false | _ => true end.

End Promise.

(* ================================================================== *)
(** ** The script *)
(* ================================================================== *)

Module Deploy.
Import JSON Promise.

(** An error is its message. *)
Definition error : Type := string.

(** What [execa] learns from the child process. *)
Record exec_result : Type := ExecResult {
  exitCode : Z;
  message : string
}.

(** The world outside the script. *)
Record World : Type := {
  argv2 : option string;                          (* process.argv[2] *)
  dirname : string;                               (* __dirname *)
  path_join : string -> string -> string;         (* path.join *)
  require_json : string -> option json;           (* require; None: it throws *)
  clock : Z;                                      (* new Date(), in ms *)
  npm_run_build : exec_result;                    (* npm run build *)
  dav_mkdir : string -> option error;             (* wfs.mkdir, its err *)
  fs_readdir : string -> error + list string;     (* fs.readdir *)
  fs_readFileSync : string -> error + string;     (* fs.readFileSync *)
  fs_writeFileSync : string -> string -> option error; (* fs.writeFileSync;
                                                     Some: it throws *)
  dav_writeFile : string -> string -> option error; (* wfs.writeFile, its err *)
  arrival : list nat   (* the answers of the server, in the order they
                          arrive: which request in flight each one answers *)
}.

(** The texts printed on the console, by the lines that print them. *)
Inductive console_text : Type :=
| TxtHeader                        (* lines 43-47 *)
| TxtUsage                         (* line 49 *)
| TxtMissingCredentials (env : string)   (* line 54 *)
| TxtMissingFile (env : string)    (* line 57 *)
| TxtSampleCreated                 (* line 58 *)
| TxtFinished (storehash : option json) (timestamp : option string). (* lines 177-189 *)

(** What the tasks show through [task.output] and [task.title]. *)
Inductive task_note : Type :=
| Building
| BuildFailed
| CreatingFolder
| ListingFiles
| PreDeployFailed
| Uploading (fileCount : nat)
| DeployFailed.

(** The trace of a run.  [EvUploader] and [EvSettled] are marks: a call of
    [uploader] inside the [call]-th [UploadFiles], and the settling of the
    promise that this [UploadFiles] returned. *)
Inductive event : Type :=
| EvConsoleClear
| EvConsoleLog (t : console_text)
| EvRequire (path : string)
| EvWriteFileSync (path data : string) (err : option error)
| EvExeca (file : string) (args : list string)
| EvTask (n : task_note)
| EvMkdir (path : string) (err : option error)
| EvReaddir (path : string)
| EvUploader (call : nat) (file : string)
| EvReadFileSync (path : string)
| EvWriteFile (path data : string)
| EvWriteFileDone (path : string) (err : option error)
| EvSettled (call : nat) (p : state unit error).

(** A [wfs.writeFile] whose callback has not run yet. *)
Record request : Type := Request {
  req_call : nat;
  req_path : string;
  req_err : option error
}.

(** The [ctx] object that Listr hands to every task.  Each property is
    assigned by Pre-Deploy Setup before Deploy Checkout reads it; the
    initial values stand for [undefined]. *)
Record Ctx : Type := {
  timestamp : string;
  destFolder : string;
  distFolder : string;
  distStaticFolder : string;
  distFiles : list string;
  distStaticFiles : list string;
  fileCount : nat
}.

Definition empty_ctx : Ctx :=
  {| timestamp := EmptyString; destFolder := EmptyString; distFolder := EmptyString;
     distStaticFolder := EmptyString; distFiles := []; distStaticFiles := [];
     fileCount := 0 |}.

Record State : Type := {
  log : list event;            (* oldest first *)
  inflight : list request;     (* in the order they were issued *)
  arrivals : list nat;
  g_timestamp : option string; (* the module-level [timestamp] *)
  ctx : Ctx
}.

(** *** A state monad for the script *)

Definition M (A : Type) : Type := State -> A * State.

Definition ret {A} (a : A) : M A := fun st => (a, st).

Definition bind {A B} (m : M A) (k : A -> M B) : M B :=
  fun st => let (a, st') := m st in k a st'.

Notation "x <- m ;; k" := (bind m (fun x => k))
  (at level 61, m at next level, right associativity).
Notation "m ;; k" := (bind m (fun _ => k))
  (at level 61, right associativity).

Definition emit (e : event) : M unit :=
  fun st => (tt, {| log := log st ++ [e]; inflight := inflight st;
                    arrivals := arrivals st; g_timestamp := g_timestamp st;
                    ctx := ctx st |}).

Definition issue (r : request) : M unit :=
  fun st => (tt, {| log := log st; inflight := inflight st ++ [r];
                    arrivals := arrivals st; g_timestamp := g_timestamp st;
                    ctx := ctx st |}).

Definition get_ctx : M Ctx := fun st => (ctx st, st).

Definition set_ctx (c : Ctx) : M unit :=
  fun st => (tt, {| log := log st; inflight := inflight st;
                    arrivals := arrivals st; g_timestamp := g_timestamp st;
                    ctx := c |}).

Definition set_timestamp (t : string) : M unit :=
  fun st => (tt, {| log := log st; inflight := inflight st;
                    arrivals := arrivals st; g_timestamp := Some t;
                    ctx := ctx st |}).

Fixpoint mapM {A B} (f : A -> M B) (l : list A) : M (list B) :=
  match l with
  | [] => ret []
  | a :: l' => b <- f a ;; bs <- mapM f l' ;; ret (b :: bs)
  end.

(** *** The event loop *)

Fixpoint remove_nth {A} (n : nat) (l : list A) : list A :=
  match n, l with
  | _, [] => []
  | O, _ :: l' => l'
  | S n', a :: l' => a :: remove_nth n' l'
  end.

(** One turn of the event loop: the answer to one request in flight
    arrives and its callback runs.  The head of [arrivals] names the
    request (counted among those in flight, wrapping around).  There is no
    turn when nothing is in flight, nor when [arrivals] is used up: the
    requests still in flight are then never answered. *)
Definition next_arrival : M (option request) :=
  fun st =>
    match inflight st, arrivals st with
    | r0 :: _, a :: rest =>
        let i := Nat.modulo a (List.length (inflight st)) in
        let r := nth i (inflight st) r0 in
        (Some r,
         {| log := log st ++ [EvWriteFileDone (req_path r) (req_err r)];
            inflight := remove_nth i (inflight st);
            arrivals := rest;
            g_timestamp := g_timestamp st;
            ctx := ctx st |})
    | _, _ => (None, st)
    end.

(** The callback of [wfs.writeFile] in [uploader], lines 88-91:
    [if (err) reject(err); resolve();]. *)
Definition writeFile_callback (err : option error) : state unit error :=
  resolve tt (match err with
              | Some e => reject e Pending
              | None => Pending
              end).

(** The event loop turns until the aggregate of the [call]-th
    [UploadFiles] settles, or until no answer is left to arrive.  Every
    turn takes one request out of flight, so [fuel], the number of
    requests in flight, is enough turns. *)
Fixpoint turn_until_settled (fuel : nat) (call : nat) (agg : all_state error)
  : M (all_state error) :=
  fun st =>
    if settled (result agg) then (agg, st)
    else match fuel with
         | O => (agg, st)
         | S fuel' =>
             match next_arrival st with
             | (None, st') => (agg, st')
             | (Some r, st') =>
                 turn_until_settled fuel' call
                   (if Nat.eqb (req_call r) call
                    then all_notify (writeFile_callback (req_err r)) agg
                    else agg) st'
             end
         end.

Definition await_all (call : nat) (agg : all_state error) : M (all_state error) :=
  fun st => turn_until_settled (List.length (inflight st)) call agg st.

(** After the last task the callbacks of the answers that still arrive
    run. *)
Fixpoint drain (fuel : nat) : M unit :=
  match fuel with
  | O => ret tt
  | S fuel' => r <- next_arrival ;;
               match r with
               | None => ret tt
               | Some _ => drain fuel'
               end
  end.

Definition drain_all : M unit :=
  fun st => drain (List.length (inflight st)) st.

(** *** [WebDAVHelper] *)

(** [MakeDir], lines 73-81: the promise rejects with [err] or resolves
    with [true].  The connection of [Connect] is the oracle
    [dav_mkdir]/[dav_writeFile] of the world. *)
Definition MakeDir (w : World) (path : string) : M (error + bool) :=
  emit (EvMkdir path (dav_mkdir w path)) ;;
  ret (match dav_mkdir w path with
       | Some err => inl err
       | None => inr true
       end).

(** [uploader], lines 85-93: the state of the promise it returns, just
    after the call.  A throw of [readFileSync] inside the executor rejects
    the promise; otherwise the write is in flight. *)
Definition uploader (w : World) (call : nat) (src dest file : string)
  : M (state unit error) :=
  emit (EvUploader call file) ;;
  emit (EvReadFileSync (src ++ "\" ++ file)) ;;
  match fs_readFileSync w (src ++ "\" ++ file) with
  | inl ex => ret (Rejected ex)
  | inr contents =>
      emit (EvWriteFile (dest ++ "/" ++ file) contents) ;;
      issue (Request call (dest ++ "/" ++ file)
               (dav_writeFile w (dest ++ "/" ++ file) contents)) ;;
      ret Pending
  end.

(** Line 95, [Promise.all(promises).finally(resolve).catch(reject)], once
    the aggregate has the state [all_result]: [finally] passes the
    settlement on after calling [resolve], [catch] calls [reject] on a
    rejection. *)
Definition finally_resolve_catch_reject (all_result returned : state unit error)
  : state unit error :=
  match all_result with
  | Pending => returned
  | Fulfilled _ => resolve tt returned
  | Rejected e => reject e (resolve tt returned)
  end.

(** Lines 94-95 up to the settling of [Promise.all(promises)]. *)
Definition UploadFiles_all (w : World) (call : nat) (src dest : string)
    (files : list string) : M (all_state error) :=
  promises <- mapM (uploader w call src dest)
                (filter (fun o => includes o ".") files) ;;
  await_all call (all promises).

(** [UploadFiles], lines 82-97, as its caller awaits it: the state of the
    returned promise when the caller resumes, [Pending] if it never does. *)
Definition UploadFiles (w : World) (call : nat) (src dest : string)
    (files : list string) : M (state unit error) :=
  agg <- UploadFiles_all w call src dest files ;;
  let p := finally_resolve_catch_reject (result agg) Pending in
  (if settled p then emit (EvSettled call p) else ret tt) ;;
  ret p.

(** *** [NodeHelper] *)

Definition ListFiles (w : World) (path : string) : M (error + list string) :=
  emit (EvReaddir path) ;;
  ret (fs_readdir w path).

(** *** The tasks *)

Inductive task_result : Type :=
| Resolved
| RejectedWith (ex : error)
| NeverSettles.

(** [await m] inside [try]: a rejection leaves the block. *)
Definition try_await {A B} (m : M (error + A)) (k : A -> M (error + B))
  : M (error + B) :=
  r <- m ;;
  match r with
  | inl ex => ret (inl ex)
  | inr a => k a
  end.

Notation "x <-await m ;; k" := (try_await m (fun x => k))
  (at level 61, m at next level, right associativity).

(** Build Checkout, lines 113-120: [execa] rejects on a non-zero exit. *)
Definition build_checkout (w : World) : M task_result :=
  emit (EvTask Building) ;;
  emit (EvExeca "npm" ["run"; "build"]) ;;
  if (exitCode (npm_run_build w) =? 0)%Z then ret Resolved
  else emit (EvTask BuildFailed) ;;
       ret (RejectedWith (message (npm_run_build w))).

Definition update_ctx (f : Ctx -> Ctx) : M unit :=
  c <- get_ctx ;; set_ctx (f c).

Definition with_timestamp (v : string) (c : Ctx) : Ctx :=
  {| timestamp := v; destFolder := destFolder c; distFolder := distFolder c;
     distStaticFolder := distStaticFolder c; distFiles := distFiles c;
     distStaticFiles := distStaticFiles c; fileCount := fileCount c |}.
Definition with_destFolder (v : string) (c : Ctx) : Ctx :=
  {| timestamp := timestamp c; destFolder := v; distFolder := distFolder c;
     distStaticFolder := distStaticFolder c; distFiles := distFiles c;
     distStaticFiles := distStaticFiles c; fileCount := fileCount c |}.
Definition with_distFolder (v : string) (c : Ctx) : Ctx :=
  {| timestamp := timestamp c; destFolder := destFolder c; distFolder := v;
     distStaticFolder := distStaticFolder c; distFiles := distFiles c;
     distStaticFiles := distStaticFiles c; fileCount := fileCount c |}.
Definition with_distStaticFolder (v : string) (c : Ctx) : Ctx :=
  {| timestamp := timestamp c; destFolder := destFolder c; distFolder := distFolder c;
     distStaticFolder := v; distFiles := distFiles c;
     distStaticFiles := distStaticFiles c; fileCount := fileCount c |}.
Definition with_distFiles (v : list string) (c : Ctx) : Ctx :=
  {| timestamp := timestamp c; destFolder := destFolder c; distFolder := distFolder c;
     distStaticFolder := distStaticFolder c; distFiles := v;
     distStaticFiles := distStaticFiles c; fileCount := fileCount c |}.
Definition with_distStaticFiles (v : list string) (c : Ctx) : Ctx :=
  {| timestamp := timestamp c; destFolder := destFolder c; distFolder := distFolder c;
     distStaticFolder := distStaticFolder c; distFiles := distFiles c;
     distStaticFiles := v; fileCount := fileCount c |}.
Definition with_fileCount (v : nat) (c : Ctx) : Ctx :=
  {| timestamp := timestamp c; destFolder := destFolder c; distFolder := distFolder c;
     distStaticFolder := distStaticFolder c; distFiles := distFiles c;
     distStaticFiles := distStaticFiles c; fileCount := v |}.

(** The [try] block of Pre-Deploy Setup, lines 130-145. *)
Definition pre_deploy_try (w : World) : M (error + unit) :=
  emit (EvTask CreatingFolder) ;;
  set_timestamp (make_timestamp (clock w)) ;;
  update_ctx (with_timestamp (make_timestamp (clock w))) ;;
  c <- get_ctx ;;
  update_ctx (with_destFolder ("/content/checkout/" ++ timestamp c)) ;;
  c <- get_ctx ;;
  _ <-await MakeDir w (destFolder c) ;;
  _ <-await MakeDir w (destFolder c ++ "/static") ;;
  emit (EvTask ListingFiles) ;;
  update_ctx (with_distFolder (path_join w (dirname w) "../dist")) ;;
  update_ctx (with_distStaticFolder (path_join w (dirname w) "../dist/static")) ;;
  c <- get_ctx ;;
  files <-await ListFiles w (distFolder c) ;;
  update_ctx (with_distFiles files) ;;
  staticFiles <-await ListFiles w (distStaticFolder c) ;;
  update_ctx (with_distStaticFiles staticFiles) ;;
  c <- get_ctx ;;
  update_ctx (with_fileCount
                (List.length (filter (fun o => includes o ".")
                                ([] ++ distFiles c ++ distStaticFiles c)))) ;;
  ret (inr tt).

(** Pre-Deploy Setup, lines 123-152, with its [catch], lines 146-150. *)
Definition pre_deploy_setup (w : World) : M task_result :=
  r <- pre_deploy_try w ;;
  match r with
  | inr _ => ret Resolved
  | inl ex => emit (EvTask PreDeployFailed) ;; ret (RejectedWith ex)
  end.

(** [await p] inside the [try] of Deploy Checkout: go on when [p] is
    fulfilled, run the [catch] (lines 166-170) when it is rejected, never
    resume when it stays pending. *)
Definition await_upload (p : M (state unit error)) (k : M task_result)
  : M task_result :=
  s <- p ;;
  match s with
  | Fulfilled _ => k
  | Rejected ex => emit (EvTask DeployFailed) ;; ret (RejectedWith ex)
  | Pending => ret NeverSettles
  end.

(** Deploy Checkout, lines 155-172. *)
Definition deploy_checkout (w : World) : M task_result :=
  c <- get_ctx ;;
  emit (EvTask (Uploading (fileCount c))) ;;
  await_upload (UploadFiles w 1 (distFolder c) (destFolder c) (distFiles c))
    (await_upload
       (UploadFiles w 2 (distStaticFolder c) (destFolder c ++ "/static")
          (distStaticFiles c))
       (ret Resolved)).

(** [new Listr(tasks).run()]: the tasks run one after the other and the
    first that fails ends the run. *)
Fixpoint Listr_run (tasks : list (M task_result)) : M task_result :=
  match tasks with
  | [] => ret Resolved
  | t :: rest =>
      r <- t ;;
      match r with
      | Resolved => Listr_run rest
      | _ => ret r
      end
  end.

Definition tasks (w : World) : list (M task_result) :=
  [build_checkout w; pre_deploy_setup w; deploy_checkout w].

(** *** The module body *)

(** Line 59. *)
Definition sampleFile : json :=
  JObject [("WEBDAV_STOREHASH", JString EmptyString);
           ("WEBDAV_USERNAME", JString EmptyString);
           ("WEBDAV_PASSWORD", JString EmptyString)].

Definition env_file (env : string) : string := "../env." ++ env ++ ".json".

(** The condition of line 53; [None] when reading a property throws. *)
Definition credentials_missing (config : json) : option bool :=
  match get config "WEBDAV_STOREHASH" with
  | None => None
  | Some storehash =>
      if negb (truthy storehash) then Some true
      else match get config "WEBDAV_USERNAME" with
           | None => None
           | Some username =>
               if negb (truthy username) then Some true
               else match get config "WEBDAV_PASSWORD" with
                    | None => None
                    | Some password => Some (negb (truthy password))
                    end
           end
  end.

(** How the module body ends. *)
Inductive ending : Type :=
| ReturnedEarly                    (* a [return] of lines 49, 54 or 62 *)
| Finished                         (* [finished] ran *)
| UnhandledRejection (ex : error)  (* [tasks.run()] rejected *)
| NeverResumed                     (* [tasks.run()] stays pending *)
| UncaughtException (ex : error).  (* [fs.writeFileSync] threw, line 60 *)

(** The [catch] block, lines 56-63.  Nothing is around the call of
    [fs.writeFileSync] (line 60): when it throws, the exception leaves the
    module body and line 62 is not reached. *)
Definition config_catch (w : World) (env : string) : M ending :=
  emit (EvConsoleLog (TxtMissingFile env)) ;;
  emit (EvConsoleLog TxtSampleCreated) ;;
  let path := path_join w (dirname w) (env_file env) in
  let data := stringify sampleFile 2 in
  emit (EvWriteFileSync path data (fs_writeFileSync w path data)) ;;
  match fs_writeFileSync w path data with
  | None => ret ReturnedEarly
  | Some ex => ret (UncaughtException ex)
  end.

(** [finished], lines 176-190. *)
Definition finished (config : json) : M unit :=
  fun st =>
    emit (EvConsoleLog
            (TxtFinished (match get config "WEBDAV_STOREHASH" with
                          | Some v => v
                          | None => None
                          end)
                         (g_timestamp st))) st.

(** [!env], line 49. *)
Definition no_env (env : option string) : bool :=
  match env with
  | None => true
  | Some s => String.eqb s EmptyString
  end.

Definition main (w : World) : M ending :=
  emit EvConsoleClear ;;
  emit (EvConsoleLog TxtHeader) ;;
  match argv2 w with
  | None => emit (EvConsoleLog TxtUsage) ;; ret ReturnedEarly
  | Some env =>
      if no_env (Some env) then emit (EvConsoleLog TxtUsage) ;; ret ReturnedEarly
      else
        emit (EvRequire (env_file env)) ;;
        match require_json w (env_file env) with
        | None => config_catch w env
        | Some config =>
            match credentials_missing config with
            | None => config_catch w env
            | Some true =>
                emit (EvConsoleLog (TxtMissingCredentials env)) ;;
                ret ReturnedEarly
            | Some false =>
                r <- Listr_run (tasks w) ;;
                match r with
                | Resolved => finished config ;; drain_all ;; ret Finished
                | RejectedWith ex => ret (UnhandledRejection ex)
                | NeverSettles => ret NeverResumed
                end
            end
        end
  end.

Definition initial (w : World) : State :=
  {| log := []; inflight := []; arrivals := arrival w;
     g_timestamp := None; ctx := empty_ctx |}.

(** A run of [node scripts/deploy] in the world [w]. *)
Definition run (w : World) : ending * State := main w (initial w).

Definition trace (w : World) : list event := log (snd (run w)).

End Deploy.

(* ================================================================== *)
(** ** Vocabulary of the properties *)
(* ================================================================== *)

Module Trace.
Import JSON Promise Deploy.

(** The test of line 94 (and of line 144): the name contains a dot. *)
Definition has_extension (o : string) : bool := includes o ".".

(** State of the promise that [uploader] returns, just after the call. *)
Definition launch_state (w : World) (src file : string) : state unit error :=
  match fs_readFileSync w (src ++ "\" ++ file) with
  | inl ex => Rejected ex
  | inr _ => Pending
  end.

(** What one call of [uploader] adds to the trace. *)
Definition launch_events (w : World) (call : nat) (src dest file : string) : list event :=
  EvUploader call file :: EvReadFileSync (src ++ "\" ++ file) ::
  match fs_readFileSync w (src ++ "\" ++ file) with
  | inl _ => []
  | inr contents => [EvWriteFile (dest ++ "/" ++ file) contents]
  end.

(** The write that one call of [uploader] puts in flight, if the file
    could be read. *)
Definition launch_requests (w : World) (call : nat) (src dest file : string) : list request :=
  match fs_readFileSync w (src ++ "\" ++ file) with
  | inl _ => []
  | inr contents =>
      [Request call (dest ++ "/" ++ file) (dav_writeFile w (dest ++ "/" ++ file) contents)]
  end.

(** [st] with more events and more requests in flight. *)
Definition extend (evs : list event) (reqs : list request) (st : State) : State :=
  {| log := log st ++ evs; inflight := inflight st ++ reqs;
     arrivals := arrivals st; g_timestamp := g_timestamp st; ctx := ctx st |}.

Local Open Scope list_scope.

(** The requests of the [call]-th [UploadFiles], and their number. *)
Definition of_call (call : nat) (r : request) : bool := Nat.eqb (req_call r) call.

Definition count_call (call : nat) (l : list request) : nat :=
  List.length (filter (of_call call) l).

(** The events of the event loop: a callback of [wfs.writeFile] ran. *)
Definition is_done (e : event) : bool :=
  match e with EvWriteFileDone _ _ => true | _ => false end.

(** [st'] comes from [st] by turns of the event loop only. *)
Definition turned (st st' : State) : Prop :=
  exists done,
    Forall (fun e => is_done e = true) done /\
    log st' = log st ++ done /\
    ctx st' = ctx st /\ g_timestamp st' = g_timestamp st /\
    incl (inflight st') (inflight st) /\
    List.length (inflight st') + List.length (arrivals st)
    = List.length (inflight st) + List.length (arrivals st').

(** The mark that the promise of the [call]-th [UploadFiles] leaves in
    the trace when it settles. *)
Definition settled_mark (call : nat) (p : state unit error) : list event :=
  if settled p then [EvSettled call p] else [].

(** The folders of a run, as Pre-Deploy Setup computes them. *)
Definition dest_of (w : World) : string :=
  ("/content/checkout/" ++ make_timestamp (clock w))%string.
Definition static_of (w : World) : string := (dest_of w ++ "/static")%string.
Definition dist_of (w : World) : string := path_join w (dirname w) "../dist".
Definition dist_static_of (w : World) : string :=
  path_join w (dirname w) "../dist/static".

(** The run gets to Deploy Checkout: an environment is given, its
    configuration is complete, the build exits with 0, both folders are
    made and both listings are read. *)
Definition reaches_transfer (w : World) (env : string) (config : json)
    (files staticFiles : list string) : Prop :=
  argv2 w = Some env /\ no_env (Some env) = false /\
  require_json w (env_file env) = Some config /\
  credentials_missing config = Some false /\
  exitCode (npm_run_build w) = 0%Z /\
  dav_mkdir w (dest_of w) = None /\ dav_mkdir w (static_of w) = None /\
  fs_readdir w (dist_of w) = inr files /\
  fs_readdir w (dist_static_of w) = inr staticFiles.

(** The trace of such a run up to the end of Pre-Deploy Setup. *)
Definition setup_events (w : World) (env : string) : list event :=
  [EvConsoleClear; EvConsoleLog TxtHeader; EvRequire (env_file env);
   EvTask Building; EvExeca "npm" ["run"; "build"]%string;
   EvTask CreatingFolder; EvMkdir (dest_of w) None; EvMkdir (static_of w) None;
   EvTask ListingFiles; EvReaddir (dist_of w); EvReaddir (dist_static_of w)].

(** [config.WEBDAV_STOREHASH], as [finished] prints it. *)
Definition storehash_of (config : json) : option json :=
  match get config "WEBDAV_STOREHASH" with
  | Some v => v
  | None => None
  end.

(** The events of a whole [UploadFiles]: the calls of [uploader], the
    callbacks that ran while it was awaited, and its settling. *)
Definition batch_events (w : World) (call : nat) (src dest : string)
    (files : list string) (done : list event) (p : state unit error) : list event :=
  flat_map (launch_events w call src dest) (filter has_extension files)
    ++ done ++ settled_mark call p.

(** The trace of Deploy Checkout and of what follows it: the second batch
    starts when the promise of the first is fulfilled, [finished] runs
    when that of the second is. *)
Definition deploy_events (w : World) (files staticFiles : list string)
    (done1 done2 : list event) (p1 p2 : state unit error) : list event :=
  batch_events w 1 (dist_of w) (dest_of w) files done1 p1
    ++ match p1 with
       | Fulfilled _ =>
           batch_events w 2 (dist_static_of w) (static_of w) staticFiles done2 p2
       | _ => []
       end.

Definition finished_events (config : json) (w : World) (done3 : list event)
    (p1 p2 : state unit error) : list event :=
  match p1, p2 with
  | Fulfilled _, Fulfilled _ =>
      [EvConsoleLog (TxtFinished (storehash_of config) (Some (make_timestamp (clock w))))]
        ++ done3
  | _, _ => []
  end.

(** Every upload of the run gets its answer: the server sends at least
    as many answers as there are files to upload. *)
Definition answers_suffice (w : World) (files staticFiles : list string) : Prop :=
  List.length (filter has_extension (files ++ staticFiles)) <= List.length (arrival w).

(** The error of the upload of [file], if it has one: that of the read,
    or else that of the write. *)
Definition upload_error (w : World) (src dest file : string) : option error :=
  match fs_readFileSync w (src ++ "\" ++ file)%string with
  | inl ex => Some ex
  | inr contents => dav_writeFile w (dest ++ "/" ++ file)%string contents
  end.

(** Of the uploads of a batch, exactly the one of [file] fails, with [e];
    [before] and [after] are the other files with an extension. *)
Definition exactly_one_fails (w : World) (src dest : string) (files : list string)
    (before : list string) (file : string) (after : list string) (e : error) : Prop :=
  filter has_extension files = before ++ file :: after /\
  upload_error w src dest file = Some e /\
  forall g, In g (before ++ after) -> upload_error w src dest g = None.

(** The events of an upload: the call of [uploader], the read, the write. *)
Definition is_upload (e : event) : bool :=
  match e with
  | EvUploader _ _ | EvReadFileSync _ | EvWriteFile _ _ => true
  | _ => false
  end.

Definition is_mkdir (e : event) : bool :=
  match e with EvMkdir _ _ => true | _ => false end.

(** The events that change something outside the process, or try to: a
    local file written, the build started, a remote folder made, a remote
    write. *)
Definition is_side_effect (e : event) : bool :=
  match e with
  | EvWriteFileSync _ _ _ | EvExeca _ _ | EvMkdir _ _ | EvWriteFile _ _ => true
  | _ => false
  end.

(** Marks of the [call]-th [UploadFiles]. *)
Definition uploader_of (call : nat) (e : event) : bool :=
  match e with EvUploader c _ => Nat.eqb c call | _ => false end.

Definition settled_of (call : nat) (e : event) : bool :=
  match e with EvSettled c _ => Nat.eqb c call | _ => false end.

(** The calls of [uploader] in a trace, with the [UploadFiles] they belong to. *)
Definition uploader_calls (l : list event) : list (nat * string) :=
  flat_map (fun e => match e with EvUploader c f => [(c, f)] | _ => [] end) l.

(** C1 as it is stated: the promise of the batch is rejected with [e],
    and when it settles no upload of the batch is still in flight. *)
Definition settles_failed_after_all (w : World) (call : nat) (src dest : string)
    (files : list string) (e : error) (st : State) : Prop :=
  fst (UploadFiles w call src dest files st) = Rejected e /\
  count_call call (inflight (snd (UploadFiles w call src dest files st))) = 0.

(** The file names for which the [call]-th [UploadFiles] called
    [uploader], the remote paths written to, and the entries of a listing
    that are not among the uploaded names. *)
Definition uploaded_by (call : nat) (l : list event) : list string :=
  flat_map (fun e => match e with
                     | EvUploader c f => if Nat.eqb c call then [f] else []
                     | _ => []
                     end) l.

Definition writes_of (l : list event) : list string :=
  flat_map (fun e => match e with EvWriteFile p _ => [p] | _ => [] end) l.

Definition skipped (files uploaded : list string) : list string :=
  filter (fun o => negb (existsb (String.eqb o) uploaded)) files.

(** The configuration of [env] cannot be used: there is no file to load,
    or what it holds lacks a credential. *)
Definition config_problem (w : World) : Prop :=
  exists env,
    argv2 w = Some env /\ no_env (Some env) = false /\
    match require_json w (env_file env) with
    | None => True
    | Some config => credentials_missing config <> Some false
    end.

(** C5 as it is stated: the run returns early and has no side effect. *)
Definition halts_without_side_effects (w : World) : Prop :=
  fst (run w) = ReturnedEarly /\ filter is_side_effect (trace w) = [].

Definition quote_mark : string := String dquote EmptyString.

(** The text of the sample file, line by line. *)
Definition template_text : string :=
  ("{" ++ newline
   ++ "  " ++ quote_mark ++ "WEBDAV_STOREHASH" ++ quote_mark ++ ": "
   ++ quote_mark ++ quote_mark ++ "," ++ newline
   ++ "  " ++ quote_mark ++ "WEBDAV_USERNAME" ++ quote_mark ++ ": "
   ++ quote_mark ++ quote_mark ++ "," ++ newline
   ++ "  " ++ quote_mark ++ "WEBDAV_PASSWORD" ++ quote_mark ++ ": "
   ++ quote_mark ++ quote_mark ++ newline
   ++ "}")%string.

(** Where an upload writes: under the destination folder or under its
    [static] folder. *)
Definition writes_under (w : World) (e : event) : Prop :=
  match e with
  | EvWriteFile p _ =>
      exists f, p = (dest_of w ++ "/" ++ f)%string \/ p = (static_of w ++ "/" ++ f)%string
  | _ => True
  end.

(** The sample file of the [catch] block: its path, the outcome of its
    write, and how the module body ends after it. *)
Definition sample_path (w : World) (env : string) : string :=
  path_join w (dirname w) (env_file env).

Definition sample_outcome (w : World) (env : string) : option error :=
  fs_writeFileSync w (sample_path w env) (stringify sampleFile 2).

Definition sample_ending (outcome : option error) : ending :=
  match outcome with
  | None => ReturnedEarly
  | Some ex => UncaughtException ex
  end.

(** C6 as it is stated: the template is written and no build is started. *)
Definition writes_template_without_build (w : World) (env : string) : Prop :=
  In (EvWriteFileSync (sample_path w env) template_text None) (trace w) /\
  forall file args, ~ In (EvExeca file args) (trace w).

(** [readFileSync] can read [file] of [src]. *)
Definition readable (w : World) (src file : string) : bool :=
  match fs_readFileSync w (src ++ "\" ++ file)%string with
  | inr _ => true
  | inl _ => false
  end.

End Trace.

(* ================================================================== *)
(** ** Sample worlds *)
(* ================================================================== *)

Module Samples.
Import JSON Promise Deploy.
Local Open Scope list_scope.
Local Open Scope nat_scope.

Definition sample_config : json :=
  JObject [("WEBDAV_STOREHASH", JString "abc"); ("WEBDAV_USERNAME", JString "user");
           ("WEBDAV_PASSWORD", JString "secret")].

(** A checkout whose build output is [a.js], [b.js] and the directory
    [static] holding [c.css]; the server refuses [a.js]; it answers [a.js]
    first, then [c.css], then [b.js]. *)
Definition sample_world (env : option string) (config : option json)
    (build : exec_result) : World :=
  {| argv2 := env;
     dirname := "/repo/scripts";
     path_join := fun a b => (a ++ "/" ++ b)%string;
     require_json := fun p => if String.eqb p "../env.sandbox.json" then config else None;
     clock := 1793588645678%Z;
     npm_run_build := build;
     dav_mkdir := fun _ => None;
     fs_readdir := fun p => if String.eqb p "/repo/scripts/../dist"
                            then inr ["a.js"; "static"; "b.js"]%string
                            else inr ["c.css"]%string;
     fs_readFileSync := fun p => inr ("// " ++ p)%string;
     fs_writeFileSync := fun _ _ => None;
     dav_writeFile := fun p _ => if includes p "a.js" then Some "boom"%string else None;
     arrival := [0; 1; 0] |}.

Definition deploying_world : World :=
  sample_world (Some "sandbox"%string) (Some sample_config) (ExecResult 0 EmptyString).

Definition missing_config_world : World :=
  sample_world (Some "sandbox"%string) None (ExecResult 0 EmptyString).

Definition incomplete_config : json :=
  JObject [("WEBDAV_STOREHASH", JString "abc"); ("WEBDAV_USERNAME", JString EmptyString)].

Definition incomplete_config_world : World :=
  sample_world (Some "sandbox"%string) (Some incomplete_config) (ExecResult 0 EmptyString).

Definition failing_build_world : World :=
  sample_world (Some "sandbox"%string) (Some sample_config) (ExecResult 1 "npm ERR!").

Definition no_argument_world : World :=
  sample_world None (Some sample_config) (ExecResult 0 EmptyString).

(** The configuration file holds [null]. *)
Definition null_config_world : World :=
  sample_world (Some "sandbox"%string) (Some JNull) (ExecResult 0 EmptyString).

(** [node scripts/deploy sub/x]: there is no configuration of that name,
    and no directory [sub] to write the sample file to. *)
Definition unwritable_world : World :=
  {| argv2 := Some "sub/x"%string; dirname := dirname missing_config_world;
     path_join := path_join missing_config_world;
     require_json := require_json missing_config_world;
     clock := clock missing_config_world;
     npm_run_build := npm_run_build missing_config_world;
     dav_mkdir := dav_mkdir missing_config_world;
     fs_readdir := fs_readdir missing_config_world;
     fs_readFileSync := fs_readFileSync missing_config_world;
     fs_writeFileSync := fun _ _ => Some "ENOENT"%string;
     dav_writeFile := dav_writeFile missing_config_world;
     arrival := arrival missing_config_world |}.

(** [readFileSync] fails on the directory [static]. *)
Definition directory_world : World :=
  {| argv2 := argv2 deploying_world; dirname := dirname deploying_world;
     path_join := path_join deploying_world;
     require_json := require_json deploying_world;
     clock := clock deploying_world; npm_run_build := npm_run_build deploying_world;
     dav_mkdir := dav_mkdir deploying_world; fs_readdir := fs_readdir deploying_world;
     fs_readFileSync := fun p => if includes p "static" then inl "EISDIR"%string
                                 else inr ("// " ++ p)%string;
     fs_writeFileSync := fs_writeFileSync deploying_world;
     dav_writeFile := dav_writeFile deploying_world;
     arrival := arrival deploying_world |}.

(** A silent server: the run reaches the transfer stage and no answer
    ever arrives. *)
Definition silent_world : World :=
  {| argv2 := argv2 deploying_world; dirname := dirname deploying_world;
     path_join := path_join deploying_world;
     require_json := require_json deploying_world;
     clock := clock deploying_world; npm_run_build := npm_run_build deploying_world;
     dav_mkdir := dav_mkdir deploying_world; fs_readdir := fs_readdir deploying_world;
     fs_readFileSync := fs_readFileSync deploying_world;
     fs_writeFileSync := fs_writeFileSync deploying_world;
     dav_writeFile := dav_writeFile deploying_world;
     arrival := [] |}.

End Samples.

(* ================================================================== *)
(** ** Outcomes of a run *)
(* ================================================================== *)

Module Outcomes.
Import JSON Promise Deploy Trace.
Local Open Scope list_scope.
Local Open Scope nat_scope.

(** The test of line 53, negated: the configuration is not [null], so
    that its properties can be read, and the three credentials are
    truthy. *)
Definition credentials_complete (config : json) : bool :=
  match get config "WEBDAV_STOREHASH", get config "WEBDAV_USERNAME",
        get config "WEBDAV_PASSWORD" with
  | Some storehash, Some username, Some password =>
      truthy storehash && truthy username && truthy password
  | _, _, _ => false
  end.

(** The script gets past lines 49-63. *)
Definition config_ready (w : World) : bool :=
  match argv2 w with
  | None => false
  | Some env =>
      negb (no_env (Some env))
      && match require_json w (env_file env) with
         | None => false
         | Some config => credentials_complete config
         end
  end.

(** The events by which a trace is read: the build was started, the
    banner of [finished] was printed, a local file was written. *)
Definition is_build (e : event) : bool :=
  match e with EvExeca _ _ => true | _ => false end.

Definition is_banner (e : event) : bool :=
  match e with EvConsoleLog (TxtFinished _ _) => true | _ => false end.

Definition is_sample_write (e : event) : bool :=
  match e with EvWriteFileSync _ _ _ => true | _ => false end.

(** The characters of a folder name. *)
Definition is_name_char (c : ascii) : bool :=
  is_digit c || Ascii.eqb c "-" || Ascii.eqb c "_".

(** The trace up to the start of the build, and up to the end of a
    successful one. *)
Definition build_events (env : string) : list event :=
  [EvConsoleClear; EvConsoleLog TxtHeader; EvRequire (env_file env);
   EvTask Building; EvExeca "npm" ["run"; "build"]%string].

(** What can go wrong after the configuration is loaded: the build, one
    of the two folders, one of the two listings. *)
Definition stage_failure (w : World) (ex : error) : Prop :=
  (exitCode (npm_run_build w) <> 0%Z /\ ex = message (npm_run_build w)) \/
  dav_mkdir w (dest_of w) = Some ex \/
  dav_mkdir w (static_of w) = Some ex \/
  fs_readdir w (dist_of w) = inl ex \/
  fs_readdir w (dist_static_of w) = inl ex.

(** The ways a run goes, with its end and its trace. *)
Inductive run_shape (w : World) : ending -> list event -> Prop :=
| ShapeUsage :
    no_env (argv2 w) = true ->
    run_shape w ReturnedEarly
      [EvConsoleClear; EvConsoleLog TxtHeader; EvConsoleLog TxtUsage]
| ShapeSample env :
    argv2 w = Some env -> no_env (Some env) = false ->
    require_json w (env_file env) = None \/ require_json w (env_file env) = Some JNull ->
    run_shape w (sample_ending (sample_outcome w env))
      [EvConsoleClear; EvConsoleLog TxtHeader; EvRequire (env_file env);
       EvConsoleLog (TxtMissingFile env); EvConsoleLog TxtSampleCreated;
       EvWriteFileSync (sample_path w env) (stringify sampleFile 2) (sample_outcome w env)]
| ShapeIncomplete env config :
    argv2 w = Some env -> no_env (Some env) = false ->
    require_json w (env_file env) = Some config ->
    config <> JNull -> credentials_complete config = false ->
    run_shape w ReturnedEarly
      [EvConsoleClear; EvConsoleLog TxtHeader; EvRequire (env_file env);
       EvConsoleLog (TxtMissingCredentials env)]
| ShapeBuildFailed env :
    argv2 w = Some env -> config_ready w = true ->
    exitCode (npm_run_build w) <> 0%Z ->
    run_shape w (UnhandledRejection (message (npm_run_build w)))
      (build_events env ++ [EvTask BuildFailed])
| ShapeMkdirFailed env ex :
    argv2 w = Some env -> config_ready w = true ->
    exitCode (npm_run_build w) = 0%Z ->
    dav_mkdir w (dest_of w) = Some ex ->
    run_shape w (UnhandledRejection ex)
      (build_events env
         ++ [EvTask CreatingFolder; EvMkdir (dest_of w) (Some ex); EvTask PreDeployFailed])
| ShapeStaticMkdirFailed env ex :
    argv2 w = Some env -> config_ready w = true ->
    exitCode (npm_run_build w) = 0%Z ->
    dav_mkdir w (dest_of w) = None -> dav_mkdir w (static_of w) = Some ex ->
    run_shape w (UnhandledRejection ex)
      (build_events env
         ++ [EvTask CreatingFolder; EvMkdir (dest_of w) None;
             EvMkdir (static_of w) (Some ex); EvTask PreDeployFailed])
| ShapeListFailed env ex :
    argv2 w = Some env -> config_ready w = true ->
    exitCode (npm_run_build w) = 0%Z ->
    dav_mkdir w (dest_of w) = None -> dav_mkdir w (static_of w) = None ->
    fs_readdir w (dist_of w) = inl ex ->
    run_shape w (UnhandledRejection ex)
      (build_events env
         ++ [EvTask CreatingFolder; EvMkdir (dest_of w) None; EvMkdir (static_of w) None;
             EvTask ListingFiles; EvReaddir (dist_of w); EvTask PreDeployFailed])
| ShapeStaticListFailed env files ex :
    argv2 w = Some env -> config_ready w = true ->
    exitCode (npm_run_build w) = 0%Z ->
    dav_mkdir w (dest_of w) = None -> dav_mkdir w (static_of w) = None ->
    fs_readdir w (dist_of w) = inr files ->
    fs_readdir w (dist_static_of w) = inl ex ->
    run_shape w (UnhandledRejection ex)
      (build_events env
         ++ [EvTask CreatingFolder; EvMkdir (dest_of w) None; EvMkdir (static_of w) None;
             EvTask ListingFiles; EvReaddir (dist_of w); EvReaddir (dist_static_of w);
             EvTask PreDeployFailed])
| ShapeTransfer env config files staticFiles done1 done2 done3 p1 p2 :
    reaches_transfer w env config files staticFiles ->
    Forall (fun e => is_done e = true) done1 ->
    Forall (fun e => is_done e = true) done2 ->
    Forall (fun e => is_done e = true) done3 ->
    p1 = Pending \/ p1 = Fulfilled tt -> p2 = Pending \/ p2 = Fulfilled tt ->
    run_shape w
      (match p1, p2 with
       | Fulfilled _, Fulfilled _ => Finished
       | _, _ => NeverResumed
       end)
      (setup_events w env
         ++ [EvTask (Uploading (List.length (filter has_extension (files ++ staticFiles))))]
         ++ deploy_events w files staticFiles done1 done2 p1 p2
         ++ finished_events config w done3 p1 p2).

End Outcomes.

(** ** More sample worlds *)

Module Cases.
Import JSON Promise Deploy Trace Samples.
Local Open Scope list_scope.
Local Open Scope nat_scope.

(** [deploying_world] with another server and other files. *)
Definition sample_world_with (mkdir : string -> option error)
    (readdir : string -> error + list string) (readFile : string -> error + string)
    (writeFile : string -> string -> option error) (answers : list nat) : World :=
  {| argv2 := argv2 deploying_world; dirname := dirname deploying_world;
     path_join := path_join deploying_world;
     require_json := require_json deploying_world;
     clock := clock deploying_world; npm_run_build := npm_run_build deploying_world;
     dav_mkdir := mkdir; fs_readdir := readdir; fs_readFileSync := readFile;
     fs_writeFileSync := fs_writeFileSync deploying_world;
     dav_writeFile := writeFile; arrival := answers |}.

(** The server refuses every folder; it refuses the [static] folders. *)
Definition refusing_world : World :=
  sample_world_with (fun _ => Some "403 Forbidden") (fs_readdir deploying_world)
    (fs_readFileSync deploying_world) (dav_writeFile deploying_world)
    (arrival deploying_world).

Definition refusing_static_world : World :=
  sample_world_with (fun p => if includes p "/static" then Some "403 Forbidden" else None)
    (fs_readdir deploying_world) (fs_readFileSync deploying_world)
    (dav_writeFile deploying_world) (arrival deploying_world).

(** The build output has no [static] directory. *)
Definition unlisted_world : World :=
  sample_world_with (dav_mkdir deploying_world)
    (fun p => if String.eqb p "/repo/scripts/../dist"
              then inr ["a.js"; "static"; "b.js"] else inl "ENOENT")
    (fs_readFileSync deploying_world) (dav_writeFile deploying_world)
    (arrival deploying_world).

(** [b.js] cannot be read. *)
Definition unreadable_world : World :=
  sample_world_with (dav_mkdir deploying_world) (fs_readdir deploying_world)
    (fun p => if includes p "b.js" then inl "EACCES" else inr ("// " ++ p)%string)
    (dav_writeFile deploying_world) (arrival deploying_world).

(** The server accepts every write and answers one of them only. *)
Definition stalled_world : World :=
  sample_world_with (dav_mkdir deploying_world) (fs_readdir deploying_world)
    (fs_readFileSync deploying_world) (fun _ _ => None) [0].

End Cases.

(* ================================================================== *)
(** * Properties *)
(* ================================================================== *)

(** ** The calendar of [toISOString] *)

Module DateFacts.
Local Open Scope Z_scope.

Ltac div_lia := Z.div_mod_to_equations; lia.

Lemma DayFromYear_next (y : Z) :
  DayFromYear y + 365 <= DayFromYear (y + 1) <= DayFromYear y + 366.
Proof. unfold DayFromYear. div_lia. Qed.

Lemma DayFromYear_mono (y y' : Z) : y <= y' -> DayFromYear y <= DayFromYear y'.
Proof. unfold DayFromYear. intros H. div_lia. Qed.

Lemma year_search_spec (fuel : nat) :
  forall y d,
    DayFromYear y <= d -> d < DayFromYear (y + Z.of_nat fuel) ->
    DayFromYear (year_search fuel y d) <= d < DayFromYear (year_search fuel y d + 1).
Proof.
  induction fuel as [|f IH]; intros y d Hlo Hhi; simpl year_search.
  - replace (y + Z.of_nat 0) with y in Hhi by lia. lia.
  - destruct (DayFromYear (y + 1) <=? d) eqn:E.
    + apply Z.leb_le in E. apply IH; [exact E|].
      replace (y + 1 + Z.of_nat f) with (y + Z.of_nat (S f)) by lia. exact Hhi.
    + apply Z.leb_gt in E. lia.
Qed.

Lemma year_start_le (d : Z) : DayFromYear (year_start d) <= d.
Proof. unfold year_start, DayFromYear. div_lia. Qed.

Lemma year_fuel_enough (d : Z) :
  d < DayFromYear (year_start d + Z.of_nat (year_fuel d)).
Proof.
  unfold year_fuel. rewrite Z2Nat.id by div_lia.
  unfold year_start, DayFromYear. div_lia.
Qed.

Lemma YearFromDay_spec (d : Z) :
  DayFromYear (YearFromDay d) <= d < DayFromYear (YearFromDay d + 1).
Proof.
  unfold YearFromDay. apply year_search_spec.
  - apply year_start_le.
  - apply year_fuel_enough.
Qed.

Lemma YearFromDay_unique (d y : Z) :
  DayFromYear y <= d < DayFromYear (y + 1) -> YearFromDay d = y.
Proof.
  intros H. pose proof (YearFromDay_spec d) as S.
  destruct (Z.lt_trichotomy (YearFromDay d) y) as [L|[E|G]]; [|exact E|].
  - pose proof (DayFromYear_mono (YearFromDay d + 1) y). lia.
  - pose proof (DayFromYear_mono (y + 1) (YearFromDay d)). lia.
Qed.

Lemma YearFromDay_mono (d d' : Z) : d <= d' -> YearFromDay d <= YearFromDay d'.
Proof.
  intros H. pose proof (YearFromDay_spec d) as S. pose proof (YearFromDay_spec d') as S'.
  destruct (Z_le_gt_dec (YearFromDay d) (YearFromDay d')) as [L|G]; [exact L|].
  pose proof (DayFromYear_mono (YearFromDay d' + 1) (YearFromDay d)). lia.
Qed.

Lemma month_of_range (dwy leap : Z) : 0 <= month_of dwy leap <= 11.
Proof.
  unfold month_of.
  repeat match goal with |- context [if ?b then _ else _] => destruct b end; lia.
Qed.

Lemma month_of_mono (a b leap : Z) : a <= b -> month_of a leap <= month_of b leap.
Proof.
  intros H. unfold month_of.
  repeat match goal with |- context [?x <? ?y] => destruct (Z.ltb_spec x y) end; lia.
Qed.

Lemma DaysInYear_eq (y : Z) : DaysInYear y = DayFromYear (y + 1) - DayFromYear y.
Proof.
  unfold DaysInYear, DayFromYear.
  repeat match goal with |- context [?x =? ?y] => destruct (Z.eqb_spec x y) end;
    simpl negb; cbv iota; div_lia.
Qed.

Lemma date_of_range (dwy leap : Z) :
  0 <= leap <= 1 -> 0 <= dwy < 365 + leap -> 1 <= date_of dwy leap <= 31.
Proof.
  intros Hl H. unfold date_of, month_of.
  repeat match goal with |- context [?x <? ?y] => destruct (Z.ltb_spec x y) end; lia.
Qed.

Lemma date_of_strict (a b leap : Z) :
  a < b -> month_of a leap = month_of b leap -> date_of a leap < date_of b leap.
Proof.
  intros H E. unfold date_of. rewrite E.
  destruct (month_of b leap) as [|p|p]; try lia.
  do 4 (destruct p as [p|p|]; try lia).
Qed.

End DateFacts.

(** ** Strings: the three [replace] calls and the order of padded numbers *)

Module StringFacts.

Lemma append_assoc (a b c : string) : (a ++ b) ++ c = a ++ b ++ c.
Proof. induction a as [|x a IH]; simpl; [reflexivity | now rewrite IH]. Qed.

Lemma append_nil_r (a : string) : a ++ EmptyString = a.
Proof. induction a as [|x a IH]; simpl; [reflexivity | now rewrite IH]. Qed.

Lemma length_append (a b : string) :
  String.length (a ++ b) = (String.length a + String.length b)%nat.
Proof. induction a as [|x a IH]; simpl; [reflexivity | now rewrite IH]. Qed.

Lemma all_chars_app P (a b : string) :
  all_chars P (a ++ b) = all_chars P a && all_chars P b.
Proof.
  induction a as [|x a IH]; simpl; [reflexivity|].
  now rewrite IH, andb_assoc.
Qed.

Lemma all_chars_impl (P Q : ascii -> bool) (s : string) :
  (forall c, P c = true -> Q c = true) ->
  all_chars P s = true -> all_chars Q s = true.
Proof.
  intros H. induction s as [|x s IH]; simpl; [reflexivity|].
  intros E. apply andb_prop in E as [E1 E2].
  now rewrite (H _ E1), IH.
Qed.

Lemma replace_all_char_app c b (s1 s2 : string) :
  replace_all_char c b (s1 ++ s2)
  = replace_all_char c b s1 ++ replace_all_char c b s2.
Proof.
  induction s1 as [|x s1 IH]; simpl; [reflexivity|].
  destruct (Ascii.eqb x c); rewrite IH; [now rewrite append_assoc | reflexivity].
Qed.

Lemma replace_all_char_none c b (s : string) :
  all_chars (differs c) s = true -> replace_all_char c b s = s.
Proof.
  induction s as [|x s IH]; simpl; [reflexivity|].
  unfold differs at 1. intros E. apply andb_prop in E as [E1 E2].
  apply negb_true_iff in E1. rewrite E1. now rewrite IH.
Qed.

Lemma prefix_one c x (s : string) :
  String.prefix (String c EmptyString) (String x s) = Ascii.eqb x c.
Proof.
  simpl. destruct (ascii_dec c x) as [->|N].
  - rewrite Ascii.eqb_refl. now destruct s.
  - symmetry. apply Ascii.eqb_neq. congruence.
Qed.

Lemma replace_first_char c b (s rest : string) :
  all_chars (differs c) s = true ->
  replace_first (String c EmptyString) b (s ++ String c rest) = s ++ b ++ rest.
Proof.
  induction s as [|x s IH].
  - intros _. cbn [append replace_first]. rewrite prefix_one, Ascii.eqb_refl.
    reflexivity.
  - cbn [append all_chars]. unfold differs at 1. intros E.
    apply andb_prop in E as [E1 E2]. apply negb_true_iff in E1.
    cbn [replace_first]. rewrite prefix_one, E1. now rewrite IH.
Qed.

Lemma skip_line_all (s : string) :
  all_chars (fun x => negb (is_line_terminator x)) s = true ->
  skip_line s = EmptyString.
Proof.
  induction s as [|x s IH]; simpl; [reflexivity|].
  intros E. apply andb_prop in E as [E1 E2]. apply negb_true_iff in E1.
  now rewrite E1, IH.
Qed.

Lemma remove_dot_rest_at (p rest : string) :
  all_chars (differs "."%char) p = true ->
  rest <> EmptyString ->
  all_chars (fun x => negb (is_line_terminator x)) rest = true ->
  remove_dot_rest (p ++ String "."%char rest) = p.
Proof.
  intros Hp Hne Hr. induction p as [|x p IH].
  - cbn [append remove_dot_rest]. rewrite Ascii.eqb_refl.
    destruct rest as [|y rest]; [congruence|].
    pose proof Hr as Hr'. cbn [all_chars] in Hr'.
    apply andb_prop in Hr' as [E1 _]. apply negb_true_iff in E1. rewrite E1.
    now apply skip_line_all.
  - cbn [append all_chars] in *. unfold differs at 1 in Hp.
    apply andb_prop in Hp as [E1 E2]. apply negb_true_iff in E1.
    cbn [remove_dot_rest]. rewrite E1. now rewrite IH.
Qed.

Lemma digit_code (n : Z) : N_of_ascii (digit n) = Z.to_N (48 + n mod 10).
Proof.
  unfold digit. apply N_ascii_embedding.
  assert (0 <= n mod 10 < 10)%Z by (apply Z.mod_pos_bound; lia). lia.
Qed.

Lemma digit_is_digit (n : Z) : is_digit (digit n) = true.
Proof.
  unfold is_digit. rewrite digit_code.
  assert (0 <= n mod 10 < 10)%Z by (apply Z.mod_pos_bound; lia).
  apply andb_true_intro; split; apply N.leb_le; lia.
Qed.

Lemma pad_digits (w : nat) : forall n, all_chars is_digit (pad w n) = true.
Proof.
  induction w as [|w IH]; intros n; simpl; [reflexivity|].
  rewrite all_chars_app, IH. simpl. now rewrite digit_is_digit.
Qed.

Lemma pad_length (w : nat) : forall n, String.length (pad w n) = w.
Proof.
  induction w as [|w IH]; intros n; simpl; [reflexivity|].
  rewrite length_append, IH. simpl. lia.
Qed.

Lemma is_digit_differs (c x : ascii) :
  is_digit c = false -> is_digit x = true -> differs c x = true.
Proof.
  intros Hc Hx. unfold differs. apply negb_true_iff. apply Ascii.eqb_neq.
  intros ->. congruence.
Qed.

Lemma is_digit_not_terminator (x : ascii) :
  is_digit x = true -> negb (is_line_terminator x) = true.
Proof.
  intros Hx. apply negb_true_iff. unfold is_line_terminator.
  apply orb_false_intro; apply Ascii.eqb_neq; intros ->; discriminate.
Qed.

Lemma pad_differs (c : ascii) (w : nat) (n : Z) :
  is_digit c = false -> all_chars (differs c) (pad w n) = true.
Proof.
  intros Hc. apply (all_chars_impl is_digit); [|apply pad_digits].
  intros x. now apply is_digit_differs.
Qed.

(** Comparison of strings cut at equal lengths. *)
Lemma compare_app (a b x y : string) :
  String.length a = String.length b ->
  String.compare (a ++ x) (b ++ y)
  = match String.compare a b with
    | Eq => String.compare x y
    | c => c
    end.
Proof.
  revert b. induction a as [|c a IH]; intros [|d b]; simpl; try discriminate.
  - reflexivity.
  - intros E. injection E as E. rewrite (IH b E).
    destruct (Ascii.compare c d); reflexivity.
Qed.

Lemma compare_refl (a : string) : String.compare a a = Eq.
Proof.
  induction a as [|c a IH]; simpl; [reflexivity|].
  unfold Ascii.compare. now rewrite N.compare_refl.
Qed.

Lemma digit_compare (a b : Z) :
  Ascii.compare (digit a) (digit b) = (a mod 10 ?= b mod 10)%Z.
Proof.
  unfold Ascii.compare. rewrite !digit_code.
  assert (0 <= a mod 10 < 10)%Z by (apply Z.mod_pos_bound; lia).
  assert (0 <= b mod 10 < 10)%Z by (apply Z.mod_pos_bound; lia).
  rewrite Z2N.inj_compare by lia. apply Z.add_compare_mono_l.
Qed.

Lemma pad_compare (w : nat) :
  forall a b : Z,
    (0 <= a < 10 ^ Z.of_nat w)%Z -> (0 <= b < 10 ^ Z.of_nat w)%Z ->
    String.compare (pad w a) (pad w b) = (a ?= b)%Z.
Proof.
  induction w as [|w IH]; intros a b Ha Hb.
  - simpl in *. assert (a = 0)%Z by lia. assert (b = 0)%Z by lia. now subst.
  - rewrite Nat2Z.inj_succ, Z.pow_succ_r in Ha, Hb by lia.
    cbn [pad]. rewrite compare_app by now rewrite !pad_length.
    rewrite IH by (Z.div_mod_to_equations; lia).
    cbn [String.compare]. rewrite digit_compare.
    destruct (Z.compare_spec (a / 10) (b / 10)) as [E|L|G].
    + destruct (Z.compare_spec (a mod 10) (b mod 10)) as [E'|L'|G']; symmetry;
        [apply Z.compare_eq_iff | apply Z.compare_lt_iff | apply Z.compare_gt_iff];
        Z.div_mod_to_equations; lia.
    + symmetry. apply Z.compare_lt_iff. Z.div_mod_to_equations; lia.
    + symmetry. apply Z.compare_gt_iff. Z.div_mod_to_equations; lia.
Qed.

End StringFacts.

(** ** The deployment identifier *)

Module TimestampFacts.
Import StringFacts DateFacts.

Lemma all_digit_differs (c : ascii) (s : string) :
  is_digit c = false -> all_chars is_digit s = true -> all_chars (differs c) s = true.
Proof.
  intros Hc. apply all_chars_impl. intros x. now apply is_digit_differs.
Qed.

Ltac digits := apply all_digit_differs; [reflexivity | assumption].

Lemma strip_iso (Y Mo D H Mi S Ms : string) :
  all_chars is_digit Y = true -> all_chars is_digit Mo = true ->
  all_chars is_digit D = true -> all_chars is_digit H = true ->
  all_chars is_digit Mi = true -> all_chars is_digit S = true ->
  all_chars is_digit Ms = true ->
  remove_dot_rest
    (replace_first "T" ""
       (replace_all_char ":"%char "_"
          (Y ++ "-" ++ Mo ++ "-" ++ D ++ "T" ++ H ++ ":" ++ Mi ++ ":" ++ S
             ++ "." ++ Ms ++ "Z")))
  = Y ++ "-" ++ Mo ++ "-" ++ D ++ H ++ "_" ++ Mi ++ "_" ++ S.
Proof.
  intros HY HMo HD HH HMi HS HMs.
  rewrite !replace_all_char_app.
  cbn [replace_all_char Ascii.eqb Bool.eqb append].
  repeat (rewrite (replace_all_char_none ":"%char) by digits).
  replace (Y ++ String "-" (Mo ++ String "-" (D ++ String "T"
             (H ++ String "_" (Mi ++ String "_" (S ++ String "." (Ms ++ "Z")))))))
    with ((Y ++ String "-" (Mo ++ String "-" D)) ++ String "T"
             (H ++ String "_" (Mi ++ String "_" (S ++ String "." (Ms ++ "Z")))))
    by (rewrite append_assoc; cbn [append]; rewrite append_assoc; reflexivity).
  rewrite replace_first_char.
  2:{ rewrite all_chars_app; cbn [all_chars]; rewrite all_chars_app; cbn [all_chars].
      repeat (rewrite (all_digit_differs "T"%char) by (reflexivity || assumption)).
      reflexivity. }
  cbn [append].
  replace ((Y ++ String "-" (Mo ++ String "-" D))
             ++ H ++ String "_" (Mi ++ String "_" (S ++ String "." (Ms ++ "Z"))))
    with ((Y ++ String "-" (Mo ++ String "-" (D ++ H ++ String "_" (Mi ++ String "_" S))))
            ++ String "." (Ms ++ "Z")).
  2:{ repeat (rewrite !append_assoc; cbn [append]). reflexivity. }
  rewrite remove_dot_rest_at.
  - reflexivity.
  - repeat (rewrite !all_chars_app; cbn [all_chars]).
    repeat (rewrite (all_digit_differs "."%char) by (reflexivity || assumption)).
    reflexivity.
  - destruct Ms; discriminate.
  - rewrite all_chars_app.
    rewrite (all_chars_impl is_digit _ Ms is_digit_not_terminator HMs). reflexivity.
Qed.

Lemma make_timestamp_format (t : Z) :
  (0 <= YearFromTime t <= 9999)%Z ->
  make_timestamp t
  = timestamp_format (YearFromTime t) (MonthFromTime t + 1) (DateFromTime t)
      (HourFromTime t) (MinFromTime t) (SecFromTime t).
Proof.
  intros Hy. unfold make_timestamp, toISOString, year_string, timestamp_format.
  replace ((0 <=? YearFromTime t)%Z && (YearFromTime t <=? 9999)%Z) with true
    by (symmetry; apply andb_true_intro; split; apply Z.leb_le; lia).
  apply strip_iso; apply pad_digits.
Qed.

Local Open Scope Z_scope.

Lemma YearFromTime_range (t : Z) :
  four_digit_years t -> 0 <= YearFromTime t <= 9999.
Proof.
  unfold four_digit_years, YearFromTime. intros H.
  pose proof (YearFromDay_spec (Day t)) as S.
  assert (Hd : DayFromYear 0 <= Day t < DayFromYear 10000).
  { change (DayFromYear 0) with (-719528). change (DayFromYear 10000) with 2932897.
    unfold Day, msPerDay. div_lia. }
  split.
  - destruct (Z_le_gt_dec 0 (YearFromDay (Day t))) as [L|G]; [exact L|].
    pose proof (DayFromYear_mono (YearFromDay (Day t) + 1) 0). lia.
  - destruct (Z_le_gt_dec (YearFromDay (Day t)) 9999) as [L|G]; [exact L|].
    pose proof (DayFromYear_mono 10000 (YearFromDay (Day t))). lia.
Qed.

Lemma InLeapYear_days (t : Z) :
  0 <= InLeapYear t <= 1 /\
  DayFromYear (YearFromTime t + 1) - DayFromYear (YearFromTime t) = 365 + InLeapYear t.
Proof.
  unfold InLeapYear. rewrite DaysInYear_eq.
  pose proof (DayFromYear_next (YearFromTime t)).
  destruct (Z.eqb_spec (DayFromYear (YearFromTime t + 1) - DayFromYear (YearFromTime t)) 366);
    lia.
Qed.

Lemma DayWithinYear_range (t : Z) : 0 <= DayWithinYear t < 365 + InLeapYear t.
Proof.
  unfold DayWithinYear. pose proof (YearFromDay_spec (Day t)) as S.
  fold (YearFromTime t) in S. pose proof (InLeapYear_days t). lia.
Qed.

Lemma field_ranges (t : Z) :
  1 <= MonthFromTime t + 1 <= 12 /\ 1 <= DateFromTime t <= 31 /\
  0 <= HourFromTime t < 24 /\ 0 <= MinFromTime t < 60 /\ 0 <= SecFromTime t < 60.
Proof.
  pose proof (month_of_range (DayWithinYear t) (InLeapYear t)).
  pose proof (date_of_range (DayWithinYear t) (InLeapYear t)
                (proj1 (InLeapYear_days t)) (DayWithinYear_range t)).
  unfold MonthFromTime, DateFromTime, HourFromTime, MinFromTime, SecFromTime.
  repeat split; try lia; apply Z.mod_pos_bound; lia.
Qed.

Lemma same_day_fields (t1 t2 : Z) :
  Day t1 = Day t2 ->
  YearFromTime t1 = YearFromTime t2 /\ MonthFromTime t1 = MonthFromTime t2 /\
  DateFromTime t1 = DateFromTime t2.
Proof.
  intros E.
  unfold MonthFromTime, DateFromTime, InLeapYear, DayWithinYear, YearFromTime.
  now rewrite E.
Qed.

Lemma later_day_fields (t1 t2 : Z) :
  Day t1 < Day t2 ->
  YearFromTime t1 < YearFromTime t2 \/
  YearFromTime t1 = YearFromTime t2 /\
  (MonthFromTime t1 < MonthFromTime t2 \/
   MonthFromTime t1 = MonthFromTime t2 /\ DateFromTime t1 < DateFromTime t2).
Proof.
  intros L.
  pose proof (YearFromDay_mono (Day t1) (Day t2) ltac:(lia)) as Hy.
  fold (YearFromTime t1) (YearFromTime t2) in Hy.
  destruct (Z.eq_dec (YearFromTime t1) (YearFromTime t2)) as [E|N]; [right|left; lia].
  split; [exact E|].
  assert (El : InLeapYear t1 = InLeapYear t2) by (unfold InLeapYear; now rewrite E).
  assert (Ld : DayWithinYear t1 < DayWithinYear t2)
    by (unfold DayWithinYear; rewrite E; lia).
  unfold MonthFromTime, DateFromTime. rewrite El.
  pose proof (month_of_mono (DayWithinYear t1) (DayWithinYear t2) (InLeapYear t2)
                ltac:(lia)) as Hm.
  destruct (Z.eq_dec (month_of (DayWithinYear t1) (InLeapYear t2))
              (month_of (DayWithinYear t2) (InLeapYear t2))) as [Em|Nm];
    [right|left; lia].
  split; [exact Em|]. now apply date_of_strict.
Qed.

Lemma later_second_fields (t1 t2 : Z) :
  t1 / 1000 < t2 / 1000 -> fields_lt t1 t2.
Proof.
  intros L. unfold fields_lt.
  assert (Hd : Day t1 <= Day t2) by (unfold Day, msPerDay; div_lia).
  destruct (Z.eq_dec (Day t1) (Day t2)) as [E|N].
  - destruct (same_day_fields t1 t2 E) as (Ey & Em & Ed).
    right. split; [exact Ey|]. right. split; [exact Em|]. right. split; [exact Ed|].
    unfold Day, msPerDay in E.
    unfold HourFromTime, MinFromTime, SecFromTime, msPerHour, msPerMinute, msPerSecond.
    div_lia.
  - destruct (later_day_fields t1 t2 ltac:(lia)) as [Hy|(Ey & [Hm|(Em & Hdt)])].
    + now left.
    + right. split; [exact Ey|]. now left.
    + right. split; [exact Ey|]. right. split; [exact Em|]. now left.
Qed.

Lemma timestamp_order (t1 t2 : Z) :
  four_digit_years t1 -> four_digit_years t2 -> t1 / 1000 < t2 / 1000 ->
  lex_lt (make_timestamp t1) (make_timestamp t2).
Proof.
  intros R1 R2 L.
  pose proof (YearFromTime_range t1 R1) as Y1.
  pose proof (YearFromTime_range t2 R2) as Y2.
  rewrite !make_timestamp_format by assumption.
  pose proof (field_ranges t1) as (M1 & D1 & H1 & Mi1 & S1).
  pose proof (field_ranges t2) as (M2 & D2 & H2 & Mi2 & S2).
  pose proof (later_second_fields t1 t2 L) as F. unfold fields_lt in F.
  unfold lex_lt, timestamp_format.
  repeat (rewrite compare_app by (now rewrite !pad_length);
          rewrite pad_compare by (simpl; lia);
          cbn [append String.compare Ascii.compare N_of_ascii N_of_digits
                 N.compare N.add N.mul Pos.compare Pos.compare_cont]).
  rewrite pad_compare by (simpl; lia).
  repeat match goal with
         | |- context [?a ?= ?b] => destruct (Z.compare_spec a b)
         end; try reflexivity; exfalso; lia.
Qed.

Lemma timestamp_same_second (t1 t2 : Z) :
  four_digit_years t1 -> four_digit_years t2 -> t1 / 1000 = t2 / 1000 ->
  make_timestamp t1 = make_timestamp t2.
Proof.
  intros R1 R2 E.
  rewrite !make_timestamp_format by now apply YearFromTime_range.
  assert (Ed : Day t1 = Day t2) by (unfold Day, msPerDay; div_lia).
  destruct (same_day_fields t1 t2 Ed) as (-> & -> & ->).
  assert (Eh : HourFromTime t1 = HourFromTime t2)
    by (unfold HourFromTime, msPerHour; div_lia).
  assert (Em : MinFromTime t1 = MinFromTime t2)
    by (unfold MinFromTime, msPerMinute; div_lia).
  assert (Es : SecFromTime t1 = SecFromTime t2)
    by (unfold SecFromTime, msPerSecond; div_lia).
  now rewrite Eh, Em, Es.
Qed.

Example make_timestamp_2026 :
  make_timestamp 1793588645678 = "2026-11-0203_04_05"%string.
Proof. vm_compute. reflexivity. Qed.

(** [toISOString] on a leap day, just before the epoch, and on the two
    sides of each end of the four-digit years. *)
Example toISOString_samples :
  map toISOString
    [951782400000; -1; -62167219200001; -62167219200000;
     253402300799999; 253402300800000]
  = ["2000-02-29T00:00:00.000Z"; "1969-12-31T23:59:59.999Z";
     "-000001-12-31T23:59:59.999Z"; "0000-01-01T00:00:00.000Z";
     "9999-12-31T23:59:59.999Z"; "+010000-01-01T00:00:00.000Z"]%string.
Proof. vm_compute. reflexivity. Qed.

(** Past the year 9999 the sign of the six-digit year sorts before every
    digit: the order of the identifiers is that of the clock only within
    the four-digit years. *)
Example order_breaks_at_year_10000 :
  lex_lt (make_timestamp 253402300800000) (make_timestamp 253402300799999).
Proof. vm_compute. reflexivity. Qed.

(** C3, as stated, fails: two clock readings 999 ms apart, the second
    strictly later, give the same identifier. *)
Lemma timestamp_collision_within_second :
  (1793588645000 < 1793588645999)%Z /\
  make_timestamp 1793588645000 = make_timestamp 1793588645999 /\
  ~ lex_lt (make_timestamp 1793588645000) (make_timestamp 1793588645999).
Proof.
  split; [lia|]. split; [vm_compute; reflexivity|].
  unfold lex_lt. vm_compute. discriminate.
Qed.

(** C3, amended.  For clock readings in the years 0000 to 9999 the
    identifier is [YYYY-MM-DDHH_mm_ss] (colons become underscores, the [T]
    and everything from the decimal point on are removed); of two readings
    the later one gives a strictly greater identifier when it falls in a
    later second, and the same identifier when it falls in the same
    second. *)
Theorem make_timestamp_order (t1 t2 : Z) :
  four_digit_years t1 -> four_digit_years t2 -> (t1 < t2)%Z ->
  make_timestamp t1
  = timestamp_format (YearFromTime t1) (MonthFromTime t1 + 1) (DateFromTime t1)
      (HourFromTime t1) (MinFromTime t1) (SecFromTime t1) /\
  ((t1 / 1000 < t2 / 1000)%Z -> lex_lt (make_timestamp t1) (make_timestamp t2)) /\
  ((t1 / 1000 = t2 / 1000)%Z -> make_timestamp t1 = make_timestamp t2).
Proof.
  intros R1 R2 L. split; [|split].
  - apply make_timestamp_format. now apply YearFromTime_range.
  - now apply timestamp_order.
  - now apply timestamp_same_second.
Qed.

(** C3, amended, on two readings 322 ms apart that straddle a second. *)
Lemma make_timestamp_order_witness :
  lex_lt (make_timestamp 1793588645678) (make_timestamp 1793588646000).
Proof.
  apply (make_timestamp_order 1793588645678 1793588646000).
  - unfold four_digit_years. lia.
  - unfold four_digit_years. lia.
  - lia.
  - vm_compute. reflexivity.
Defined.

End TimestampFacts.

(** ** One batch of uploads *)

Module BatchFacts.
Import JSON Promise Deploy Trace Samples.

Lemma extend_extend e1 r1 e2 r2 st :
  extend e2 r2 (extend e1 r1 st) = extend (e1 ++ e2) (r1 ++ r2) st.
Proof. unfold extend; simpl. now rewrite !app_assoc. Qed.

Lemma extend_nil st : extend [] [] st = st.
Proof. destruct st; unfold extend; simpl. now rewrite !app_nil_r. Qed.

Lemma uploader_run w call src dest file st :
  uploader w call src dest file st
  = (launch_state w src file,
     extend (launch_events w call src dest file) (launch_requests w call src dest file) st).
Proof.
  unfold uploader, launch_state, launch_events, launch_requests, bind, emit, issue, ret, extend.
  destruct (fs_readFileSync w (src ++ "\" ++ file)); simpl;
    rewrite <- ?app_assoc, ?app_nil_r; reflexivity.
Qed.

Lemma mapM_uploader_run w call src dest files st :
  mapM (uploader w call src dest) files st
  = (map (launch_state w src) files,
     extend (flat_map (launch_events w call src dest) files)
            (flat_map (launch_requests w call src dest) files) st).
Proof.
  revert st. induction files as [|f files IH]; intros st.
  - simpl. unfold ret. now rewrite extend_nil.
  - cbn [mapM map flat_map]. unfold bind at 1. rewrite uploader_run.
    unfold bind at 1. rewrite IH. unfold ret. now rewrite extend_extend.
Qed.

Local Open Scope list_scope.

Section RemoveNth.
Context {A : Type}.

Lemma remove_nth_length (i : nat) (l : list A) :
  i < List.length l -> S (List.length (remove_nth i l)) = List.length l.
Proof.
  revert i. induction l as [|a l IH]; intros [|i] H; simpl in *; try lia.
  rewrite IH; lia.
Qed.

Lemma remove_nth_filter (P : A -> bool) (d : A) (i : nat) (l : list A) :
  i < List.length l ->
  List.length (filter P l)
  = List.length (filter P (remove_nth i l)) + (if P (nth i l d) then 1 else 0).
Proof.
  revert i. induction l as [|a l IH]; intros [|i] H; simpl in *; try lia.
  - destruct (P a); simpl; lia.
  - specialize (IH i ltac:(lia)). destruct (P a); simpl; lia.
Qed.

Lemma remove_nth_incl (i : nat) (l : list A) : incl (remove_nth i l) l.
Proof.
  revert i. induction l as [|a l IH]; intros [|i] x; simpl; try tauto.
  intros [E|H]; [now left | right; now apply (IH i)].
Qed.

Lemma remove_nth_keeps (d x : A) (i : nat) (l : list A) :
    In x l -> nth i l d <> x -> In x (remove_nth i l).
  Proof.
    revert i. induction l as [|a l IH]; intros [|i]; simpl; try tauto.
    intros [E|H] N; [now left | right; now apply IH].
  Qed.
End RemoveNth.

Lemma next_arrival_none st :
  inflight st = [] \/ arrivals st = [] -> next_arrival st = (None, st).
Proof.
  unfold next_arrival. intros [E|E]; rewrite E; [reflexivity|].
  now destruct (inflight st).
Qed.

Lemma next_arrival_some st :
  inflight st <> [] -> arrivals st <> [] ->
  exists r st',
    next_arrival st = (Some r, st') /\
    In r (inflight st) /\
    log st' = log st ++ [EvWriteFileDone (req_path r) (req_err r)] /\
    ctx st' = ctx st /\ g_timestamp st' = g_timestamp st /\
    S (List.length (inflight st')) = List.length (inflight st) /\
    S (List.length (arrivals st')) = List.length (arrivals st) /\
    incl (inflight st') (inflight st) /\
    (forall call, count_call call (inflight st)
                  = count_call call (inflight st') + (if of_call call r then 1 else 0)) /\
    (forall x, In x (inflight st) -> r <> x -> In x (inflight st')).
Proof.
  intros Hne Hna. unfold next_arrival.
  destruct (inflight st) as [|r0 rest] eqn:E; [congruence|]. rewrite <- E.
  destruct (arrivals st) as [|a more] eqn:Ea; [congruence|].
  set (i := Nat.modulo a (List.length (inflight st))).
  assert (Hi : i < List.length (inflight st)).
  { apply Nat.mod_upper_bound. rewrite E. discriminate. }
  eexists _, _. split; [reflexivity|]. cbn [log ctx g_timestamp inflight arrivals].
  repeat split.
  - now apply nth_In.
  - now apply remove_nth_length.
  - apply remove_nth_incl.
  - intros call. unfold count_call. now apply remove_nth_filter.
  - intros x Hx N. now apply remove_nth_keeps with (d := r0).
Qed.

(** Nothing in flight, or no answer left: the event loop stands still. *)
Lemma next_arrival_cases st :
  next_arrival st = (None, st) \/
  (inflight st <> [] /\ arrivals st <> []).
Proof.
  destruct (inflight st) as [|r0 rest] eqn:E.
  - left. apply next_arrival_none. now left.
  - destruct (arrivals st) as [|a more] eqn:Ea.
    + left. apply next_arrival_none. now right.
    + right. split; congruence.
Qed.

Lemma turned_refl st : turned st st.
Proof.
  exists []. rewrite app_nil_r. repeat split; auto using incl_refl.
Qed.

Lemma turned_trans st1 st2 st3 : turned st1 st2 -> turned st2 st3 -> turned st1 st3.
Proof.
  intros (d1 & F1 & L1 & C1 & G1 & I1 & N1) (d2 & F2 & L2 & C2 & G2 & I2 & N2).
  exists (d1 ++ d2). repeat split.
  - now apply Forall_app.
  - now rewrite L2, L1, app_assoc.
  - congruence.
  - congruence.
  - eapply incl_tran; eassumption.
  - lia.
Qed.

Lemma turned_step st r st' :
  log st' = log st ++ [EvWriteFileDone (req_path r) (req_err r)] ->
  ctx st' = ctx st -> g_timestamp st' = g_timestamp st ->
  incl (inflight st') (inflight st) ->
  S (List.length (inflight st')) = List.length (inflight st) ->
  S (List.length (arrivals st')) = List.length (arrivals st) ->
  turned st st'.
Proof.
  intros L C G I Hi Ha. exists [EvWriteFileDone (req_path r) (req_err r)].
  repeat split; auto. lia.
Qed.

Lemma writeFile_callback_cases (err : option error) :
  writeFile_callback err
  = match err with Some e => Rejected e | None => Fulfilled tt end.
Proof. now destruct err. Qed.

Lemma turn_until_settled_turned (fuel : nat) :
  forall call agg st,
    turned st (snd (turn_until_settled fuel call agg st)).
Proof.
  induction fuel as [|fuel IH]; intros call agg st; cbn [turn_until_settled].
  - destruct (settled (result agg)); apply turned_refl.
  - destruct (settled (result agg)); [apply turned_refl|].
    destruct (next_arrival_cases st) as [->|[Hi Ha]]; [apply turned_refl|].
    destruct (next_arrival_some st Hi Ha)
      as (r & st' & -> & _ & L & C & G & Ni & Na & I & _).
    eapply turned_trans; [|apply IH]. now apply turned_step with (r := r).
Qed.

(** When every request in flight gets its answer, the aggregate settles. *)
Lemma turn_until_settled_settles (fuel : nat) :
  forall call agg st,
    List.length (inflight st) <= fuel ->
    List.length (inflight st) <= List.length (arrivals st) ->
    (result agg = Pending -> 1 <= remaining agg <= count_call call (inflight st)) ->
    settled (result (fst (turn_until_settled fuel call agg st))) = true.
Proof.
  induction fuel as [|fuel IH]; intros call agg st Hfuel Hans Hinv;
    cbn [turn_until_settled].
  - destruct (settled (result agg)) eqn:S; [exact S|].
    assert (P : result agg = Pending) by (destruct (result agg); now try discriminate).
    specialize (Hinv P). destruct (inflight st); simpl in *; [|lia].
    unfold count_call in Hinv. simpl in Hinv. lia.
  - destruct (settled (result agg)) eqn:S; [exact S|].
    assert (P : result agg = Pending) by (destruct (result agg); now try discriminate).
    specialize (Hinv P).
    assert (Hi : inflight st <> []).
    { intros E. rewrite E in Hinv. unfold count_call in Hinv. simpl in Hinv. lia. }
    assert (Ha : arrivals st <> []).
    { intros E. rewrite E in Hans. destruct (inflight st); [congruence|simpl in Hans; lia]. }
    destruct (next_arrival_some st Hi Ha)
      as (r & st' & -> & _ & _ & _ & _ & Hl & Hl' & _ & Hc & _).
    apply IH; [lia|lia|]. specialize (Hc call).
    destruct (of_call call r) eqn:Oc; unfold of_call in Oc; rewrite Oc.
    + rewrite writeFile_callback_cases. destruct (req_err r); cbn.
      * rewrite P. discriminate.
      * rewrite P. destruct (remaining agg) as [|[|n]]; cbn; try discriminate; lia.
    + intros _. lia.
Qed.

Section AllFacts.
Context {A E : Type}.

Lemma all_rejected_settled (e : E) (a : all_state E) :
  settled (result a) = true -> all_rejected e a = a.
Proof. destruct a as [n [| |]]; cbn; now try discriminate. Qed.

Lemma fold_notify_settled (ps : list (state A E)) :
  forall a : all_state E,
    forallb unfulfilled ps = true -> settled (result a) = true ->
    fold_left (fun a p => all_notify p a) ps a = a.
Proof.
  induction ps as [|p ps IH]; intros a Hu Hs; simpl in *; [reflexivity|].
  apply andb_prop in Hu as [Hp Hu].
  destruct p; try discriminate; cbn [all_notify].
  - now apply IH.
  - rewrite all_rejected_settled by exact Hs. now apply IH.
Qed.

Lemma fold_notify_unfulfilled (ps : list (state A E)) :
  forall a : all_state E,
    forallb unfulfilled ps = true ->
    fold_left (fun a p => all_notify p a) ps a
    = match first_rejection ps with
      | None => a
      | Some e => all_rejected e a
      end.
Proof.
  induction ps as [|p ps IH]; intros a Hu; simpl in *; [reflexivity|].
  apply andb_prop in Hu as [Hp Hu].
  destruct p; try discriminate; cbn [all_notify].
  - now apply IH.
  - apply fold_notify_settled; [exact Hu|].
    destruct a as [n [| |]]; reflexivity.
Qed.

Lemma all_unfulfilled (ps : list (state A E)) :
    forallb unfulfilled ps = true ->
    all ps = match first_rejection ps with
             | None => all_start (List.length ps)
             | Some e => all_rejected e (all_start (List.length ps))
             end.
  Proof. apply fold_notify_unfulfilled. Qed.
End AllFacts.

Lemma launch_state_unfulfilled w src files :
  forallb unfulfilled (map (launch_state w src) files) = true.
Proof.
  induction files as [|f files IH]; simpl; [reflexivity|]. rewrite IH.
  unfold launch_state. now destruct (fs_readFileSync w _).
Qed.

Lemma count_call_app call (l1 l2 : list request) :
  count_call call (l1 ++ l2) = count_call call l1 + count_call call l2.
Proof. unfold count_call. now rewrite filter_app, length_app. Qed.

Lemma launch_requests_count w call src dest files :
  first_rejection (map (launch_state w src) files) = None ->
  count_call call (flat_map (launch_requests w call src dest) files)
  = List.length files.
Proof.
  induction files as [|f files IH]; simpl; [reflexivity|].
  unfold launch_state at 1, launch_requests at 1.
  destruct (fs_readFileSync w _); [discriminate|].
  intros H. cbn [app]. unfold count_call in *. cbn [filter].
  unfold of_call at 1. cbn [req_call]. rewrite Nat.eqb_refl.
  cbn [List.length]. now rewrite IH.
Qed.

Lemma all_launch_invariant w call src dest files (reqs : list request) :
  let agg := all (map (launch_state w src) files) in
  result agg = Pending ->
  1 <= remaining agg
  <= count_call call (reqs ++ flat_map (launch_requests w call src dest) files).
Proof.
  cbn zeta. rewrite all_unfulfilled by apply launch_state_unfulfilled.
  destruct (first_rejection (map (launch_state w src) files)) eqn:F.
  - rewrite length_map. destruct files; cbn; discriminate.
  - rewrite length_map, count_call_app, launch_requests_count by exact F.
    destruct files; cbn; [discriminate|]. intros _. lia.
Qed.

Lemma launch_requests_length w call src dest files :
  List.length (flat_map (launch_requests w call src dest) files) <= List.length files.
Proof.
  induction files as [|f files IH]; cbn [flat_map]; [apply Nat.le_refl|].
  rewrite length_app. unfold launch_requests at 1.
  destruct (fs_readFileSync w _); cbn; lia.
Qed.

Lemma UploadFiles_all_spec w call src dest files st :
  let fs := filter (fun o => includes o ".") files in
  let launched := extend (flat_map (launch_events w call src dest) fs)
                         (flat_map (launch_requests w call src dest) fs) st in
  let r := UploadFiles_all w call src dest files st in
  (List.length (inflight launched) <= List.length (arrivals st) ->
   settled (result (fst r)) = true) /\
  turned launched (snd r).
Proof.
  cbn zeta. unfold UploadFiles_all, bind. rewrite mapM_uploader_run.
  unfold await_all. split.
  - intros Hans. apply turn_until_settled_settles; [apply Nat.le_refl | exact Hans |].
    cbn [extend inflight]. apply all_launch_invariant.
  - apply turn_until_settled_turned.
Qed.

Lemma finally_resolve_catch_reject_cases (r : state unit error) :
  finally_resolve_catch_reject r Pending = if settled r then Fulfilled tt else Pending.
Proof. destruct r; reflexivity. Qed.

Lemma UploadFiles_spec w call src dest files st :
  let fs := filter (fun o => includes o ".") files in
  let r := UploadFiles w call src dest files st in
  exists done,
    Forall (fun e => is_done e = true) done /\
    (fst r = Pending \/ fst r = Fulfilled tt) /\
    (List.length (inflight st)
     + List.length (flat_map (launch_requests w call src dest) fs)
     <= List.length (arrivals st) -> fst r = Fulfilled tt) /\
    log (snd r) = log st ++ flat_map (launch_events w call src dest) fs
                    ++ done ++ settled_mark call (fst r) /\
    ctx (snd r) = ctx st /\ g_timestamp (snd r) = g_timestamp st /\
    List.length (inflight (snd r)) + List.length (arrivals st)
    = List.length (inflight st)
      + List.length (flat_map (launch_requests w call src dest) fs)
      + List.length (arrivals (snd r)).
Proof.
  cbn zeta.
  pose proof (UploadFiles_all_spec w call src dest files st) as H. cbn zeta in H.
  unfold UploadFiles, bind.
  destruct (UploadFiles_all w call src dest files st) as [agg st1].
  cbn [fst snd] in H. destruct H as [Hs (done & Fd & L & C & G & _ & N)].
  rewrite finally_resolve_catch_reject_cases.
  cbn [extend log ctx g_timestamp inflight arrivals] in *.
  rewrite length_app in Hs, N.
  exists done. unfold settled_mark.
  destruct (settled (result agg)) eqn:S; cbn [settled fst snd emit ret log ctx
                                                g_timestamp inflight arrivals].
  - rewrite L, C, G. repeat split; auto. now rewrite <- !app_assoc.
  - rewrite L, C, G. repeat split; auto.
    + intros Hans. specialize (Hs Hans). discriminate.
    + now rewrite <- !app_assoc, app_nil_r.
Qed.

Lemma turn_until_settled_done fuel call (agg : all_state error) st :
  settled (result agg) = true -> turn_until_settled fuel call agg st = (agg, st).
Proof. intros H. destruct fuel; cbn [turn_until_settled]; now rewrite H. Qed.

Lemma count_call_In call r (l : list request) :
  In r l -> of_call call r = true -> 1 <= count_call call l.
Proof.
  intros Hin Hc. unfold count_call.
  assert (In r (filter (of_call call) l)) as H by (apply filter_In; now split).
  destruct (filter (of_call call) l); [contradiction | simpl; lia].
Qed.

Lemma count_call_zero call (l : list request) :
  count_call call l = 0 -> forall q, In q l -> of_call call q = false.
Proof.
  intros Hz q Hin. destruct (of_call call q) eqn:E; [|reflexivity].
  pose proof (count_call_In call q l Hin E). lia.
Qed.

Lemma turn_until_first_failure (fuel : nat) :
  forall call agg st r e,
    List.length (inflight st) <= fuel ->
    List.length (inflight st) <= List.length (arrivals st) ->
    result agg = Pending ->
    remaining agg = count_call call (inflight st) ->
    In r (inflight st) -> req_call r = call -> req_err r = Some e ->
    (forall q, In q (inflight st) -> req_call q = call -> q = r \/ req_err q = None) ->
    exists others,
      result (fst (turn_until_settled fuel call agg st)) = Rejected e /\
      log (snd (turn_until_settled fuel call agg st))
      = log st ++ others ++ [EvWriteFileDone (req_path r) (Some e)].
Proof.
  induction fuel as [|fuel IH];
    intros call agg st r e Hfuel Hans P Hrem Hin Hcall Herr Hothers.
  - destruct (inflight st); [contradiction | simpl in Hfuel; lia].
  - cbn [turn_until_settled]. rewrite P. cbn [settled].
    destruct (next_arrival_some st)
      as (q & st' & -> & Hq & L & _ & _ & Hl & Hl' & I & Hc & Hk).
    { intros E. rewrite E in Hin. contradiction. }
    { intros E. rewrite E in Hans. destruct (inflight st); [contradiction|].
      simpl in Hans. lia. }
    specialize (Hc call).
    assert (Hr : of_call call r = true) by (unfold of_call; rewrite Hcall; apply Nat.eqb_refl).
    destruct (Nat.eqb (req_call q) call) eqn:Q.
    + apply Nat.eqb_eq in Q. unfold of_call in Hc. rewrite Q, Nat.eqb_refl in Hc.
      rewrite writeFile_callback_cases.
      destruct (req_err q) as [e'|] eqn:Eq.
      * destruct (Hothers q Hq Q) as [->|N]; [|congruence].
        assert (e' = e) by congruence. subst e'.
        rewrite turn_until_settled_done by (cbn; now rewrite P).
        exists []. cbn [fst snd all_notify all_rejected result]. rewrite P. cbn.
        split; [reflexivity|]. rewrite L. cbn [app]. repeat f_equal; congruence.
      * assert (Nqr : q <> r) by congruence.
        pose proof (count_call_In call r (inflight st') (Hk r Hin Nqr) Hr) as C1.
        destruct (IH call (all_notify (Fulfilled tt : state unit error) agg) st' r e)
          as (others & R & L');
          try assumption.
        -- lia.
        -- lia.
        -- cbn. destruct (remaining agg) as [|[|n]]; cbn; [lia | lia | exact P].
        -- cbn. lia.
        -- now apply Hk.
        -- intros x Hx. apply Hothers. now apply I.
        -- exists (EvWriteFileDone (req_path q) None :: others).
           split; [exact R|]. rewrite L', L. now rewrite <- app_assoc.
    + unfold of_call in Hc. rewrite Q in Hc.
      assert (Nqr : q <> r) by (intros ->; rewrite Hcall, Nat.eqb_refl in Q; discriminate).
      destruct (IH call agg st' r e) as (others & R & L'); try assumption.
      * lia.
      * lia.
      * lia.
      * now apply Hk.
      * intros x Hx. apply Hothers. now apply I.
      * exists (EvWriteFileDone (req_path q) (req_err q) :: others).
        split; [exact R|]. rewrite L', L. now rewrite <- app_assoc.
Qed.

Lemma exactly_one_reads w src dest before file after e :
  upload_error w src dest file = Some e ->
  (forall g, In g (before ++ after) -> upload_error w src dest g = None) ->
  first_rejection (map (launch_state w src) (before ++ file :: after))
  = match fs_readFileSync w (src ++ "\" ++ file)%string with
    | inl ex => Some ex
    | inr _ => None
    end.
Proof.
  intros Hf Ho.
  assert (Hok : forall g, In g (before ++ after) -> launch_state w src g = Pending).
  { intros g Hg. specialize (Ho g Hg). unfold upload_error in Ho. unfold launch_state.
    now destruct (fs_readFileSync w _). }
  assert (Hnone : forall l, (forall g, In g l -> launch_state w src g = Pending) ->
                            first_rejection (map (launch_state w src) l) = None).
  { induction l as [|g l IH]; intros H; simpl; [reflexivity|].
    rewrite (H g) by now left. apply IH. intros x Hx. apply H. now right. }
  induction before as [|g before IH].
  - cbn [app map first_rejection]. unfold launch_state at 1.
    destruct (fs_readFileSync w (src ++ "\" ++ file)%string); [reflexivity|].
    apply Hnone. intros g Hg. now apply Hok.
  - cbn [app map first_rejection]. rewrite (Hok g) by now left.
    apply IH.
    + intros x Hx. apply Ho. now right.
    + intros x Hx. apply Hok. now right.
Qed.

Lemma launch_requests_In w call src dest files q :
  In q (flat_map (launch_requests w call src dest) files) ->
  exists g contents,
    In g files /\ fs_readFileSync w (src ++ "\" ++ g)%string = inr contents /\
    q = Request call (dest ++ "/" ++ g)%string
          (dav_writeFile w (dest ++ "/" ++ g)%string contents).
Proof.
  intros H. apply in_flat_map in H as (g & Hg & Hq). unfold launch_requests in Hq.
  destruct (fs_readFileSync w (src ++ "\" ++ g)%string) as [ex|contents] eqn:E;
    [contradiction|].
  destruct Hq as [<-|[]]. now exists g, contents.
Qed.

Lemma UploadFiles_settled_log w call src dest files st :
  let ra := UploadFiles_all w call src dest files st in
  let r := UploadFiles w call src dest files st in
  settled (fst r) = settled (result (fst ra)) /\
  log (snd r) = log (snd ra) ++ settled_mark call (fst r).
Proof.
  cbn zeta. unfold UploadFiles, bind.
  destruct (UploadFiles_all w call src dest files st) as [agg st1].
  cbn [fst snd]. rewrite finally_resolve_catch_reject_cases. unfold settled_mark.
  destruct (settled (result agg)); cbn; [now split|]. now rewrite app_nil_r.
Qed.

Lemma UploadFiles_all_one_failure w call src dest files before file after e st :
  count_call call (inflight st) = 0 ->
  List.length (inflight st) + List.length (filter has_extension files)
  <= List.length (arrivals st) ->
  exactly_one_fails w src dest files before file after e ->
  let fs := filter has_extension files in
  let launched := extend (flat_map (launch_events w call src dest) fs)
                         (flat_map (launch_requests w call src dest) fs) st in
  let ra := UploadFiles_all w call src dest files st in
  result (fst ra) = Rejected e /\
  match fs_readFileSync w (src ++ "\" ++ file)%string with
  | inl _ => snd ra = launched
  | inr _ => exists others,
      log (snd ra)
      = log launched ++ others ++ [EvWriteFileDone (dest ++ "/" ++ file)%string (Some e)]
  end.
Proof.
  intros Hfresh Hans (Hfs & Hf & Ho). cbn zeta.
  unfold UploadFiles_all, bind. rewrite mapM_uploader_run. unfold await_all.
  fold has_extension. rewrite Hfs in *.
  pose proof (launch_requests_length w call src dest (before ++ file :: after)) as Hk.
  set (fs := before ++ file :: after).
  set (st1 := extend _ _ st).
  pose proof (exactly_one_reads w src dest before file after e Hf Ho) as Hfirst.
  fold fs in Hfirst.
  pose proof (all_unfulfilled (map (launch_state w src) fs)
                (launch_state_unfulfilled w src fs)) as Hall.
  rewrite Hfirst, length_map in Hall.
  assert (Hlen : List.length fs = S (List.length before + List.length after)).
  { unfold fs. rewrite length_app. simpl. lia. }
  unfold upload_error in Hf.
  destruct (fs_readFileSync w (src ++ "\" ++ file)%string) as [ex|contents] eqn:Rd.
  - injection Hf as ->. rewrite Hall, Hlen.
    rewrite turn_until_settled_done by reflexivity. now split.
  - rewrite Hall, Hlen.
    set (r := Request call (dest ++ "/" ++ file)%string (Some e)).
    destruct (turn_until_first_failure (List.length (inflight st1)) call
                (all_start (S (List.length before + List.length after))) st1 r e)
      as (others & R & L); try reflexivity.
    + subst st1. cbn [extend inflight arrivals]. rewrite length_app. unfold fs. lia.
    + subst st1. cbn [extend inflight remaining all_start].
      rewrite count_call_app, Hfresh, launch_requests_count, Hlen by exact Hfirst.
      reflexivity.
    + subst st1. cbn [extend inflight]. apply in_or_app. right.
      apply in_flat_map. exists file. split; [unfold fs; apply in_elt|].
      unfold launch_requests. rewrite Rd, Hf. now left.
    + intros q Hq Hc. subst st1. cbn [extend inflight] in Hq.
      apply in_app_or in Hq as [Hq|Hq].
      * pose proof (count_call_zero call _ Hfresh q Hq) as Z.
        unfold of_call in Z. rewrite Hc, Nat.eqb_refl in Z. discriminate.
      * apply launch_requests_In in Hq as (g & c & Hg & Rg & ->).
        unfold fs in Hg. apply in_app_or in Hg as [Hg|[<-|Hg]].
        -- right. cbn. specialize (Ho g (in_or_app _ _ _ (or_introl Hg))).
           unfold upload_error in Ho. now rewrite Rg in Ho.
        -- left. unfold r. rewrite Rd in Rg. injection Rg as <-. now rewrite Hf.
        -- right. cbn. specialize (Ho g (in_or_app _ _ _ (or_intror Hg))).
           unfold upload_error in Ho. now rewrite Rg in Ho.
    + split; [exact R|]. exists others. exact L.
Qed.

Local Open Scope nat_scope.

(** C1, as stated, fails: in [deploying_world] the first batch has two
    uploads, [a.js] and [b.js]; only [a.js] fails and its answer arrives
    first.  The promise of [UploadFiles] is then fulfilled, not rejected,
    and [b.js] is still in flight when it settles. *)
Lemma one_failure_settles_early :
  let w := deploying_world in
  let files := ["a.js"; "static"; "b.js"]%string in
  exactly_one_fails w (dist_of w) (dest_of w) files [] "a.js" ["b.js"]%string "boom" /\
  fst (UploadFiles w 1 (dist_of w) (dest_of w) files (initial w)) = Fulfilled tt /\
  count_call 1 (inflight (snd (UploadFiles w 1 (dist_of w) (dest_of w) files (initial w)))) = 1 /\
  ~ settles_failed_after_all w 1 (dist_of w) (dest_of w) files "boom" (initial w).
Proof.
  cbv zeta. split; [|split; [|split]].
  - split; [reflexivity|]. split; [reflexivity|].
    intros g [<-|[]]. reflexivity.
  - vm_compute. reflexivity.
  - vm_compute. reflexivity.
  - intros [H _]. vm_compute in H. discriminate.
Qed.

(** C1, amended.  When exactly one upload of a batch fails, with [e], and
    the uploads of the batch get their answers, the aggregate
    [Promise.all(promises)] rejects with [e], and the promise that
    [UploadFiles] returns settles at that very moment: right after the
    callback of the failed write (its event is the last one before
    [EvSettled]), or, when the read of the file failed, before any turn of
    the event loop, every write of the batch still being in flight.  The
    batch does not wait for the other uploads. *)
Theorem UploadFiles_one_failure w call src dest files before file after e st :
  count_call call (inflight st) = 0 ->
  List.length (inflight st) + List.length (filter has_extension files)
  <= List.length (arrivals st) ->
  exactly_one_fails w src dest files before file after e ->
  let fs := filter has_extension files in
  let launched := extend (flat_map (launch_events w call src dest) fs)
                         (flat_map (launch_requests w call src dest) fs) st in
  let ra := UploadFiles_all w call src dest files st in
  let r := UploadFiles w call src dest files st in
  result (fst ra) = Rejected e /\
  settled (fst r) = true /\
  log (snd r) = log (snd ra) ++ [EvSettled call (fst r)] /\
  match fs_readFileSync w (src ++ "\" ++ file)%string with
  | inl _ => snd ra = launched
  | inr _ => exists others,
      log (snd ra)
      = log launched ++ others ++ [EvWriteFileDone (dest ++ "/" ++ file)%string (Some e)]
  end.
Proof.
  intros Hfresh Hans Hone. cbv zeta.
  destruct (UploadFiles_all_one_failure w call src dest files before file after e st
              Hfresh Hans Hone) as [R T].
  destruct (UploadFiles_settled_log w call src dest files st) as [S L].
  rewrite R in S. cbn [settled] in S. unfold settled_mark in L. rewrite S in L.
  repeat split; assumption.
Qed.

(** C1, amended, on [deploying_world]: [a.js] is refused with ["boom"]. *)
Lemma UploadFiles_one_failure_witness :
  let w := deploying_world in
  let files := ["a.js"; "static"; "b.js"]%string in
  result (fst (UploadFiles_all w 1 (dist_of w) (dest_of w) files (initial w)))
  = Rejected "boom"%string /\
  settled (fst (UploadFiles w 1 (dist_of w) (dest_of w) files (initial w))) = true.
Proof.
  cbv zeta.
  assert (Hone : exactly_one_fails deploying_world (dist_of deploying_world)
                   (dest_of deploying_world) ["a.js"; "static"; "b.js"]%string
                   [] "a.js"%string ["b.js"]%string "boom"%string).
  { split; [reflexivity|]. split; [reflexivity|]. intros g [<-|[]]. reflexivity. }
  pose proof (UploadFiles_one_failure deploying_world 1 (dist_of deploying_world)
                (dest_of deploying_world) ["a.js"; "static"; "b.js"]%string
                [] "a.js"%string ["b.js"]%string "boom"%string (initial deploying_world)
                eq_refl (le_S _ _ (le_n 2)) Hone) as H.
  cbv zeta in H. exact (conj (proj1 H) (proj1 (proj2 H))).
Defined.

Lemma uploaded_by_app call (a b : list event) :
  uploaded_by call (a ++ b) = uploaded_by call a ++ uploaded_by call b.
Proof. apply flat_map_app. Qed.

Lemma uploaded_by_launch w call src dest files :
  uploaded_by call (flat_map (launch_events w call src dest) files) = files.
Proof.
  induction files as [|f files IH]; cbn [flat_map]; [reflexivity|].
  rewrite uploaded_by_app, IH. unfold launch_events.
  destruct (fs_readFileSync w _); cbn; now rewrite Nat.eqb_refl.
Qed.

Lemma uploaded_by_done call (l : list event) :
  Forall (fun e => is_done e = true) l -> uploaded_by call l = [].
Proof.
  induction 1 as [|e l He _ IH]; [reflexivity|].
  destruct e; try discriminate. exact IH.
Qed.

Lemma writes_of_app (a b : list event) : writes_of (a ++ b) = writes_of a ++ writes_of b.
Proof. apply flat_map_app. Qed.

Lemma writes_of_done (l : list event) :
  Forall (fun e => is_done e = true) l -> writes_of l = [].
Proof.
  induction 1 as [|e l He _ IH]; [reflexivity|].
  destruct e; try discriminate. exact IH.
Qed.

Lemma skipped_filter (P : string -> bool) (files : list string) :
  skipped files (filter P files) = filter (fun o => negb (P o)) files.
Proof.
  unfold skipped. apply filter_ext_in. intros o Ho. f_equal.
  destruct (P o) eqn:E.
  - apply existsb_exists. exists o. split; [|apply String.eqb_refl].
    apply filter_In. now split.
  - destruct (existsb (String.eqb o) (filter P files)) eqn:X; [|reflexivity].
    apply existsb_exists in X as (x & Hx & Ex). apply String.eqb_eq in Ex. subst x.
    apply filter_In in Hx as [_ Hx]. congruence.
Qed.

Lemma uploaded_by_mark call c p : uploaded_by call (settled_mark c p) = [].
Proof. unfold settled_mark. now destruct (settled p). Qed.

Lemma writes_of_mark c p : writes_of (settled_mark c p) = [].
Proof. unfold settled_mark. now destruct (settled p). Qed.

Lemma writes_of_launch_readable w call src dest files :
  writes_of (flat_map (launch_events w call src dest) files)
  = map (fun f => (dest ++ "/" ++ f)%string) (filter (readable w src) files).
Proof.
  induction files as [|f files IH]; cbn [flat_map map filter]; [reflexivity|].
  rewrite writes_of_app, IH. unfold launch_events, readable.
  now destruct (fs_readFileSync w (src ++ "\" ++ f)%string).
Qed.

Lemma filter_all (P : string -> bool) (l : list string) :
  (forall f, In f l -> P f = true) -> filter P l = l.
Proof.
  induction l as [|f l IH]; intros H; cbn [filter]; [reflexivity|].
  rewrite (H f (or_introl eq_refl)), IH; [reflexivity|].
  intros g Hg. apply H. now right.
Qed.

(** C4.  Of a listing with [N] names that contain a dot and [M] that do
    not, [UploadFiles] calls [uploader] for exactly the [N] names with a
    dot, in the order of the listing, and skips the [M] others, which it
    does not even read.  The remote writes it issues are those of the
    names with a dot that can be read; when each of the [N] can be read,
    whatever the [M] others are, there are [N] writes, one for each. *)
Theorem UploadFiles_uploads_extension_files w call src dest files st (N M : nat) :
  List.length (filter (fun o => includes o ".") files) = N ->
  List.length (filter (fun o => negb (includes o ".")) files) = M ->
  exists new,
    log (snd (UploadFiles w call src dest files st)) = log st ++ new /\
    uploaded_by call new = filter (fun o => includes o ".") files /\
    List.length (uploaded_by call new) = N /\
    List.length (skipped files (uploaded_by call new)) = M /\
    N + M = List.length files /\
    writes_of new
    = map (fun f => (dest ++ "/" ++ f)%string)
        (filter (readable w src) (filter (fun o => includes o ".") files)) /\
    ((forall f, In f files -> includes f "." = true ->
                exists c, fs_readFileSync w (src ++ "\" ++ f)%string = inr c) ->
     writes_of new
     = map (fun f => (dest ++ "/" ++ f)%string) (filter (fun o => includes o ".") files) /\
     List.length (writes_of new) = N).
Proof.
  intros HN HM.
  destruct (UploadFiles_spec w call src dest files st) as (done & D & _ & _ & L & _).
  cbv zeta in L.
  eexists. split; [exact L|].
  assert (U : uploaded_by call
                (flat_map (launch_events w call src dest)
                   (filter (fun o => includes o ".") files)
                 ++ done
                 ++ settled_mark call (fst (UploadFiles w call src dest files st)))
              = filter (fun o => includes o ".") files).
  { rewrite !uploaded_by_app, uploaded_by_launch, (uploaded_by_done call done D),
      uploaded_by_mark.
    cbn. now rewrite app_nil_r. }
  assert (W : writes_of
                (flat_map (launch_events w call src dest)
                   (filter (fun o => includes o ".") files)
                 ++ done
                 ++ settled_mark call (fst (UploadFiles w call src dest files st)))
              = map (fun f => (dest ++ "/" ++ f)%string)
                  (filter (readable w src) (filter (fun o => includes o ".") files))).
  { rewrite !writes_of_app, (writes_of_done done D), writes_of_mark,
      writes_of_launch_readable.
    cbn. now rewrite app_nil_r. }
  rewrite U, W. split; [reflexivity|]. split; [exact HN|].
  split; [|split; [|split; [reflexivity|]]].
  - now rewrite skipped_filter.
  - subst N M. apply filter_length.
  - intros Hr. rewrite (filter_all (readable w src)).
    + split; [reflexivity|]. now rewrite length_map.
    + intros f Hf. apply filter_In in Hf as [Hf He].
      destruct (Hr f Hf He) as (c & E). unfold readable. now rewrite E.
Qed.

(** C4 on the listing [a.js], [static], [b.js], where [static] is a
    directory that cannot be read as a file: two uploads with their
    writes, one skip. *)
Lemma UploadFiles_uploads_extension_files_witness :
  fs_readFileSync directory_world "dist\static" = inl "EISDIR"%string /\
  exists new,
    log (snd (UploadFiles directory_world 1 "dist" "/dav" ["a.js"; "static"; "b.js"]%string
                (initial directory_world))) = [] ++ new /\
    uploaded_by 1 new = ["a.js"; "b.js"]%string /\
    List.length (uploaded_by 1 new) = 2 /\
    List.length (skipped ["a.js"; "static"; "b.js"]%string (uploaded_by 1 new)) = 1 /\
    writes_of new = ["/dav/a.js"; "/dav/b.js"]%string /\
    List.length (writes_of new) = 2.
Proof.
  split; [reflexivity|].
  destruct (UploadFiles_uploads_extension_files directory_world 1 "dist" "/dav"
              ["a.js"; "static"; "b.js"]%string (initial directory_world) 2 1
              eq_refl eq_refl) as (new & L & U & Hn & Hs & _ & _ & Hw).
  destruct Hw as [W Wn].
  { intros f [<-|[<-|[<-|[]]]] E; try discriminate E; eexists; reflexivity. }
  exists new. repeat split; assumption.
Defined.

End BatchFacts.

(** ** Whole runs *)

Module RunFacts.
Import JSON Promise Deploy Trace Samples BatchFacts.
Local Open Scope list_scope.

Lemma drain_turned (fuel : nat) : forall st, turned st (snd (drain fuel st)).
Proof.
  induction fuel as [|fuel IH]; intros st; cbn [drain]; [apply turned_refl|].
  unfold bind.
  destruct (next_arrival_cases st) as [->|[Hi Ha]]; [apply turned_refl|].
  destruct (next_arrival_some st Hi Ha)
    as (r & st' & -> & _ & L & C & G & Ni & Na & I & _).
  eapply turned_trans; [|apply IH]. now apply turned_step with (r := r).
Qed.

Lemma deploy_checkout_spec w st :
  exists done1 done2 p1 p2 st',
    deploy_checkout w st
    = (match p1, p2 with
       | Fulfilled _, Fulfilled _ => Resolved
       | _, _ => NeverSettles
       end, st') /\
    Forall (fun e => is_done e = true) done1 /\
    Forall (fun e => is_done e = true) done2 /\
    (p1 = Pending \/ p1 = Fulfilled tt) /\ (p2 = Pending \/ p2 = Fulfilled tt) /\
    (List.length (inflight st)
     + List.length (filter has_extension (distFiles (ctx st)))
     + List.length (filter has_extension (distStaticFiles (ctx st)))
     <= List.length (arrivals st) -> p1 = Fulfilled tt /\ p2 = Fulfilled tt) /\
    log st'
    = log st
        ++ [EvTask (Uploading (fileCount (ctx st)))]
        ++ flat_map (launch_events w 1 (distFolder (ctx st)) (destFolder (ctx st)))
             (filter has_extension (distFiles (ctx st)))
        ++ done1 ++ settled_mark 1 p1
        ++ match p1 with
           | Fulfilled _ =>
               flat_map (launch_events w 2 (distStaticFolder (ctx st))
                           (destFolder (ctx st) ++ "/static")%string)
                 (filter has_extension (distStaticFiles (ctx st)))
                 ++ done2 ++ settled_mark 2 p2
           | _ => []
           end /\
    g_timestamp st' = g_timestamp st.
Proof.
  unfold deploy_checkout, await_upload, get_ctx.
  unfold bind at 1. unfold bind at 1. cbn [emit].
  set (st1 := {| log := log st ++ [EvTask (Uploading (fileCount (ctx st)))];
                 inflight := inflight st; arrivals := arrivals st;
                 g_timestamp := g_timestamp st; ctx := ctx st |}).
  unfold bind at 1.
  pose proof (launch_requests_length w 1 (distFolder (ctx st)) (destFolder (ctx st))
                (filter has_extension (distFiles (ctx st)))) as K1.
  pose proof (launch_requests_length w 2 (distStaticFolder (ctx st))
                (destFolder (ctx st) ++ "/static")%string
                (filter has_extension (distStaticFiles (ctx st)))) as K2.
  unfold has_extension in *.
  destruct (UploadFiles_spec w 1 (distFolder (ctx st)) (destFolder (ctx st))
              (distFiles (ctx st)) st1) as (done1 & D1 & P1 & A1 & L1 & C1 & G1 & N1).
  destruct (UploadFiles w 1 (distFolder (ctx st)) (destFolder (ctx st))
              (distFiles (ctx st)) st1) as [p1 st2].
  cbn [fst snd] in *. subst st1. cbn [log inflight arrivals g_timestamp ctx] in *.
  destruct P1 as [->| ->].
  - exists done1, [], Pending, Pending, st2. unfold ret.
    repeat split; auto.
    + apply A1. lia.
    + exfalso. assert (Pending = Fulfilled tt :> state unit error) by (apply A1; lia).
      discriminate.
    + rewrite L1. now rewrite <- !app_assoc, !app_nil_r.
  - unfold bind at 1.
    destruct (UploadFiles_spec w 2 (distStaticFolder (ctx st))
                (destFolder (ctx st) ++ "/static")%string
                (distStaticFiles (ctx st)) st2)
      as (done2 & D2 & P2 & A2 & L2 & C2 & G2 & N2).
    destruct (UploadFiles w 2 (distStaticFolder (ctx st))
                (destFolder (ctx st) ++ "/static")%string
                (distStaticFiles (ctx st)) st2) as [p2 st3].
    cbn [fst snd] in *.
    exists done1, done2, (Fulfilled tt), p2, st3.
    split; [destruct P2 as [->| ->]; reflexivity|].
    repeat split; auto.
    + apply A2. lia.
    + rewrite L2, L1. now rewrite <- !app_assoc.
    + congruence.
Qed.

Lemma transfer_trace w env config files staticFiles :
  reaches_transfer w env config files staticFiles ->
  exists done1 done2 done3 p1 p2,
    Forall (fun e => is_done e = true) done1 /\
    Forall (fun e => is_done e = true) done2 /\
    Forall (fun e => is_done e = true) done3 /\
    (p1 = Pending \/ p1 = Fulfilled tt) /\ (p2 = Pending \/ p2 = Fulfilled tt) /\
    (answers_suffice w files staticFiles -> p1 = Fulfilled tt /\ p2 = Fulfilled tt) /\
    fst (run w) = match p1, p2 with
                  | Fulfilled _, Fulfilled _ => Finished
                  | _, _ => NeverResumed
                  end /\
    trace w
    = setup_events w env
        ++ [EvTask (Uploading (List.length (filter has_extension (files ++ staticFiles))))]
        ++ deploy_events w files staticFiles done1 done2 p1 p2
        ++ finished_events config w done3 p1 p2.
Proof.
  intros (Ha & Hn & Hr & Hc & Hb & Hm1 & Hm2 & Hd1 & Hd2).
  unfold answers_suffice, deploy_events, finished_events, batch_events.
  unfold static_of, dest_of, dist_static_of, dist_of in *.
  unfold trace, run, main, initial.
  rewrite Ha, Hn.
  unfold tasks, Listr_run, build_checkout, pre_deploy_setup, pre_deploy_try, try_await,
    MakeDir, ListFiles, update_ctx, get_ctx, set_ctx, set_timestamp, bind, emit, ret.
  cbn -[make_timestamp append deploy_checkout includes].
  rewrite Hr, Hc, Hb. cbn -[make_timestamp append deploy_checkout includes].
  rewrite Hm1, Hm2, Hd1, Hd2.
  cbn -[make_timestamp append deploy_checkout includes].
  match goal with
  | |- context [deploy_checkout w ?s] =>
      destruct (deploy_checkout_spec w s)
        as (done1 & done2 & p1 & p2 & st1 & -> & F1 & F2 & P1 & P2 & A & L & G)
  end.
  cbn [fst snd log g_timestamp ctx inflight arrivals] in *.
  cbn [with_fileCount with_distStaticFiles with_distFiles with_distStaticFolder
         with_distFolder with_destFolder with_timestamp fileCount distFiles distStaticFiles
         distFolder distStaticFolder destFolder] in *.
  assert (A' : List.length (filter has_extension (files ++ staticFiles))
               <= List.length (arrival w) -> p1 = Fulfilled tt /\ p2 = Fulfilled tt).
  { intros H. apply A. rewrite filter_app, length_app in H. cbn. lia. }
  destruct P1 as [->| ->].
  - exists done1, done2, [], Pending, p2. cbn [fst snd].
    split; [exact F1|]. split; [exact F2|]. split; [constructor|].
    split; [now left|]. split; [exact P2|]. split; [exact A'|].
    split; [reflexivity|]. rewrite L.
    unfold setup_events, static_of, dest_of, dist_static_of, dist_of.
    repeat (rewrite <- ?app_assoc, <- ?app_comm_cons; cbn [app]). reflexivity.
  - destruct P2 as [->| ->].
    + exists done1, done2, [], (Fulfilled tt), Pending. cbn [fst snd].
      split; [exact F1|]. split; [exact F2|]. split; [constructor|].
      split; [now right|]. split; [now left|]. split; [exact A'|].
      split; [reflexivity|]. rewrite L.
      unfold setup_events, static_of, dest_of, dist_static_of, dist_of.
      repeat (rewrite <- ?app_assoc, <- ?app_comm_cons; cbn [app]). reflexivity.
    + match goal with
      | |- context [drain ?n ?s] =>
          pose proof (drain_turned n s) as (done3 & F3 & L3 & _)
      end.
      destruct (drain _ _) as [u st2]. cbn [fst snd log] in *.
      exists done1, done2, done3, (Fulfilled tt), (Fulfilled tt).
      split; [exact F1|]. split; [exact F2|]. split; [exact F3|].
      split; [now right|]. split; [now right|]. split; [exact A'|].
      split; [reflexivity|]. rewrite L3, L, G.
      unfold setup_events, storehash_of, static_of, dest_of, dist_static_of, dist_of.
      repeat (rewrite <- ?app_assoc, <- ?app_comm_cons; cbn [app]). reflexivity.
Qed.

Ltac run_script :=
  unfold tasks, Listr_run, build_checkout, pre_deploy_setup, pre_deploy_try, try_await,
    MakeDir, ListFiles, update_ctx, get_ctx, set_ctx, set_timestamp, config_catch,
    bind, emit, ret;
  cbn -[make_timestamp append deploy_checkout includes stringify].

Lemma usage_run w :
  no_env (argv2 w) = true ->
  fst (run w) = ReturnedEarly /\
  trace w = [EvConsoleClear; EvConsoleLog TxtHeader; EvConsoleLog TxtUsage].
Proof.
  unfold trace, run, main, initial. intros H.
  destruct (argv2 w) as [env|]; [rewrite H|]; run_script; now split.
Qed.

Lemma config_catch_run w env :
  argv2 w = Some env -> no_env (Some env) = false ->
  (require_json w (env_file env) = None \/
   exists config, require_json w (env_file env) = Some config /\
                  credentials_missing config = None) ->
  fst (run w) = sample_ending (sample_outcome w env) /\
  trace w = [EvConsoleClear; EvConsoleLog TxtHeader; EvRequire (env_file env);
             EvConsoleLog (TxtMissingFile env); EvConsoleLog TxtSampleCreated;
             EvWriteFileSync (sample_path w env) (stringify sampleFile 2)
               (sample_outcome w env)].
Proof.
  unfold trace, run, main, initial, sample_ending, sample_outcome, sample_path.
  intros Ha Hn H. rewrite Ha, Hn.
  destruct H as [H|(config & H & Hc)]; run_script; rewrite H; [|rewrite Hc];
    run_script; destruct (fs_writeFileSync w _ _); now split.
Qed.

Lemma credentials_missing_null (config : json) :
  credentials_missing config = None -> config = JNull.
Proof.
  destruct config; try reflexivity; unfold credentials_missing; cbn [get];
    try discriminate.
  destruct (truthy (lookup "WEBDAV_STOREHASH" fields)); [|discriminate].
  destruct (truthy (lookup "WEBDAV_USERNAME" fields)); discriminate.
Qed.

Lemma sample_ending_unfinished (outcome : option error) :
  sample_ending outcome <> Finished.
Proof. destruct outcome; discriminate. Qed.

Lemma incomplete_run w env config :
  argv2 w = Some env -> no_env (Some env) = false ->
  require_json w (env_file env) = Some config ->
  credentials_missing config = Some true ->
  fst (run w) = ReturnedEarly /\
  trace w = [EvConsoleClear; EvConsoleLog TxtHeader; EvRequire (env_file env);
             EvConsoleLog (TxtMissingCredentials env)].
Proof.
  unfold trace, run, main, initial. intros Ha Hn H Hc. rewrite Ha, Hn.
  run_script. rewrite H, Hc. run_script. now split.
Qed.

Lemma build_failure_run w env config :
  argv2 w = Some env -> no_env (Some env) = false ->
  require_json w (env_file env) = Some config ->
  credentials_missing config = Some false ->
  exitCode (npm_run_build w) <> 0%Z ->
  fst (run w) = UnhandledRejection (message (npm_run_build w)) /\
  trace w = [EvConsoleClear; EvConsoleLog TxtHeader; EvRequire (env_file env);
             EvTask Building; EvExeca "npm" ["run"; "build"]%string; EvTask BuildFailed].
Proof.
  unfold trace, run, main, initial. intros Ha Hn H Hc Hb. rewrite Ha, Hn.
  run_script. rewrite H, Hc. apply Z.eqb_neq in Hb. rewrite Hb. run_script. now split.
Qed.

(** A run uploads nothing unless it reaches the transfer stage. *)
Lemma run_cases w :
  (exists env config files staticFiles,
      reaches_transfer w env config files staticFiles) \/
  forallb (fun e => negb (is_upload e)) (trace w) = true.
Proof.
  destruct (no_env (argv2 w)) eqn:Hn.
  { right. now rewrite (proj2 (usage_run w Hn)). }
  destruct (argv2 w) as [env|] eqn:Ha; [|discriminate].
  destruct (require_json w (env_file env)) as [config|] eqn:Hr.
  2:{ right. rewrite (proj2 (config_catch_run w env Ha Hn (or_introl Hr))). reflexivity. }
  destruct (credentials_missing config) as [[|]|] eqn:Hc.
  { right. now rewrite (proj2 (incomplete_run w env config Ha Hn Hr Hc)). }
  2:{ right. rewrite (proj2 (config_catch_run w env Ha Hn
                               (or_intror (ex_intro _ config (conj Hr Hc))))).
      reflexivity. }
  destruct (Z.eq_dec (exitCode (npm_run_build w)) 0) as [Hb|Hb].
  2:{ right. now rewrite (proj2 (build_failure_run w env config Ha Hn Hr Hc Hb)). }
  destruct (dav_mkdir w (dest_of w)) as [e1|] eqn:Hm1.
  { right. unfold dest_of in Hm1. unfold trace, run, main, initial. rewrite Ha, Hn.
    run_script. rewrite Hr, Hc, Hb. run_script. rewrite Hm1. reflexivity. }
  destruct (dav_mkdir w (static_of w)) as [e2|] eqn:Hm2.
  { right. unfold static_of, dest_of in Hm1, Hm2. unfold trace, run, main, initial.
    rewrite Ha, Hn. run_script. rewrite Hr, Hc, Hb. run_script. rewrite Hm1, Hm2.
    reflexivity. }
  destruct (fs_readdir w (dist_of w)) as [e3|files] eqn:Hd1.
  { right. unfold static_of, dest_of, dist_of in Hm1, Hm2, Hd1.
    unfold trace, run, main, initial.
    rewrite Ha, Hn. run_script. rewrite Hr, Hc, Hb. run_script. rewrite Hm1, Hm2, Hd1.
    reflexivity. }
  destruct (fs_readdir w (dist_static_of w)) as [e4|staticFiles] eqn:Hd2.
  { right. unfold static_of, dest_of, dist_of, dist_static_of in Hm1, Hm2, Hd1, Hd2.
    unfold trace, run, main, initial.
    rewrite Ha, Hn. run_script. rewrite Hr, Hc, Hb. run_script.
    rewrite Hm1, Hm2, Hd1, Hd2. reflexivity. }
  left. exists env, config, files, staticFiles. repeat split; assumption.
Qed.

Section Splits.
Context {A : Type} (P : A -> bool).

(** An element that satisfies [P] comes after a prefix that has none. *)
Lemma split_after_prefix (pre rest : list A) :
  forall l1 e l2,
    pre ++ rest = l1 ++ e :: l2 ->
    Forall (fun x => P x = false) pre -> P e = true ->
    exists l1', l1 = pre ++ l1'.
Proof.
  induction pre as [|a pre IH]; intros l1 e l2 E F He.
  - now exists l1.
  - inversion F as [|? ? Ha F']; subst. destruct l1 as [|b l1]; cbn in E.
    + injection E as -> _. congruence.
    + injection E as -> E. destruct (IH l1 e l2 E F' He) as (l1' & ->).
      now exists l1'.
Qed.

  (** An element that satisfies [P] comes before a suffix that has none. *)
Lemma split_before_suffix (front back : list A) :
    forall l1 e l2,
      front ++ back = l1 ++ e :: l2 ->
      Forall (fun x => P x = false) back -> P e = true ->
      exists l2', front = l1 ++ e :: l2'.
  Proof.
    induction front as [|a front IH]; intros l1 e l2 E F He.
    - cbn in E. subst back. apply Forall_app in F as [_ F].
      inversion F; subst. congruence.
    - destruct l1 as [|b l1]; cbn in E.
      + injection E as -> _. now exists front.
      + injection E as -> E. destruct (IH l1 e l2 E F He) as (l2' & ->).
        now exists l2'.
  Qed.
End Splits.

Lemma Forall_launch (Q : event -> Prop) w call src dest files :
  (forall f, Q (EvUploader call f)) -> (forall p, Q (EvReadFileSync p)) ->
  (forall f c, fs_readFileSync w (src ++ "\" ++ f)%string = inr c ->
               Q (EvWriteFile (dest ++ "/" ++ f)%string c)) ->
  Forall Q (flat_map (launch_events w call src dest) files).
Proof.
  intros Hu Hr Hw. induction files as [|f files IH]; cbn [flat_map]; [constructor|].
  apply Forall_app. split; [|exact IH]. unfold launch_events.
  destruct (fs_readFileSync w (src ++ "\" ++ f)%string) eqn:E; repeat constructor; auto.
Qed.

Lemma Forall_done (Q : event -> Prop) (l : list event) :
  (forall p e, Q (EvWriteFileDone p e)) ->
  Forall (fun e => is_done e = true) l -> Forall Q l.
Proof.
  intros H. apply Forall_impl. intros [] E; try discriminate. apply H.
Qed.

Lemma uploader_calls_app (a b : list event) :
  uploader_calls (a ++ b) = uploader_calls a ++ uploader_calls b.
Proof. apply flat_map_app. Qed.

Lemma uploader_calls_launch w call src dest files :
  uploader_calls (flat_map (launch_events w call src dest) files)
  = map (pair call) files.
Proof.
  induction files as [|f files IH]; cbn [flat_map map]; [reflexivity|].
  rewrite uploader_calls_app, IH. unfold launch_events.
  now destruct (fs_readFileSync w _).
Qed.

Lemma uploader_calls_done (l : list event) :
  Forall (fun e => is_done e = true) l -> uploader_calls l = [].
Proof.
  induction 1 as [|e l He _ IH]; [reflexivity|].
  destruct e; try discriminate. exact IH.
Qed.

Local Open Scope nat_scope.

(** A whole run: the upload of [a.js] fails, the first batch settles at
    once and [b.js] is answered after the banner. *)
Example deploying_world_trace :
  trace deploying_world
  = [EvConsoleClear; EvConsoleLog TxtHeader; EvRequire "../env.sandbox.json";
     EvTask Building; EvExeca "npm" ["run"; "build"]%string;
     EvTask CreatingFolder;
     EvMkdir "/content/checkout/2026-11-0203_04_05" None;
     EvMkdir "/content/checkout/2026-11-0203_04_05/static" None;
     EvTask ListingFiles; EvReaddir "/repo/scripts/../dist";
     EvReaddir "/repo/scripts/../dist/static";
     EvTask (Uploading 3);
     EvUploader 1 "a.js"; EvReadFileSync "/repo/scripts/../dist\a.js";
     EvWriteFile "/content/checkout/2026-11-0203_04_05/a.js"
       "// /repo/scripts/../dist\a.js";
     EvUploader 1 "b.js"; EvReadFileSync "/repo/scripts/../dist\b.js";
     EvWriteFile "/content/checkout/2026-11-0203_04_05/b.js"
       "// /repo/scripts/../dist\b.js";
     EvWriteFileDone "/content/checkout/2026-11-0203_04_05/a.js" (Some "boom"%string);
     EvSettled 1 (Fulfilled tt);
     EvUploader 2 "c.css"; EvReadFileSync "/repo/scripts/../dist/static\c.css";
     EvWriteFile "/content/checkout/2026-11-0203_04_05/static/c.css"
       "// /repo/scripts/../dist/static\c.css";
     EvWriteFileDone "/content/checkout/2026-11-0203_04_05/static/c.css" None;
     EvSettled 2 (Fulfilled tt);
     EvConsoleLog (TxtFinished (Some (JString "abc")) (Some "2026-11-0203_04_05"%string));
     EvWriteFileDone "/content/checkout/2026-11-0203_04_05/b.js" None].
Proof. vm_compute. reflexivity. Qed.

(** With a silent server the first batch never settles: the run stops
    after the two writes are issued, and shows nothing more. *)
Example silent_world_run :
  fst (run silent_world) = NeverResumed /\
  skipn 12 (trace silent_world)
  = [EvUploader 1 "a.js"; EvReadFileSync "/repo/scripts/../dist\a.js";
     EvWriteFile "/content/checkout/2026-11-0203_04_05/a.js"
       "// /repo/scripts/../dist\a.js";
     EvUploader 1 "b.js"; EvReadFileSync "/repo/scripts/../dist\b.js";
     EvWriteFile "/content/checkout/2026-11-0203_04_05/b.js"
       "// /repo/scripts/../dist\b.js"].
Proof. split; vm_compute; reflexivity. Qed.

Lemma deploying_world_reaches_transfer :
  reaches_transfer deploying_world "sandbox" sample_config
    ["a.js"; "static"; "b.js"]%string ["c.css"]%string.
Proof. repeat split. Qed.

Lemma deploying_world_answers_suffice :
  answers_suffice deploying_world ["a.js"; "static"; "b.js"]%string ["c.css"]%string.
Proof. apply Nat.le_refl. Qed.

(** C2.  The promise that [UploadFiles] returns is never rejected,
    whatever the state it starts from and whatever the uploads do:
    [resolve] runs in [finally], before [catch] can call [reject].  It is
    fulfilled as soon as the uploads get their answers, errors or not.  So
    every run that reaches the transfer stage, and whose uploads are
    answered, ends with [finished] and its banner. *)
Theorem UploadFiles_always_fulfills (w : World) :
  (forall call src dest files st e,
      fst (UploadFiles w call src dest files st) <> Rejected e) /\
  (forall call src dest files st,
      List.length (inflight st) + List.length (filter has_extension files)
      <= List.length (arrivals st) ->
      fst (UploadFiles w call src dest files st) = Fulfilled tt) /\
  (forall env config files staticFiles,
      reaches_transfer w env config files staticFiles ->
      answers_suffice w files staticFiles ->
      fst (run w) = Finished /\
      In (EvConsoleLog (TxtFinished (storehash_of config)
                          (Some (make_timestamp (clock w))))) (trace w)).
Proof.
  split; [|split].
  - intros call src dest files st e.
    destruct (UploadFiles_spec w call src dest files st) as (_ & _ & [E|E] & _);
      cbv zeta in E; rewrite E; discriminate.
  - intros call src dest files st Hans.
    destruct (UploadFiles_spec w call src dest files st) as (_ & _ & _ & A & _).
    apply A.
    pose proof (launch_requests_length w call src dest (filter has_extension files)).
    unfold has_extension in *. lia.
  - intros env config files staticFiles H Hans.
    destruct (transfer_trace w env config files staticFiles H)
      as (d1 & d2 & d3 & p1 & p2 & _ & _ & _ & _ & _ & A & E & T).
    destruct (A Hans) as [-> ->].
    split; [exact E|]. rewrite T.
    unfold finished_events. rewrite !in_app_iff. do 3 right. left. now left.
Qed.

(** C2 on [deploying_world], where the upload of [a.js] fails. *)
Lemma UploadFiles_always_fulfills_witness :
  upload_error deploying_world (dist_of deploying_world) (dest_of deploying_world) "a.js"
  = Some "boom"%string /\
  fst (run deploying_world) = Finished /\
  In (EvConsoleLog (TxtFinished (Some (JString "abc")) (Some "2026-11-0203_04_05"%string)))
     (trace deploying_world).
Proof.
  split; [reflexivity|].
  exact (proj2 (proj2 (UploadFiles_always_fulfills deploying_world)) "sandbox"%string
           sample_config ["a.js"; "static"; "b.js"]%string ["c.css"]%string
           deploying_world_reaches_transfer deploying_world_answers_suffice).
Defined.

(** C5, as stated, fails: with no configuration file the run writes the
    sample file, which is a side effect. *)
Lemma missing_config_writes_file :
  config_problem missing_config_world /\
  In (EvWriteFileSync "/repo/scripts/../env.sandbox.json" (stringify sampleFile 2) None)
     (trace missing_config_world) /\
  ~ halts_without_side_effects missing_config_world.
Proof.
  split; [|split].
  - exists "sandbox"%string. repeat split.
  - vm_compute. do 5 right. now left.
  - intros [_ H]. vm_compute in H. discriminate.
Qed.

(** C5, amended.  With an environment argument there are two cases.  The
    configuration loads as a value other than [null] and fails the test of
    line 53: the error is printed and the run returns with no side effect
    at all.  The configuration cannot be loaded, or loads as [null]: the
    error is printed and the one side effect is the call that writes the
    sample file over the configuration of the environment; there is no
    build and no remote operation; the run returns when the write
    succeeds and ends with the uncaught exception when it throws. *)
Theorem config_error_effects (w : World) (env : string) :
  argv2 w = Some env -> no_env (Some env) = false ->
  (forall config,
      require_json w (env_file env) = Some config ->
      config <> JNull -> credentials_missing config <> Some false ->
      fst (run w) = ReturnedEarly /\
      In (EvConsoleLog (TxtMissingCredentials env)) (trace w) /\
      filter is_side_effect (trace w) = []) /\
  (require_json w (env_file env) = None \/ require_json w (env_file env) = Some JNull ->
   fst (run w) = sample_ending (sample_outcome w env) /\
   In (EvConsoleLog (TxtMissingFile env)) (trace w) /\
   filter is_side_effect (trace w)
   = [EvWriteFileSync (sample_path w env) (stringify sampleFile 2)
        (sample_outcome w env)]).
Proof.
  intros Ha Hn. split.
  - intros config Hr Hnull Hc.
    assert (Hm : credentials_missing config = Some true).
    { destruct (credentials_missing config) as [[|]|] eqn:E; [reflexivity | congruence |].
      now apply credentials_missing_null in E. }
    destruct (incomplete_run w env config Ha Hn Hr Hm) as [E T].
    rewrite T. split; [exact E|]. split; [|reflexivity]. do 3 right. now left.
  - intros H.
    assert (H' : require_json w (env_file env) = None \/
                 exists config, require_json w (env_file env) = Some config /\
                                credentials_missing config = None).
    { destruct H as [H|H]; [now left | right]. now exists JNull. }
    destruct (config_catch_run w env Ha Hn H') as [E T].
    rewrite T. split; [exact E|]. split; [|reflexivity]. do 3 right. now left.
Qed.

(** C5, amended, on a file without password, on a missing file, on a file
    that holds [null], and on a sample file that cannot be written. *)
Lemma config_error_effects_witness :
  (fst (run incomplete_config_world) = ReturnedEarly /\
   In (EvConsoleLog (TxtMissingCredentials "sandbox")) (trace incomplete_config_world) /\
   filter is_side_effect (trace incomplete_config_world) = []) /\
  (fst (run missing_config_world) = ReturnedEarly /\
   filter is_side_effect (trace missing_config_world)
   = [EvWriteFileSync "/repo/scripts/../env.sandbox.json" (stringify sampleFile 2) None]) /\
  (fst (run null_config_world) = ReturnedEarly /\
   filter is_side_effect (trace null_config_world)
   = [EvWriteFileSync "/repo/scripts/../env.sandbox.json" (stringify sampleFile 2) None]) /\
  (fst (run unwritable_world) = UncaughtException "ENOENT" /\
   filter is_side_effect (trace unwritable_world)
   = [EvWriteFileSync "/repo/scripts/../env.sub/x.json" (stringify sampleFile 2)
        (Some "ENOENT"%string)]).
Proof.
  split; [|split; [|split]].
  - apply (proj1 (config_error_effects incomplete_config_world "sandbox"%string
                    eq_refl eq_refl) incomplete_config eq_refl); discriminate.
  - destruct (proj2 (config_error_effects missing_config_world "sandbox"%string
                       eq_refl eq_refl) (or_introl eq_refl)) as (E & _ & F).
    split; [exact E | exact F].
  - destruct (proj2 (config_error_effects null_config_world "sandbox"%string
                       eq_refl eq_refl) (or_intror eq_refl)) as (E & _ & F).
    split; [exact E | exact F].
  - destruct (proj2 (config_error_effects unwritable_world "sub/x"%string
                       eq_refl eq_refl) (or_introl eq_refl)) as (E & _ & F).
    split; [exact E | exact F].
Defined.

(** C6, as stated, fails: [node scripts/deploy sub/x] has no configuration
    file, and the write of the sample file throws because there is no
    directory [sub]; the module body ends with the uncaught exception and
    no template is written. *)
Lemma unwritable_template_not_written :
  argv2 unwritable_world = Some "sub/x"%string /\
  require_json unwritable_world (env_file "sub/x") = None /\
  fst (run unwritable_world) = UncaughtException "ENOENT" /\
  ~ writes_template_without_build unwritable_world "sub/x".
Proof.
  split; [reflexivity|]. split; [reflexivity|]. split; [reflexivity|].
  intros [H _]. vm_compute in H.
  repeat (destruct H as [H|H]; [discriminate H|]). exact H.
Qed.

(** C6, amended.  When the configuration file is missing, the run prints
    the two messages and calls [fs.writeFileSync] with the path of the
    configuration, next to the script, and [JSON.stringify(sampleFile,
    null, 2)]; [sampleFile] has exactly the three keys, each with the
    empty string; no build is started.  When the write succeeds the
    template is written and the run returns; when it throws, no write
    succeeds and the module body ends with the uncaught exception. *)
Theorem missing_config_writes_template (w : World) (env : string) :
  argv2 w = Some env -> no_env (Some env) = false ->
  require_json w (env_file env) = None ->
  trace w = [EvConsoleClear; EvConsoleLog TxtHeader; EvRequire (env_file env);
             EvConsoleLog (TxtMissingFile env); EvConsoleLog TxtSampleCreated;
             EvWriteFileSync (sample_path w env) (stringify sampleFile 2)
               (sample_outcome w env)] /\
  sampleFile = JObject [("WEBDAV_STOREHASH"%string, JString EmptyString);
                        ("WEBDAV_USERNAME"%string, JString EmptyString);
                        ("WEBDAV_PASSWORD"%string, JString EmptyString)] /\
  stringify sampleFile 2 = template_text /\
  (forall file args, ~ In (EvExeca file args) (trace w)) /\
  (sample_outcome w env = None ->
   fst (run w) = ReturnedEarly /\ writes_template_without_build w env) /\
  (forall ex, sample_outcome w env = Some ex ->
   fst (run w) = UncaughtException ex /\
   forall path data, ~ In (EvWriteFileSync path data None) (trace w)).
Proof.
  intros Ha Hn Hr.
  destruct (config_catch_run w env Ha Hn (or_introl Hr)) as [E T].
  assert (S : stringify sampleFile 2 = template_text) by (vm_compute; reflexivity).
  assert (B : forall file args, ~ In (EvExeca file args) (trace w)).
  { intros file args H. rewrite T in H. cbn in H.
    repeat destruct H as [H|H]; try discriminate H. exact H. }
  split; [exact T|]. split; [reflexivity|]. split; [exact S|]. split; [exact B|].
  split.
  - intros O. rewrite O in E, T. split; [exact E|]. split; [|exact B].
    rewrite T, <- S. do 5 right. now left.
  - intros ex O. rewrite O in E, T. split; [exact E|].
    intros path data H. rewrite T in H. cbn in H.
    repeat destruct H as [H|H]; try discriminate H. exact H.
Qed.

(** C6, amended, on a run whose configuration file is missing and whose
    sample file can be written. *)
Lemma missing_config_writes_template_witness :
  fst (run missing_config_world) = ReturnedEarly /\
  trace missing_config_world
  = [EvConsoleClear; EvConsoleLog TxtHeader; EvRequire "../env.sandbox.json";
     EvConsoleLog (TxtMissingFile "sandbox"); EvConsoleLog TxtSampleCreated;
     EvWriteFileSync "/repo/scripts/../env.sandbox.json" template_text None] /\
  writes_template_without_build missing_config_world "sandbox".
Proof.
  destruct (missing_config_writes_template missing_config_world "sandbox"%string
              eq_refl eq_refl eq_refl) as (T & _ & S & _ & W & _).
  destruct (W eq_refl) as [E Hw].
  split; [exact E|]. split; [|exact Hw]. rewrite <- S. exact T.
Defined.

(** C7.  When the build exits with a non-zero status the run does not
    finish, and its trace holds no [mkdir] and no upload. *)
Theorem build_failure_stops_pipeline (w : World) :
  exitCode (npm_run_build w) <> 0%Z ->
  fst (run w) <> Finished /\
  forall e, In e (trace w) -> is_mkdir e = false /\ is_upload e = false.
Proof.
  intros Hb.
  assert (Q : forall (x : ending) (l : list event),
             fst (run w) = x -> trace w = l ->
             x <> Finished ->
             forallb (fun e => negb (is_mkdir e || is_upload e)) l = true ->
             fst (run w) <> Finished /\
             forall e, In e (trace w) -> is_mkdir e = false /\ is_upload e = false).
  { intros x l -> -> Hx Hl. split; [exact Hx|]. intros e He.
    rewrite forallb_forall in Hl. specialize (Hl e He).
    apply negb_true_iff, orb_false_elim in Hl. exact Hl. }
  destruct (no_env (argv2 w)) eqn:Hn.
  { destruct (usage_run w Hn) as [E T]. apply (Q _ _ E T); [discriminate | reflexivity]. }
  destruct (argv2 w) as [env|] eqn:Ha; [|discriminate].
  destruct (require_json w (env_file env)) as [config|] eqn:Hr.
  2:{ destruct (config_catch_run w env Ha Hn (or_introl Hr)) as [E T].
      apply (Q _ _ E T); [apply sample_ending_unfinished | reflexivity]. }
  destruct (credentials_missing config) as [[|]|] eqn:Hc.
  - destruct (incomplete_run w env config Ha Hn Hr Hc) as [E T].
    apply (Q _ _ E T); [discriminate | reflexivity].
  - destruct (build_failure_run w env config Ha Hn Hr Hc Hb) as [E T].
    apply (Q _ _ E T); [discriminate | reflexivity].
  - destruct (config_catch_run w env Ha Hn
                (or_intror (ex_intro _ config (conj Hr Hc)))) as [E T].
    apply (Q _ _ E T); [apply sample_ending_unfinished | reflexivity].
Qed.

(** C7 on a build that exits with 1. *)
Lemma build_failure_stops_pipeline_witness :
  fst (run failing_build_world) <> Finished /\
  forall e, In e (trace failing_build_world) -> is_mkdir e = false /\ is_upload e = false.
Proof.
  apply (build_failure_stops_pipeline failing_build_world). vm_compute. discriminate.
Defined.

(** C9.  Without an environment argument (absent, or empty) the run
    prints the header and the usage line and returns: nothing is loaded,
    built or sent. *)
Theorem no_argument_prints_usage (w : World) :
  no_env (argv2 w) = true ->
  fst (run w) = ReturnedEarly /\
  trace w = [EvConsoleClear; EvConsoleLog TxtHeader; EvConsoleLog TxtUsage].
Proof. apply usage_run. Qed.

(** C9 on a command line with no argument. *)
Lemma no_argument_prints_usage_witness :
  argv2 no_argument_world = None /\
  fst (run no_argument_world) = ReturnedEarly /\
  trace no_argument_world
  = [EvConsoleClear; EvConsoleLog TxtHeader; EvConsoleLog TxtUsage].
Proof.
  split; [reflexivity|].
  apply (no_argument_prints_usage no_argument_world). reflexivity.
Defined.

Ltac pieces :=
  unfold deploy_events, batch_events, finished_events, settled_mark; cbn [settled];
  repeat (apply Forall_app; split);
  try (apply Forall_launch; intros; cbn; auto);
  try (apply Forall_done; [intros; cbn; auto | assumption]);
  try (unfold setup_events; repeat constructor).

(** The trace of a run that reaches the transfer stage, cut in two at the
    settling of the first batch. *)
Lemma transfer_trace_cut w env config files staticFiles :
  reaches_transfer w env config files staticFiles ->
  exists front back,
    trace w = (setup_events w env ++ front) ++ back /\
    Forall (fun e => settled_of 1 e = false /\ uploader_of 2 e = false) front /\
    Forall (fun e => uploader_of 1 e = false) back /\
    Forall (writes_under w) (front ++ back) /\
    Forall (fun e => match e with
                     | EvTask (Uploading k) =>
                         k = List.length (filter has_extension (files ++ staticFiles))
                     | _ => True
                     end) (trace w) /\
    ((exists f, In (EvUploader 2 f) back) \/ In (EvSettled 1 (Fulfilled tt)) back ->
     exists back', back = EvSettled 1 (Fulfilled tt) :: back' /\
       uploader_calls (trace w)
       = map (pair 1) (filter has_extension files)
           ++ map (pair 2) (filter has_extension staticFiles)).
Proof.
  intros H.
  destruct (transfer_trace w env config files staticFiles H)
    as (d1 & d2 & d3 & p1 & p2 & D1 & D2 & D3 & P1 & P2 & _ & _ & T).
  exists ([EvTask (Uploading (List.length (filter has_extension (files ++ staticFiles))))]
            ++ flat_map (launch_events w 1 (dist_of w) (dest_of w))
                 (filter has_extension files) ++ d1),
         (settled_mark 1 p1
            ++ match p1 with
               | Fulfilled _ =>
                   batch_events w 2 (dist_static_of w) (static_of w) staticFiles d2 p2
               | _ => []
               end
            ++ finished_events config w d3 p1 p2).
  split; [|split; [|split; [|split; [|split]]]].
  - rewrite T. unfold deploy_events, batch_events.
    repeat rewrite <- app_assoc. reflexivity.
  - pieces.
  - destruct P1 as [->| ->], P2 as [->| ->]; pieces.
  - destruct P1 as [->| ->], P2 as [->| ->]; pieces;
      first [eexists; left; reflexivity | eexists; right; reflexivity].
  - rewrite T. destruct P1 as [->| ->], P2 as [->| ->]; pieces.
  - intros Hb. destruct P1 as [->| ->].
    + exfalso. unfold settled_mark, finished_events in Hb. cbn in Hb.
      destruct Hb as [(f & [])|[]].
    + eexists. unfold settled_mark at 1. cbn [settled app]. split; [reflexivity|].
      rewrite T. unfold deploy_events, batch_events.
      rewrite !uploader_calls_app, !uploader_calls_launch,
        (uploader_calls_done d1 D1), (uploader_calls_done d2 D2).
      assert (M : forall c p, uploader_calls (settled_mark c p) = []).
      { intros c p. unfold settled_mark. now destruct (settled p). }
      rewrite !M.
      assert (F : uploader_calls (finished_events config w d3 (Fulfilled tt) p2) = []).
      { unfold finished_events. destruct p2; try reflexivity.
        cbn. exact (uploader_calls_done d3 D3). }
      rewrite F. unfold setup_events. cbn. now rewrite !app_nil_r.
Qed.

(** C8.  In every run: before any event of an upload, both [mkdir]s (the
    destination folder and its [static] folder) have succeeded; every call
    of [uploader] of the second [UploadFiles] comes after the promise of the
    first has settled; before a call of [uploader] of the first
    [UploadFiles] that promise has not settled and the second has not
    started; and every remote write goes under one of the two folders. *)
Theorem uploads_follow_mkdirs_in_sequence (w : World) :
  (forall l1 e l2,
      trace w = l1 ++ e :: l2 -> is_upload e = true ->
      In (EvMkdir (dest_of w) None) l1 /\ In (EvMkdir (static_of w) None) l1) /\
  (forall l1 f l2,
      trace w = l1 ++ EvUploader 2 f :: l2 -> In (EvSettled 1 (Fulfilled tt)) l1) /\
  (forall l1 f l2,
      trace w = l1 ++ EvUploader 1 f :: l2 ->
      forall e, In e l1 -> settled_of 1 e = false /\ uploader_of 2 e = false) /\
  (forall e, In e (trace w) -> writes_under w e).
Proof.
  destruct (run_cases w) as [(env & config & files & staticFiles & H)|Q].
  - destruct (transfer_trace_cut w env config files staticFiles H)
      as (front & back & T & Ff & Fb & Fw & _ & Hb).
    assert (Fs : Forall (fun e => settled_of 1 e = false /\ uploader_of 2 e = false)
                   (setup_events w env)) by pieces.
    split; [|split; [|split]].
    + intros l1 e l2 E Hu.
      rewrite <- app_assoc in T.
      destruct (split_after_prefix is_upload _ _ l1 e l2 (eq_trans (eq_sym T) E))
        as (l1' & ->); [pieces | assumption |].
      split; apply in_or_app; left; unfold setup_events; cbn; tauto.
    + intros l1 f l2 E.
      assert (Hin : In (EvUploader 2 f) back).
      { assert (I : In (EvUploader 2 f) ((setup_events w env ++ front) ++ back))
          by (rewrite <- T, E; apply in_elt).
        apply in_app_or in I as [I|I]; [|exact I]. exfalso.
        assert (A : Forall (fun e => settled_of 1 e = false /\ uploader_of 2 e = false)
                      (setup_events w env ++ front)) by (apply Forall_app; now split).
        rewrite Forall_forall in A. destruct (A _ I) as [_ A2]. discriminate. }
      destruct (Hb (or_introl (ex_intro _ f Hin))) as (back' & -> & _).
      change (EvSettled 1 (Fulfilled tt) :: back')
        with ([EvSettled 1 (Fulfilled tt)] ++ back') in T.
      rewrite app_assoc in T.
      destruct (split_after_prefix (uploader_of 2) _ _ l1 (EvUploader 2 f) l2
                  (eq_trans (eq_sym T) E)) as (l1' & ->); [|reflexivity|].
      * apply Forall_app. split.
        -- apply Forall_app. split; eapply Forall_impl; try eassumption; cbn; tauto.
        -- repeat constructor.
      * rewrite !in_app_iff. left. right. now left.
    + intros l1 f l2 E.
      destruct (split_before_suffix (uploader_of 1) _ _ l1 (EvUploader 1 f) l2
                  (eq_trans (eq_sym T) E)) as (l2' & F); [assumption | reflexivity |].
      assert (A : Forall (fun e => settled_of 1 e = false /\ uploader_of 2 e = false)
                    (l1 ++ EvUploader 1 f :: l2')).
      { rewrite <- F. apply Forall_app. now split. }
      apply Forall_app in A as [A _]. rewrite Forall_forall in A. exact A.
    + apply Forall_forall. rewrite T, <- app_assoc. apply Forall_app. split; [pieces|].
      exact Fw.
  - rewrite forallb_forall in Q. split; [|split; [|split]].
    + intros l1 e l2 E Hu. exfalso. specialize (Q e). rewrite E in Q.
      specialize (Q (in_elt e l1 l2)). rewrite Hu in Q. discriminate.
    + intros l1 f l2 E. exfalso. specialize (Q (EvUploader 2 f)). rewrite E in Q.
      specialize (Q (in_elt _ l1 l2)). discriminate.
    + intros l1 f l2 E. exfalso. specialize (Q (EvUploader 1 f)). rewrite E in Q.
      specialize (Q (in_elt _ l1 l2)). discriminate.
    + intros e He. specialize (Q e He). now destruct e.
Qed.

(** C10.  In a run that reaches the transfer stage, the count shown by
    Deploy Checkout, which is [ctx.fileCount], the number of names with a
    dot in the two listings put together, is the number of calls of
    [uploader] over the two [UploadFiles], once the second has been called,
    that is once the promise of the first has settled; it does when the
    uploads are answered. *)
Theorem fileCount_matches_uploads (w : World) env config files staticFiles :
  reaches_transfer w env config files staticFiles ->
  let n := List.length (filter (fun o => includes o ".") ([] ++ files ++ staticFiles)) in
  In (EvTask (Uploading n)) (trace w) /\
  (forall m, In (EvTask (Uploading m)) (trace w) -> m = n) /\
  (In (EvSettled 1 (Fulfilled tt)) (trace w) ->
   uploader_calls (trace w)
   = map (pair 1) (filter (fun o => includes o ".") files)
       ++ map (pair 2) (filter (fun o => includes o ".") staticFiles) /\
   List.length (uploader_calls (trace w)) = n) /\
  (answers_suffice w files staticFiles -> In (EvSettled 1 (Fulfilled tt)) (trace w)).
Proof.
  intros H. cbv zeta. cbn [app].
  destruct (transfer_trace_cut w env config files staticFiles H)
    as (front & back & T & Ff & Fb & Fw & Fn & Hb).
  split; [|split; [|split]].
  - destruct (transfer_trace w env config files staticFiles H)
      as (d1 & d2 & d3 & p1 & p2 & _ & _ & _ & _ & _ & _ & _ & T').
    rewrite T', !in_app_iff. right. left. now left.
  - intros m Hm. rewrite Forall_forall in Fn. exact (Fn _ Hm).
  - intros Hs.
    assert (Hin : In (EvSettled 1 (Fulfilled tt)) back).
    { rewrite T in Hs. apply in_app_or in Hs as [I|I]; [|exact I]. exfalso.
      apply in_app_or in I as [I|I].
      - unfold setup_events in I. cbn in I.
        repeat destruct I as [I|I]; try discriminate I. exact I.
      - rewrite Forall_forall in Ff. destruct (Ff _ I) as [A _]. discriminate. }
    destruct (Hb (or_intror Hin)) as (back' & _ & U).
    split; [exact U|].
    rewrite U, length_app, !length_map, filter_app, length_app. reflexivity.
  - intros Hans.
    destruct (transfer_trace w env config files staticFiles H)
      as (d1 & d2 & d3 & p1 & p2 & _ & _ & _ & _ & _ & A & _ & T').
    destruct (A Hans) as [-> ->]. rewrite T'.
    unfold deploy_events, batch_events, settled_mark. cbn [settled].
    rewrite !in_app_iff. do 2 right. left. left. do 2 right. now left.
Qed.

(** C10 on [deploying_world]: three files, three uploads. *)
Lemma fileCount_matches_uploads_witness :
  In (EvTask (Uploading 3)) (trace deploying_world) /\
  uploader_calls (trace deploying_world)
  = [(1, "a.js"%string); (1, "b.js"%string); (2, "c.css"%string)].
Proof.
  destruct (fileCount_matches_uploads deploying_world "sandbox"%string sample_config
              ["a.js"; "static"; "b.js"]%string ["c.css"]%string
              deploying_world_reaches_transfer) as (A & _ & B & C).
  split; [exact A|]. exact (proj1 (B (C deploying_world_answers_suffice))).
Defined.

End RunFacts.

(** ** Names: the filter and the identifier *)

Module NameFacts.
Import JSON Promise Deploy Trace Samples Outcomes Cases StringFacts DateFacts TimestampFacts.
Local Open Scope list_scope.
Local Open Scope nat_scope.

(** X1.  The filter of lines 94 and 144 keeps exactly the names that have
    a dot somewhere: a name passes if and only if it is some text, a dot,
    and some text, either of which may be empty.  So [.gitkeep] and
    [v1.2] pass, whatever they are, and [LICENSE] does not. *)
Theorem has_extension_spec (o : string) :
  has_extension o = true <-> exists a b, o = (a ++ "." ++ b)%string.
Proof.
  unfold has_extension. split.
  - induction o as [|c o IH]; [discriminate|].
    cbn [includes]. rewrite prefix_one.
    destruct (Ascii.eqb_spec c ".") as [->|N].
    + intros _. now exists EmptyString, o.
    + intros H. destruct (IH H) as (a & b & ->). now exists (String c a), b.
  - intros (a & b & ->). induction a as [|c a IH].
    + cbn [append includes]. rewrite prefix_one. reflexivity.
    + change (String c a ++ "." ++ b)%string with (String c (a ++ "." ++ b)).
      cbn [includes]. rewrite prefix_one, IH. now destruct (Ascii.eqb c ".").
Qed.

Lemma digits_are_name_chars (s : string) :
  all_chars is_digit s = true -> all_chars is_name_char s = true.
Proof.
  apply all_chars_impl. intros c H. unfold is_name_char. now rewrite H.
Qed.

(** X2.  In the years 0000 to 9999 the identifier of line 131 has eighteen
    characters, all of them digits, hyphens or underscores; it holds no
    dot and no slash, so the folder [/content/checkout/<identifier>] is
    one path segment. *)
Theorem make_timestamp_is_a_name (t : Z) :
  four_digit_years t ->
  String.length (make_timestamp t) = 18 /\
  all_chars is_name_char (make_timestamp t) = true /\
  includes (make_timestamp t) "." = false /\
  includes (make_timestamp t) "/" = false.
Proof.
  intros H. rewrite make_timestamp_format by now apply YearFromTime_range.
  unfold timestamp_format.
  assert (C : all_chars is_name_char
                (pad 4 (YearFromTime t) ++ "-" ++ pad 2 (MonthFromTime t + 1) ++ "-"
                 ++ pad 2 (DateFromTime t) ++ pad 2 (HourFromTime t) ++ "_"
                 ++ pad 2 (MinFromTime t) ++ "_" ++ pad 2 (SecFromTime t)) = true).
  { repeat rewrite all_chars_app.
    repeat rewrite (digits_are_name_chars _ (pad_digits _ _)). reflexivity. }
  assert (N : forall x s, is_name_char x = false -> all_chars is_name_char s = true ->
                          includes s (String x EmptyString) = false).
  { intros x s Hx. induction s as [|c s IH]; [reflexivity|].
    cbn [all_chars includes]. intros E. apply andb_prop in E as [E1 E2].
    rewrite prefix_one, (IH E2).
    destruct (Ascii.eqb_spec c x) as [->|_]; [congruence | reflexivity]. }
  split; [|split; [exact C|split; apply N; auto]].
  repeat rewrite length_append. repeat rewrite pad_length. reflexivity.
Qed.

(** X2 at the clock of the sample worlds. *)
Lemma make_timestamp_is_a_name_witness :
  String.length (make_timestamp 1793588645678) = 18 /\
  all_chars is_name_char (make_timestamp 1793588645678) = true /\
  includes (make_timestamp 1793588645678) "." = false /\
  includes (make_timestamp 1793588645678) "/" = false.
Proof.
  apply (make_timestamp_is_a_name 1793588645678). unfold four_digit_years. lia.
Defined.

End NameFacts.

(** ** One batch of uploads: the edges *)

Module BatchEdgeFacts.
Import JSON Promise Deploy Trace Samples Outcomes Cases BatchFacts RunFacts.
Local Open Scope list_scope.
Local Open Scope nat_scope.

Lemma filter_none {A} (f : A -> bool) (l : list A) :
  Forall (fun x => f x = false) l -> filter f l = [].
Proof.
  induction 1 as [|x l Hx _ IH]; cbn; [reflexivity|]. now rewrite Hx.
Qed.

Lemma filter_nothing {A} (f : A -> bool) (l : list A) :
  (forall x, In x l -> f x = false) -> filter f l = [].
Proof.
  intros H. apply filter_none, Forall_forall, H.
Qed.

(** X10.  [UploadFiles] on a listing with no name that has a dot (an empty
    listing, or directories only): the promise is fulfilled at once; no
    file is read, no write is sent, and no answer of the server is waited
    for. *)
Theorem UploadFiles_nothing_to_upload (w : World) (call : nat) (src dest : string)
    (files : list string) (st : State) :
  (forall f, In f files -> includes f "." = false) ->
  fst (UploadFiles w call src dest files st) = Fulfilled tt /\
  log (snd (UploadFiles w call src dest files st))
  = log st ++ [EvSettled call (Fulfilled tt)] /\
  inflight (snd (UploadFiles w call src dest files st)) = inflight st /\
  arrivals (snd (UploadFiles w call src dest files st)) = arrivals st.
Proof.
  intros H.
  assert (Ha : UploadFiles_all w call src dest files st = (all_start 0, st)).
  { unfold UploadFiles_all, bind. rewrite (filter_nothing _ files H). cbn [mapM].
    unfold ret, await_all. now apply turn_until_settled_done. }
  unfold UploadFiles, bind. rewrite Ha. cbn. auto.
Qed.

(** X10 on a listing of two directories, with a server that never answers. *)
Lemma UploadFiles_nothing_to_upload_witness :
  fst (UploadFiles silent_world 2 "dist/static" "/dav/static" ["media"; "fonts"]
         (initial silent_world)) = Fulfilled tt /\
  log (snd (UploadFiles silent_world 2 "dist/static" "/dav/static" ["media"; "fonts"]
              (initial silent_world)))
  = log (initial silent_world) ++ [EvSettled 2 (Fulfilled tt)] /\
  inflight (snd (UploadFiles silent_world 2 "dist/static" "/dav/static" ["media"; "fonts"]
                   (initial silent_world)))
  = inflight (initial silent_world) /\
  arrivals (snd (UploadFiles silent_world 2 "dist/static" "/dav/static" ["media"; "fonts"]
                   (initial silent_world)))
  = arrivals (initial silent_world).
Proof.
  apply (UploadFiles_nothing_to_upload silent_world 2 "dist/static" "/dav/static"
           ["media"; "fonts"] (initial silent_world)).
  intros f [<-|[<-|[]]]; reflexivity.
Defined.

Lemma first_unreadable w src before f after ex :
  (forall g, In g before -> exists c, fs_readFileSync w (src ++ "\" ++ g)%string = inr c) ->
  fs_readFileSync w (src ++ "\" ++ f)%string = inl ex ->
  first_rejection (map (launch_state w src) (before ++ f :: after)) = Some ex.
Proof.
  intros Hb Hf. induction before as [|g before IH]; cbn [app map first_rejection].
  - unfold launch_state. now rewrite Hf.
  - destruct (Hb g (or_introl eq_refl)) as (c & Hc).
    unfold launch_state at 1. rewrite Hc. apply IH.
    intros x Hx. apply Hb. now right.
Qed.

(** X11.  When a file of the batch cannot be read, [Promise.all] rejects
    with the error of the first such file in the order of the listing, and
    the promise of [UploadFiles] is fulfilled without waiting for any
    answer.  Every file of the batch is still handed to [uploader], and
    the writes of the readable ones stay in flight. *)
Theorem UploadFiles_unreadable_file (w : World) (call : nat) (src dest : string)
    (files before after : list string) (f : string) (ex : error) (st : State) :
  filter has_extension files = before ++ f :: after ->
  (forall g, In g before -> exists c, fs_readFileSync w (src ++ "\" ++ g)%string = inr c) ->
  fs_readFileSync w (src ++ "\" ++ f)%string = inl ex ->
  result (fst (UploadFiles_all w call src dest files st)) = Rejected ex /\
  fst (UploadFiles w call src dest files st) = Fulfilled tt /\
  log (snd (UploadFiles w call src dest files st))
  = log st ++ flat_map (launch_events w call src dest) (before ++ f :: after)
      ++ [EvSettled call (Fulfilled tt)] /\
  inflight (snd (UploadFiles w call src dest files st))
  = inflight st ++ flat_map (launch_requests w call src dest) (before ++ f :: after) /\
  arrivals (snd (UploadFiles w call src dest files st)) = arrivals st.
Proof.
  intros Hfs Hb Hf.
  assert (Ha : UploadFiles_all w call src dest files st
               = (all_rejected ex (all_start (List.length (before ++ f :: after))),
                  extend (flat_map (launch_events w call src dest) (before ++ f :: after))
                    (flat_map (launch_requests w call src dest) (before ++ f :: after)) st)).
  { unfold UploadFiles_all, bind. rewrite mapM_uploader_run. unfold await_all.
    fold has_extension. rewrite Hfs.
    rewrite all_unfulfilled by apply launch_state_unfulfilled.
    rewrite (first_unreadable w src before f after ex Hb Hf), length_map.
    apply turn_until_settled_done.
    rewrite length_app. cbn [List.length]. now rewrite Nat.add_succ_r. }
  unfold UploadFiles, bind. rewrite Ha. cbn [fst snd].
  assert (R : result (all_rejected ex (all_start (List.length (before ++ f :: after))))
              = Rejected ex :> state unit error).
  { rewrite length_app. cbn [List.length]. now rewrite Nat.add_succ_r. }
  rewrite R. cbn. rewrite <- app_assoc. auto.
Qed.

(** X11 on [unreadable_world]. *)
Lemma UploadFiles_unreadable_file_witness :
  result (fst (UploadFiles_all unreadable_world 1 "dist" "/dav" ["a.js"; "static"; "b.js"]
                 (initial unreadable_world))) = Rejected "EACCES" /\
  fst (UploadFiles unreadable_world 1 "dist" "/dav" ["a.js"; "static"; "b.js"]
         (initial unreadable_world)) = Fulfilled tt /\
  log (snd (UploadFiles unreadable_world 1 "dist" "/dav" ["a.js"; "static"; "b.js"]
              (initial unreadable_world)))
  = log (initial unreadable_world)
      ++ flat_map (launch_events unreadable_world 1 "dist" "/dav") (["a.js"] ++ "b.js" :: [])
      ++ [EvSettled 1 (Fulfilled tt)] /\
  inflight (snd (UploadFiles unreadable_world 1 "dist" "/dav" ["a.js"; "static"; "b.js"]
                   (initial unreadable_world)))
  = inflight (initial unreadable_world)
      ++ flat_map (launch_requests unreadable_world 1 "dist" "/dav")
           (["a.js"] ++ "b.js" :: []) /\
  arrivals (snd (UploadFiles unreadable_world 1 "dist" "/dav" ["a.js"; "static"; "b.js"]
                   (initial unreadable_world)))
  = arrivals (initial unreadable_world).
Proof.
  apply (UploadFiles_unreadable_file unreadable_world 1 "dist" "/dav"
           ["a.js"; "static"; "b.js"] ["a.js"] [] "b.js" "EACCES"
           (initial unreadable_world)).
  - reflexivity.
  - intros g [<-|[]]. now exists "// dist\a.js".
  - reflexivity.
Defined.

(** While the answers of a batch are all successes, the aggregate is
    fulfilled by the last of them. *)
Lemma turn_until_all_done (fuel : nat) :
  forall call agg st,
    List.length (inflight st) <= fuel ->
    List.length (inflight st) <= List.length (arrivals st) ->
    result agg = Pending ->
    remaining agg = count_call call (inflight st) -> 1 <= remaining agg ->
    (forall q, In q (inflight st) -> req_call q = call -> req_err q = None) ->
    result (fst (turn_until_settled fuel call agg st)) = Fulfilled tt /\
    count_call call (inflight (snd (turn_until_settled fuel call agg st))) = 0.
Proof.
  induction fuel as [|fuel IH]; intros call agg st Hfuel Hans P Hrem Hpos Hok.
  - destruct (inflight st); [cbn in Hrem; lia | simpl in Hfuel; lia].
  - cbn [turn_until_settled]. rewrite P. cbn [settled].
    destruct (next_arrival_some st)
      as (q & st' & -> & Hq & L & _ & _ & Hl & Hl' & I & Hc & Hk).
    { intros E. rewrite E in Hrem. cbn in Hrem. lia. }
    { intros E. rewrite E in Hans. destruct (inflight st); [cbn in Hrem; lia|].
      simpl in Hans. lia. }
    specialize (Hc call). unfold of_call in Hc.
    destruct (Nat.eqb (req_call q) call) eqn:Q.
    + apply Nat.eqb_eq in Q. rewrite (Hok q Hq Q). cbn [writeFile_callback].
      destruct (remaining agg) as [|[|n]] eqn:R; [lia| |].
      * rewrite turn_until_settled_done by (cbn; rewrite R, P; reflexivity).
        cbn. rewrite R, P. cbn. split; [reflexivity | lia].
      * apply IH; try lia.
        -- cbn. rewrite R. cbn. exact P.
        -- cbn. rewrite R. cbn. lia.
        -- cbn. rewrite R. cbn. lia.
        -- intros x Hx. apply Hok. now apply I.
    + apply IH; try lia; try assumption.
      intros x Hx. apply Hok. now apply I.
Qed.

(** X12.  When every upload of a batch succeeds and the answers arrive,
    [Promise.all] is fulfilled, and so is the promise of [UploadFiles];
    when it settles no write of the batch is in flight any more: the
    batch was waited for to its last answer. *)
Theorem UploadFiles_waits_for_all (w : World) (call : nat) (src dest : string)
    (files : list string) (st : State) :
  (forall f, In f files -> includes f "." = true -> upload_error w src dest f = None) ->
  count_call call (inflight st) = 0 ->
  List.length (inflight st) + List.length (filter has_extension files)
  <= List.length (arrivals st) ->
  result (fst (UploadFiles_all w call src dest files st)) = Fulfilled tt /\
  count_call call (inflight (snd (UploadFiles_all w call src dest files st))) = 0 /\
  fst (UploadFiles w call src dest files st) = Fulfilled tt /\
  count_call call (inflight (snd (UploadFiles w call src dest files st))) = 0.
Proof.
  intros Hok Hfresh Hans.
  assert (Ha : result (fst (UploadFiles_all w call src dest files st)) = Fulfilled tt /\
               count_call call (inflight (snd (UploadFiles_all w call src dest files st))) = 0).
  { unfold UploadFiles_all, bind. rewrite mapM_uploader_run. unfold await_all.
    fold has_extension. set (fs := filter has_extension files) in *.
    assert (Hfs : forall g, In g fs -> upload_error w src dest g = None).
    { intros g Hg. apply filter_In in Hg as [Hg He]. now apply Hok. }
    assert (Hnone : first_rejection (map (launch_state w src) fs) = None).
    { clear - Hfs. induction fs as [|g fs IH]; cbn; [reflexivity|].
      pose proof (Hfs g (or_introl eq_refl)) as E. unfold upload_error in E.
      unfold launch_state at 1. destruct (fs_readFileSync w _); [discriminate|].
      apply IH. intros x Hx. apply Hfs. now right. }
    rewrite all_unfulfilled by apply launch_state_unfulfilled.
    rewrite Hnone, length_map.
    pose proof (launch_requests_count w call src dest fs Hnone) as Hcount.
    pose proof (launch_requests_length w call src dest fs) as Hlen.
    clearbody fs. destruct fs as [|g fs'].
    - cbn [flat_map List.length]. rewrite turn_until_settled_done by reflexivity.
      cbn. rewrite app_nil_r. now split.
    - apply turn_until_all_done.
      + apply Nat.le_refl.
      + cbn [extend inflight arrivals]. rewrite length_app. lia.
      + reflexivity.
      + cbn [extend inflight]. rewrite count_call_app, Hcount, Hfresh. reflexivity.
      + cbn. lia.
      + cbn [extend inflight]. intros q Hq Hcall.
        apply in_app_or in Hq as [Hq|Hq].
        * pose proof (count_call_zero call _ Hfresh q Hq) as Z.
          unfold of_call in Z. rewrite Hcall, Nat.eqb_refl in Z. discriminate.
        * apply launch_requests_In in Hq as (x & c & Hx & Hr & ->).
          cbn [req_err]. specialize (Hfs x Hx). unfold upload_error in Hfs.
          now rewrite Hr in Hfs. }
  destruct Ha as [Hr Hz]. split; [exact Hr|]. split; [exact Hz|].
  unfold UploadFiles, bind.
  destruct (UploadFiles_all w call src dest files st) as [agg st1].
  cbn [fst snd] in *. rewrite Hr. cbn. now split.
Qed.

(** X12 on [deploying_world], for the files of [static]. *)
Lemma UploadFiles_waits_for_all_witness :
  result (fst (UploadFiles_all deploying_world 2 "dist/static" "/dav/static"
                 ["c.css"; "media"; "d.css"] (initial deploying_world))) = Fulfilled tt /\
  count_call 2 (inflight (snd (UploadFiles_all deploying_world 2 "dist/static"
                                 "/dav/static" ["c.css"; "media"; "d.css"]
                                 (initial deploying_world)))) = 0 /\
  fst (UploadFiles deploying_world 2 "dist/static" "/dav/static"
         ["c.css"; "media"; "d.css"] (initial deploying_world)) = Fulfilled tt /\
  count_call 2 (inflight (snd (UploadFiles deploying_world 2 "dist/static" "/dav/static"
                                 ["c.css"; "media"; "d.css"]
                                 (initial deploying_world)))) = 0.
Proof.
  apply (UploadFiles_waits_for_all deploying_world 2 "dist/static" "/dav/static"
           ["c.css"; "media"; "d.css"] (initial deploying_world)).
  - intros f [<-|[<-|[<-|[]]]] E; reflexivity.
  - reflexivity.
  - vm_compute. lia.
Defined.

(** With fewer answers than inputs left, and no failure, the aggregate
    stays pending. *)
Lemma turn_until_still_pending (fuel : nat) :
  forall call agg st,
    result agg = Pending ->
    remaining agg = count_call call (inflight st) ->
    List.length (arrivals st) < remaining agg ->
    (forall q, In q (inflight st) -> req_call q = call -> req_err q = None) ->
    result (fst (turn_until_settled fuel call agg st)) = Pending.
Proof.
  induction fuel as [|fuel IH]; intros call agg st P Hrem Hans Hok;
    cbn [turn_until_settled]; rewrite P; cbn [settled]; [exact P|].
  destruct (next_arrival_cases st) as [->|[Hi Ha]]; [exact P|].
  destruct (next_arrival_some st Hi Ha)
    as (q & st' & -> & Hq & L & _ & _ & Hl & Hl' & I & Hc & Hk).
  specialize (Hc call). unfold of_call in Hc.
  destruct (Nat.eqb (req_call q) call) eqn:Q.
  - apply Nat.eqb_eq in Q. rewrite (Hok q Hq Q). cbn [writeFile_callback].
    destruct (remaining agg) as [|[|n]] eqn:R; [lia | lia |].
    apply IH.
    + cbn. rewrite R. cbn. exact P.
    + cbn. rewrite R. cbn. lia.
    + cbn. rewrite R. cbn. lia.
    + intros x Hx. apply Hok. now apply I.
  - apply IH; try assumption; try lia.
    intros x Hx. apply Hok. now apply I.
Qed.

Lemma UploadFiles_all_stays_pending (w : World) (call : nat) (src dest : string)
    (files : list string) (st : State) :
  (forall f, In f files -> includes f "." = true -> upload_error w src dest f = None) ->
  count_call call (inflight st) = 0 ->
  List.length (arrivals st) < List.length (filter has_extension files) ->
  result (fst (UploadFiles_all w call src dest files st)) = Pending.
Proof.
  intros Hok Hfresh Hans.
  unfold UploadFiles_all, bind. rewrite mapM_uploader_run. unfold await_all.
  fold has_extension. set (fs := filter has_extension files) in *.
  assert (Hfs : forall g, In g fs -> upload_error w src dest g = None).
  { intros g Hg. apply filter_In in Hg as [Hg He]. now apply Hok. }
  assert (Hnone : first_rejection (map (launch_state w src) fs) = None).
  { clear - Hfs. induction fs as [|g fs IH]; cbn; [reflexivity|].
    pose proof (Hfs g (or_introl eq_refl)) as E. unfold upload_error in E.
    unfold launch_state at 1. destruct (fs_readFileSync w _); [discriminate|].
    apply IH. intros x Hx. apply Hfs. now right. }
  rewrite all_unfulfilled by apply launch_state_unfulfilled.
  rewrite Hnone, length_map.
  pose proof (launch_requests_count w call src dest fs Hnone) as Hcount.
  clearbody fs. destruct fs as [|g fs']; [cbn in Hans; lia|].
  apply turn_until_still_pending.
  - reflexivity.
  - cbn [extend inflight]. rewrite count_call_app, Hcount, Hfresh. reflexivity.
  - cbn [extend arrivals all_start remaining]. exact Hans.
  - cbn [extend inflight]. intros q Hq Hcall.
    apply in_app_or in Hq as [Hq|Hq].
    + pose proof (count_call_zero call _ Hfresh q Hq) as Z.
      unfold of_call in Z. rewrite Hcall, Nat.eqb_refl in Z. discriminate.
    + apply launch_requests_In in Hq as (x & c & Hx & Hr & ->).
      cbn [req_err]. specialize (Hfs x Hx). unfold upload_error in Hfs.
      now rewrite Hr in Hfs.
Qed.

(** X13.  When no upload of a batch fails and fewer answers arrive than the
    batch has files, the promise of [UploadFiles] stays pending: there is
    no timeout.  All the writes were sent, and the callbacks of the
    answers that did arrive have run. *)
Theorem UploadFiles_needs_every_answer (w : World) (call : nat) (src dest : string)
    (files : list string) (st : State) :
  (forall f, In f files -> includes f "." = true -> upload_error w src dest f = None) ->
  count_call call (inflight st) = 0 ->
  List.length (arrivals st) < List.length (filter has_extension files) ->
  fst (UploadFiles w call src dest files st) = Pending /\
  exists done,
    Forall (fun e => is_done e = true) done /\
    log (snd (UploadFiles w call src dest files st))
    = log st ++ flat_map (launch_events w call src dest) (filter has_extension files)
        ++ done.
Proof.
  intros Hok Hfresh Hans.
  pose proof (UploadFiles_all_stays_pending w call src dest files st Hok Hfresh Hans) as Ha.
  destruct (UploadFiles_spec w call src dest files st)
    as (done & Fd & _ & _ & L & _). cbv zeta in L.
  unfold UploadFiles, bind in *.
  destruct (UploadFiles_all w call src dest files st) as [agg st1].
  cbn [fst snd] in *. rewrite Ha in *. cbn in L |- *. split; [reflexivity|].
  exists done. split; [exact Fd|]. rewrite L. unfold has_extension.
  now rewrite app_nil_r.
Qed.

(** X13 on [stalled_world]. *)
Lemma UploadFiles_needs_every_answer_witness :
  fst (UploadFiles stalled_world 1 "dist" "/dav" ["a.js"; "static"; "b.js"]
         (initial stalled_world)) = Pending /\
  exists done,
    Forall (fun e => is_done e = true) done /\
    log (snd (UploadFiles stalled_world 1 "dist" "/dav" ["a.js"; "static"; "b.js"]
                (initial stalled_world)))
    = log (initial stalled_world)
        ++ flat_map (launch_events stalled_world 1 "dist" "/dav")
             (filter has_extension ["a.js"; "static"; "b.js"])
        ++ done.
Proof.
  apply (UploadFiles_needs_every_answer stalled_world 1 "dist" "/dav"
           ["a.js"; "static"; "b.js"] (initial stalled_world)).
  - intros f _ _. reflexivity.
  - reflexivity.
  - vm_compute. lia.
Defined.

End BatchEdgeFacts.

(** ** Whole runs: how they end *)

Module OutcomeFacts.
Import JSON Promise Deploy Trace Samples Outcomes Cases BatchFacts RunFacts BatchEdgeFacts.
Local Open Scope list_scope.
Local Open Scope nat_scope.

(** Line 53 in terms of [credentials_complete]. *)
Lemma credentials_missing_complete (config : json) :
  credentials_missing config
  = match config with
    | JNull => None
    | _ => Some (negb (credentials_complete config))
    end.
Proof.
  unfold credentials_missing, credentials_complete.
  destruct config; cbn [get]; try reflexivity.
  destruct (truthy (lookup "WEBDAV_STOREHASH" fields)); [|reflexivity].
  destruct (truthy (lookup "WEBDAV_USERNAME" fields)); reflexivity.
Qed.

Lemma config_ready_spec (w : World) :
  config_ready w = true <->
  exists env config,
    argv2 w = Some env /\ no_env (Some env) = false /\
    require_json w (env_file env) = Some config /\
    credentials_missing config = Some false.
Proof.
  unfold config_ready. split.
  - destruct (argv2 w) as [env|]; [|discriminate].
    destruct (no_env (Some env)) eqn:Hn; [discriminate|].
    destruct (require_json w (env_file env)) as [config|] eqn:Hr; [|discriminate].
    cbn. intros Hc. exists env, config. repeat split; auto.
    rewrite credentials_missing_complete.
    destruct config; try discriminate; now rewrite Hc.
  - intros (env & config & -> & -> & -> & Hc). cbn.
    rewrite credentials_missing_complete in Hc.
    destruct config; try discriminate;
      (destruct (credentials_complete _); [reflexivity | discriminate Hc]).
Qed.

Ltac failed_run Ha Hn Hr Hc Hb :=
  unfold trace, run, main, initial; rewrite Ha, Hn; run_script;
  rewrite Hr, Hc, Hb; run_script.

(** The four ways in which Pre-Deploy Setup fails. *)
Lemma pre_deploy_failure_runs w env config :
  argv2 w = Some env -> no_env (Some env) = false ->
  require_json w (env_file env) = Some config ->
  credentials_missing config = Some false ->
  exitCode (npm_run_build w) = 0%Z ->
  (forall ex, dav_mkdir w (dest_of w) = Some ex ->
     fst (run w) = UnhandledRejection ex /\
     trace w = build_events env
                 ++ [EvTask CreatingFolder; EvMkdir (dest_of w) (Some ex);
                     EvTask PreDeployFailed]) /\
  (forall ex, dav_mkdir w (dest_of w) = None -> dav_mkdir w (static_of w) = Some ex ->
     fst (run w) = UnhandledRejection ex /\
     trace w = build_events env
                 ++ [EvTask CreatingFolder; EvMkdir (dest_of w) None;
                     EvMkdir (static_of w) (Some ex); EvTask PreDeployFailed]) /\
  (forall ex, dav_mkdir w (dest_of w) = None -> dav_mkdir w (static_of w) = None ->
     fs_readdir w (dist_of w) = inl ex ->
     fst (run w) = UnhandledRejection ex /\
     trace w = build_events env
                 ++ [EvTask CreatingFolder; EvMkdir (dest_of w) None;
                     EvMkdir (static_of w) None; EvTask ListingFiles;
                     EvReaddir (dist_of w); EvTask PreDeployFailed]) /\
  (forall files ex,
     dav_mkdir w (dest_of w) = None -> dav_mkdir w (static_of w) = None ->
     fs_readdir w (dist_of w) = inr files -> fs_readdir w (dist_static_of w) = inl ex ->
     fst (run w) = UnhandledRejection ex /\
     trace w = build_events env
                 ++ [EvTask CreatingFolder; EvMkdir (dest_of w) None;
                     EvMkdir (static_of w) None; EvTask ListingFiles;
                     EvReaddir (dist_of w); EvReaddir (dist_static_of w);
                     EvTask PreDeployFailed]).
Proof.
  intros Ha Hn Hr Hc Hb. unfold static_of, dest_of, dist_static_of, dist_of.
  split; [|split; [|split]].
  - intros ex H1. failed_run Ha Hn Hr Hc Hb. rewrite H1. now split.
  - intros ex H1 H2. failed_run Ha Hn Hr Hc Hb. rewrite H1, H2. now split.
  - intros ex H1 H2 H3. failed_run Ha Hn Hr Hc Hb. rewrite H1, H2, H3. now split.
  - intros files ex H1 H2 H3 H4. failed_run Ha Hn Hr Hc Hb.
    rewrite H1, H2, H3, H4. now split.
Qed.

(** Every run has one of the shapes. *)
Lemma run_shape_complete (w : World) : run_shape w (fst (run w)) (trace w).
Proof.
  destruct (no_env (argv2 w)) eqn:Hn.
  { destruct (usage_run w Hn) as [-> ->]. now constructor. }
  destruct (argv2 w) as [env|] eqn:Ha; [|discriminate].
  destruct (require_json w (env_file env)) as [config|] eqn:Hr.
  2:{ destruct (config_catch_run w env Ha Hn (or_introl Hr)) as [-> ->].
      apply ShapeSample; auto. }
  pose proof (credentials_missing_complete config) as Hm.
  destruct (credentials_missing config) as [[|]|] eqn:Hc.
  { destruct (incomplete_run w env config Ha Hn Hr Hc) as [-> ->].
    apply ShapeIncomplete with (config := config); auto.
    - intros ->. discriminate.
    - destruct config; try discriminate;
        (destruct (credentials_complete _); [discriminate Hm | reflexivity]). }
  2:{ assert (config = JNull) by (destruct config; now try discriminate). subst config.
      destruct (config_catch_run w env Ha Hn
                  (or_intror (ex_intro _ JNull (conj Hr Hc)))) as [-> ->].
      apply ShapeSample; auto. }
  assert (Hready : config_ready w = true).
  { apply config_ready_spec. exists env, config. rewrite Ha. auto. }
  destruct (Z.eq_dec (exitCode (npm_run_build w)) 0) as [Hb|Hb].
  2:{ destruct (build_failure_run w env config Ha Hn Hr Hc Hb) as [-> ->].
      now apply ShapeBuildFailed. }
  destruct (pre_deploy_failure_runs w env config Ha Hn Hr Hc Hb) as (F1 & F2 & F3 & F4).
  destruct (dav_mkdir w (dest_of w)) as [e1|] eqn:Hm1.
  { destruct (F1 e1 eq_refl) as [-> ->]. now apply ShapeMkdirFailed. }
  destruct (dav_mkdir w (static_of w)) as [e2|] eqn:Hm2.
  { destruct (F2 e2 eq_refl eq_refl) as [-> ->]. now apply ShapeStaticMkdirFailed. }
  destruct (fs_readdir w (dist_of w)) as [e3|files] eqn:Hd1.
  { destruct (F3 e3 eq_refl eq_refl eq_refl) as [-> ->]. now apply ShapeListFailed. }
  destruct (fs_readdir w (dist_static_of w)) as [e4|staticFiles] eqn:Hd2.
  { destruct (F4 files e4 eq_refl eq_refl eq_refl eq_refl) as [-> ->].
    now apply ShapeStaticListFailed with (files := files). }
  assert (H : reaches_transfer w env config files staticFiles)
    by (repeat split; assumption).
  destruct (transfer_trace w env config files staticFiles H)
    as (d1 & d2 & d3 & p1 & p2 & D1 & D2 & D3 & P1 & P2 & _ & -> & ->).
  now apply ShapeTransfer.
Qed.

Lemma reaches_transfer_ready w env config files staticFiles :
  reaches_transfer w env config files staticFiles -> config_ready w = true.
Proof.
  intros (Ha & Hn & Hr & Hc & _). apply config_ready_spec. now exists env, config.
Qed.

(** What holds of the events of the transfer stage holds of the trace
    after Pre-Deploy Setup. *)
Lemma transfer_Forall (Q : event -> Prop) w config files staticFiles d1 d2 d3 p1 p2 :
  (forall k, Q (EvTask (Uploading k))) ->
  (forall c f, Q (EvUploader c f)) -> (forall p, Q (EvReadFileSync p)) ->
  (forall f c, includes f "." = true -> In f files ->
               fs_readFileSync w (dist_of w ++ "\" ++ f) = inr c ->
               Q (EvWriteFile (dest_of w ++ "/" ++ f) c)) ->
  (forall f c, includes f "." = true -> In f staticFiles ->
               fs_readFileSync w (dist_static_of w ++ "\" ++ f) = inr c ->
               Q (EvWriteFile (static_of w ++ "/" ++ f) c)) ->
  (forall p e, Q (EvWriteFileDone p e)) ->
  (forall c, Q (EvSettled c (Fulfilled tt))) ->
  (p1 = Fulfilled tt -> p2 = Fulfilled tt ->
   Q (EvConsoleLog (TxtFinished (storehash_of config) (Some (make_timestamp (clock w)))))) ->
  Forall (fun e => is_done e = true) d1 ->
  Forall (fun e => is_done e = true) d2 ->
  Forall (fun e => is_done e = true) d3 ->
  p1 = Pending \/ p1 = Fulfilled tt -> p2 = Pending \/ p2 = Fulfilled tt ->
  Forall Q ([EvTask (Uploading (List.length (filter has_extension (files ++ staticFiles))))]
              ++ deploy_events w files staticFiles d1 d2 p1 p2
              ++ finished_events config w d3 p1 p2).
Proof.
  intros Ht Hu Hr Hw1 Hw2 Hd Hst Hb D1 D2 D3 P1 P2.
  assert (L : forall call src dest fs,
             (forall f c, includes f "." = true -> In f fs ->
                          fs_readFileSync w (src ++ "\" ++ f) = inr c ->
                          Q (EvWriteFile (dest ++ "/" ++ f) c)) ->
             Forall Q (flat_map (launch_events w call src dest) (filter has_extension fs))).
  { intros call src dest fs Hw. apply Forall_flat_map, Forall_forall. intros f Hf.
    apply filter_In in Hf as [Hin He]. unfold launch_events.
    destruct (fs_readFileSync w (src ++ "\" ++ f)) eqn:E; repeat constructor; auto. }
  assert (S : forall c p, p = Pending \/ p = Fulfilled tt -> Forall Q (settled_mark c p)).
  { intros c p [->| ->]; cbn; repeat constructor. apply Hst. }
  assert (B : forall call src dest fs d p,
             (forall f c, includes f "." = true -> In f fs ->
                          fs_readFileSync w (src ++ "\" ++ f) = inr c ->
                          Q (EvWriteFile (dest ++ "/" ++ f) c)) ->
             Forall (fun e => is_done e = true) d -> p = Pending \/ p = Fulfilled tt ->
             Forall Q (batch_events w call src dest fs d p)).
  { intros call src dest fs d p Hw D P. unfold batch_events.
    apply Forall_app; split; [now apply L|].
    apply Forall_app; split; [now apply Forall_done | now apply S]. }
  apply Forall_app; split; [repeat constructor; apply Ht|].
  apply Forall_app; split.
  - unfold deploy_events. apply Forall_app; split; [now apply B|].
    destruct P1 as [->| ->]; [constructor | now apply B].
  - unfold finished_events.
    destruct P1 as [->| ->]; [constructor|]. destruct P2 as [->| ->]; [constructor|].
    apply Forall_app; split; [repeat constructor; now apply Hb|].
    now apply Forall_done.
Qed.

Lemma transfer_member (Q : event -> Prop) w config files staticFiles d1 d2 d3 p1 p2 :
  Forall (fun e => is_done e = true) d1 ->
  Forall (fun e => is_done e = true) d2 ->
  Forall (fun e => is_done e = true) d3 ->
  p1 = Pending \/ p1 = Fulfilled tt -> p2 = Pending \/ p2 = Fulfilled tt ->
  forall e,
    In e ([EvTask (Uploading (List.length (filter has_extension (files ++ staticFiles))))]
            ++ deploy_events w files staticFiles d1 d2 p1 p2
            ++ finished_events config w d3 p1 p2) ->
    (forall k, Q (EvTask (Uploading k))) ->
    (forall c f, Q (EvUploader c f)) -> (forall p, Q (EvReadFileSync p)) ->
    (forall f c, includes f "." = true -> In f files ->
                 fs_readFileSync w (dist_of w ++ "\" ++ f) = inr c ->
                 Q (EvWriteFile (dest_of w ++ "/" ++ f) c)) ->
    (forall f c, includes f "." = true -> In f staticFiles ->
                 fs_readFileSync w (dist_static_of w ++ "\" ++ f) = inr c ->
                 Q (EvWriteFile (static_of w ++ "/" ++ f) c)) ->
    (forall p e, Q (EvWriteFileDone p e)) ->
    (forall c, Q (EvSettled c (Fulfilled tt))) ->
    (p1 = Fulfilled tt -> p2 = Fulfilled tt ->
     Q (EvConsoleLog (TxtFinished (storehash_of config)
                        (Some (make_timestamp (clock w)))))) ->
    Q e.
Proof.
  intros D1 D2 D3 P1 P2 e Hin Ht Hu Hr Hw1 Hw2 Hd Hst Hb.
  pose proof (transfer_Forall Q w config files staticFiles d1 d2 d3 p1 p2
                Ht Hu Hr Hw1 Hw2 Hd Hst Hb D1 D2 D3 P1 P2) as F.
  rewrite Forall_forall in F. now apply F.
Qed.

Ltac setup_ok := unfold setup_events; repeat constructor.

Ltac shapes w :=
  destruct (run_shape_complete w)
    as [Hn | env Ha Hn Hr | env config Ha Hn Hr Hc Hi | env Ha Hy Hb | env ex Ha Hy Hb Hm1
        | env ex Ha Hy Hb Hm1 Hm2 | env ex Ha Hy Hb Hm1 Hm2 Hd1
        | env files ex Ha Hy Hb Hm1 Hm2 Hd1 Hd2
        | env config files staticFiles d1 d2 d3 p1 p2 H D1 D2 D3 P1 P2].

Ltac absurd_member Hin :=
  exfalso; cbn in Hin; repeat (destruct Hin as [Hin|Hin]; [discriminate Hin|]); exact Hin.

(** X3.  [npm run build] is started once when an environment is given and
    its configuration loads with the three credentials truthy, and it is
    not started at all in any other run. *)
Theorem build_runs_once_iff_config_ready (w : World) :
  filter is_build (trace w)
  = if config_ready w then [EvExeca "npm" ["run"; "build"]] else [].
Proof.
  destruct (run_shape_complete w)
    as [Hn | env Ha Hn Hr | env config Ha Hn Hr Hc Hi | env Ha Hy Hb | env ex Ha Hy
        | env ex Ha Hy | env ex Ha Hy | env files ex Ha Hy
        | env config files staticFiles d1 d2 d3 p1 p2 H D1 D2 D3 P1 P2];
    try (rewrite Hy; reflexivity).
  - unfold config_ready. destruct (argv2 w) as [env|]; [|reflexivity].
    now rewrite Hn.
  - unfold config_ready. rewrite Ha, Hn. now destruct Hr as [-> | ->].
  - unfold config_ready. now rewrite Ha, Hn, Hr, Hi.
  - rewrite (reaches_transfer_ready _ _ _ _ _ H).
    rewrite filter_app, (filter_none is_build (_ ++ _ ++ _)); [reflexivity|].
    apply (transfer_Forall (fun e => is_build e = false) w config files staticFiles
             d1 d2 d3 p1 p2); auto.
Qed.

(** X4.  The script calls [fs.writeFileSync] in one case only: [require]
    threw or gave [null].  What it writes is the sample, at the path of
    the configuration of the environment; the run returns early when the
    write succeeds and ends with the uncaught exception when it throws.
    A configuration that loads as anything but [null], complete or not,
    is never overwritten. *)
Theorem sample_written_only_without_config (w : World) (p data : string)
    (outcome : option error) :
  In (EvWriteFileSync p data outcome) (trace w) ->
  exists env,
    argv2 w = Some env /\ no_env (Some env) = false /\
    (require_json w (env_file env) = None \/ require_json w (env_file env) = Some JNull) /\
    p = sample_path w env /\
    data = stringify sampleFile 2 /\
    outcome = sample_outcome w env /\
    fst (run w) = sample_ending outcome.
Proof.
  intros Hin. shapes w; try (absurd_member Hin).
  - exists env. cbn in Hin.
    repeat (destruct Hin as [Hin|Hin]; [discriminate Hin|]).
    destruct Hin as [Hin|[]]. injection Hin as <- <- <-. repeat split; auto.
  - exfalso. apply in_app_or in Hin as [Hin|Hin]; [absurd_member Hin|].
    assert (is_sample_write (EvWriteFileSync p data outcome) = false) as F
      by (apply (transfer_member (fun e => is_sample_write e = false) w config files
                   staticFiles d1 d2 d3 p1 p2 D1 D2 D3 P1 P2 _ Hin); auto).
    discriminate.
Qed.

(** X4 on [unwritable_world], where the write throws. *)
Lemma sample_written_only_without_config_witness :
  exists env,
    argv2 unwritable_world = Some env /\ no_env (Some env) = false /\
    (require_json unwritable_world (env_file env) = None \/
     require_json unwritable_world (env_file env) = Some JNull) /\
    "/repo/scripts/../env.sub/x.json"%string = sample_path unwritable_world env /\
    stringify sampleFile 2 = stringify sampleFile 2 /\
    Some "ENOENT"%string = sample_outcome unwritable_world env /\
    fst (run unwritable_world) = sample_ending (Some "ENOENT"%string).
Proof.
  apply (sample_written_only_without_config unwritable_world
           "/repo/scripts/../env.sub/x.json" (stringify sampleFile 2)
           (Some "ENOENT"%string)).
  vm_compute. do 5 right. left. reflexivity.
Defined.

(** X5.  When the server refuses the destination folder, Pre-Deploy Setup
    takes its failure title and the run ends with the error of the server
    as an unhandled rejection: the [static] folder is not asked for,
    nothing is listed and nothing is uploaded. *)
Theorem destination_mkdir_failure (w : World) (env : string) (ex : error) :
  argv2 w = Some env -> config_ready w = true ->
  exitCode (npm_run_build w) = 0%Z ->
  dav_mkdir w (dest_of w) = Some ex ->
  fst (run w) = UnhandledRejection ex /\
  trace w = build_events env
              ++ [EvTask CreatingFolder; EvMkdir (dest_of w) (Some ex);
                  EvTask PreDeployFailed].
Proof.
  intros Ha Hy Hb Hm. apply config_ready_spec in Hy as (env' & config & Ha' & Hn & Hr & Hc).
  assert (env' = env) by congruence. subst env'.
  now apply (pre_deploy_failure_runs w env config Ha Hn Hr Hc Hb).
Qed.

(** X5 on [refusing_world]. *)
Lemma destination_mkdir_failure_witness :
  fst (run refusing_world) = UnhandledRejection "403 Forbidden" /\
  trace refusing_world
  = build_events "sandbox"
      ++ [EvTask CreatingFolder; EvMkdir (dest_of refusing_world) (Some "403 Forbidden");
          EvTask PreDeployFailed].
Proof.
  apply (destination_mkdir_failure refusing_world "sandbox" "403 Forbidden");
    reflexivity.
Defined.

(** X6.  When the server makes the destination folder and refuses its
    [static] folder, the run ends in the same way, and the destination
    folder stays on the server: nothing removes it. *)
Theorem static_mkdir_failure_leaves_destination (w : World) (env : string) (ex : error) :
  argv2 w = Some env -> config_ready w = true ->
  exitCode (npm_run_build w) = 0%Z ->
  dav_mkdir w (dest_of w) = None -> dav_mkdir w (static_of w) = Some ex ->
  fst (run w) = UnhandledRejection ex /\
  trace w = build_events env
              ++ [EvTask CreatingFolder; EvMkdir (dest_of w) None;
                  EvMkdir (static_of w) (Some ex); EvTask PreDeployFailed].
Proof.
  intros Ha Hy Hb Hm1 Hm2.
  apply config_ready_spec in Hy as (env' & config & Ha' & Hn & Hr & Hc).
  assert (env' = env) by congruence. subst env'.
  now apply (pre_deploy_failure_runs w env config Ha Hn Hr Hc Hb).
Qed.

(** X6 on [refusing_static_world]. *)
Lemma static_mkdir_failure_leaves_destination_witness :
  fst (run refusing_static_world) = UnhandledRejection "403 Forbidden" /\
  trace refusing_static_world
  = build_events "sandbox"
      ++ [EvTask CreatingFolder; EvMkdir (dest_of refusing_static_world) None;
          EvMkdir (static_of refusing_static_world) (Some "403 Forbidden");
          EvTask PreDeployFailed].
Proof.
  apply (static_mkdir_failure_leaves_destination refusing_static_world "sandbox"
           "403 Forbidden"); reflexivity.
Defined.

(** X7.  When one of the two listings of the build output cannot be read
    ([static] is listed only if [dist] was), the run ends with the error
    of [readdir] as an unhandled rejection; both folders were made on the
    server before and stay there, empty. *)
Theorem listing_failure_leaves_folders (w : World) (env : string) (ex : error) :
  argv2 w = Some env -> config_ready w = true ->
  exitCode (npm_run_build w) = 0%Z ->
  dav_mkdir w (dest_of w) = None -> dav_mkdir w (static_of w) = None ->
  match fs_readdir w (dist_of w) with
  | inl e => e = ex
  | inr _ => fs_readdir w (dist_static_of w) = inl ex
  end ->
  fst (run w) = UnhandledRejection ex /\
  trace w = build_events env
              ++ [EvTask CreatingFolder; EvMkdir (dest_of w) None;
                  EvMkdir (static_of w) None; EvTask ListingFiles; EvReaddir (dist_of w)]
              ++ match fs_readdir w (dist_of w) with
                 | inl _ => []
                 | inr _ => [EvReaddir (dist_static_of w)]
                 end
              ++ [EvTask PreDeployFailed].
Proof.
  intros Ha Hy Hb Hm1 Hm2 Hl.
  apply config_ready_spec in Hy as (env' & config & Ha' & Hn & Hr & Hc).
  assert (env' = env) by congruence. subst env'.
  destruct (pre_deploy_failure_runs w env config Ha Hn Hr Hc Hb) as (_ & _ & F3 & F4).
  destruct (fs_readdir w (dist_of w)) as [e|files] eqn:Hd.
  - subst e. now apply F3.
  - now apply (F4 files).
Qed.

(** X7 on [unlisted_world]. *)
Lemma listing_failure_leaves_folders_witness :
  fst (run unlisted_world) = UnhandledRejection "ENOENT" /\
  trace unlisted_world
  = build_events "sandbox"
      ++ [EvTask CreatingFolder; EvMkdir (dest_of unlisted_world) None;
          EvMkdir (static_of unlisted_world) None; EvTask ListingFiles;
          EvReaddir (dist_of unlisted_world)]
      ++ match fs_readdir unlisted_world (dist_of unlisted_world) with
         | inl _ => []
         | inr _ => [EvReaddir (dist_static_of unlisted_world)]
         end
      ++ [EvTask PreDeployFailed].
Proof.
  apply (listing_failure_leaves_folders unlisted_world "sandbox" "ENOENT"); reflexivity.
Defined.

(** X8.  The [catch] of Deploy Checkout (lines 166-170) never runs: its
    title is in no trace.  A run that ends with an unhandled rejection
    failed in the build, in one of the two [MakeDir] or in one of the two
    [ListFiles], with the error of that step, and it has started no
    upload. *)
Theorem rejection_comes_before_any_upload (w : World) :
  ~ In (EvTask DeployFailed) (trace w) /\
  forall ex, fst (run w) = UnhandledRejection ex ->
             stage_failure w ex /\ filter is_upload (trace w) = [].
Proof.
  unfold stage_failure. shapes w.
  1-8: split; [intros Hin; absurd_member Hin | intros ex' E; try discriminate E].
  1: destruct (sample_outcome w env); discriminate E.
  1-5: injection E as <-; split; [tauto | reflexivity].
  split.
  - intros Hin. apply in_app_or in Hin as [Hin|Hin]; [absurd_member Hin|].
    apply (transfer_member (fun e => e <> EvTask DeployFailed) w config files
             staticFiles d1 d2 d3 p1 p2 D1 D2 D3 P1 P2 _ Hin); try discriminate.
    reflexivity.
  - intros ex E. destruct P1 as [->| ->]; [discriminate|].
    destruct P2 as [->| ->]; discriminate.
Qed.

(** X9.  The banner of [finished] is printed only by a run that reached
    the transfer stage and whose two [UploadFiles] were both fulfilled
    before.  It is printed once; it shows the storehash of the loaded
    configuration and the identifier that names the folder made on the
    server; after it nothing runs but callbacks of late answers. *)
Theorem banner_follows_both_batches (w : World)
    (storehash : option json) (timestamp : option string) :
  In (EvConsoleLog (TxtFinished storehash timestamp)) (trace w) ->
  exists env config files staticFiles l1 l2,
    reaches_transfer w env config files staticFiles /\
    fst (run w) = Finished /\
    storehash = storehash_of config /\
    timestamp = Some (make_timestamp (clock w)) /\
    trace w = l1 ++ EvConsoleLog (TxtFinished storehash timestamp) :: l2 /\
    In (EvMkdir (dest_of w) None) l1 /\
    In (EvSettled 1 (Fulfilled tt)) l1 /\ In (EvSettled 2 (Fulfilled tt)) l1 /\
    Forall (fun e => is_banner e = false) l1 /\
    Forall (fun e => is_done e = true) l2.
Proof.
  intros Hin. shapes w; try (absurd_member Hin).
  apply in_app_or in Hin as [Hin|Hin]; [absurd_member Hin|].
  assert (Hb : p1 = Fulfilled tt /\ p2 = Fulfilled tt /\
               storehash = storehash_of config /\
               timestamp = Some (make_timestamp (clock w))).
  { apply (transfer_member
             (fun e => match e with
                       | EvConsoleLog (TxtFinished h t) =>
                           p1 = Fulfilled tt /\ p2 = Fulfilled tt /\
                           h = storehash_of config /\
                           t = Some (make_timestamp (clock w))
                       | _ => True
                       end) w config files staticFiles d1 d2 d3 p1 p2
             D1 D2 D3 P1 P2) in Hin; auto. }
  destruct Hb as (-> & -> & -> & ->). clear Hin.
  exists env, config, files, staticFiles.
  exists (setup_events w env
            ++ [EvTask (Uploading (List.length (filter has_extension
                                                  (files ++ staticFiles))))]
            ++ deploy_events w files staticFiles d1 d2 (Fulfilled tt) (Fulfilled tt)), d3.
  split; [exact H|]. split; [reflexivity|]. split; [reflexivity|].
  split; [reflexivity|]. split; [unfold finished_events; now rewrite <- !app_assoc|].
  unfold deploy_events, batch_events, setup_events. cbn [settled_mark settled].
  split; [|split; [|split; [|split; [|exact D3]]]].
  1-3: repeat rewrite in_app_iff; cbn; tauto.
  apply Forall_app; split; [repeat constructor|].
  apply Forall_app; split; [repeat constructor|].
  repeat (apply Forall_app; split);
    first [ apply Forall_launch; intros; reflexivity
          | apply Forall_done; [intros; reflexivity | assumption]
          | repeat constructor ].
Qed.

(** X9 on [deploying_world]. *)
Lemma banner_follows_both_batches_witness :
  exists env config files staticFiles l1 l2,
    reaches_transfer deploying_world env config files staticFiles /\
    fst (run deploying_world) = Finished /\
    Some (JString "abc") = storehash_of config /\
    Some (make_timestamp (clock deploying_world))
    = Some (make_timestamp (clock deploying_world)) /\
    trace deploying_world
    = l1 ++ EvConsoleLog (TxtFinished (Some (JString "abc"))
                            (Some (make_timestamp (clock deploying_world)))) :: l2 /\
    In (EvMkdir (dest_of deploying_world) None) l1 /\
    In (EvSettled 1 (Fulfilled tt)) l1 /\ In (EvSettled 2 (Fulfilled tt)) l1 /\
    Forall (fun e => is_banner e = false) l1 /\
    Forall (fun e => is_done e = true) l2.
Proof.
  apply (banner_follows_both_batches deploying_world (Some (JString "abc"))
           (Some (make_timestamp (clock deploying_world)))).
  vm_compute. repeat (first [left; reflexivity | right]).
Defined.

Lemma launch_events_write w call src dest fs p data :
  In (EvWriteFile p data) (flat_map (launch_events w call src dest) fs) <->
  exists f, In f fs /\ p = (dest ++ "/" ++ f)%string /\
            fs_readFileSync w (src ++ "\" ++ f) = inr data.
Proof.
  rewrite in_flat_map. unfold launch_events. split.
  - intros (f & Hf & Hin). exists f. split; [exact Hf|].
    destruct (fs_readFileSync w (src ++ "\" ++ f)) as [e|c]; cbn in Hin.
    + destruct Hin as [Hin|[Hin|[]]]; discriminate.
    + destruct Hin as [Hin|[Hin|[Hin|[]]]]; try discriminate.
      injection Hin as <- <-. now split.
  - intros (f & Hf & -> & E). exists f. split; [exact Hf|]. rewrite E. cbn. auto.
Qed.

(** X14.  Every write sent to the server in a run is the upload of a name
    with a dot from one of the two listings: it goes to the destination
    folder with the content read from [dist], or to its [static] folder
    with the content read from [dist/static], under the same name. *)
Theorem writes_carry_file_contents (w : World) (p data : string) :
  In (EvWriteFile p data) (trace w) ->
  exists env config files staticFiles f,
    reaches_transfer w env config files staticFiles /\
    includes f "." = true /\
    ((In f files /\ p = (dest_of w ++ "/" ++ f)%string /\
      fs_readFileSync w (dist_of w ++ "\" ++ f) = inr data) \/
     (In f staticFiles /\ p = (static_of w ++ "/" ++ f)%string /\
      fs_readFileSync w (dist_static_of w ++ "\" ++ f) = inr data)).
Proof.
  intros Hin. shapes w; try (absurd_member Hin).
  exists env, config, files, staticFiles.
  apply in_app_or in Hin as [Hin|Hin]; [absurd_member Hin|].
  apply (transfer_member
           (fun e => match e with
                     | EvWriteFile q c =>
                         exists f, includes f "." = true /\
                           ((In f files /\ q = (dest_of w ++ "/" ++ f)%string /\
                             fs_readFileSync w (dist_of w ++ "\" ++ f) = inr c) \/
                            (In f staticFiles /\ q = (static_of w ++ "/" ++ f)%string /\
                             fs_readFileSync w (dist_static_of w ++ "\" ++ f) = inr c))
                     | _ => True
                     end) w config files staticFiles d1 d2 d3 p1 p2
           D1 D2 D3 P1 P2) in Hin; auto.
  - destruct Hin as (f & He & Hf). exists f. auto.
  - intros f c He Hf E. exists f. auto.
  - intros f c He Hf E. exists f. auto 6.
Qed.

(** X14 on [deploying_world], for the write of [b.js]. *)
Lemma writes_carry_file_contents_witness :
  exists env config files staticFiles f,
    reaches_transfer deploying_world env config files staticFiles /\
    includes f "." = true /\
    ((In f files /\
      (dest_of deploying_world ++ "/b.js")%string
      = (dest_of deploying_world ++ "/" ++ f)%string /\
      fs_readFileSync deploying_world (dist_of deploying_world ++ "\" ++ f)%string
      = inr "// /repo/scripts/../dist\b.js") \/
     (In f staticFiles /\
      (dest_of deploying_world ++ "/b.js")%string
      = (static_of deploying_world ++ "/" ++ f)%string /\
      fs_readFileSync deploying_world (dist_static_of deploying_world ++ "\" ++ f)%string
      = inr "// /repo/scripts/../dist\b.js")).
Proof.
  apply (writes_carry_file_contents deploying_world
           (dest_of deploying_world ++ "/b.js")%string "// /repo/scripts/../dist\b.js").
  vm_compute. repeat (first [left; reflexivity | right]).
Defined.

(** X15.  In a run that reaches the transfer stage, for every readable
    name with a dot in the listing of [dist] the write of its content is
    sent, whatever the server does afterwards; the same holds for the
    listing of [dist/static] once the first batch is fulfilled, which it
    is when the answers suffice. *)
Theorem readable_files_are_written (w : World) (env : string) (config : json)
    (files staticFiles : list string) :
  reaches_transfer w env config files staticFiles ->
  (forall f data, In f files -> includes f "." = true ->
     fs_readFileSync w (dist_of w ++ "\" ++ f) = inr data ->
     In (EvWriteFile (dest_of w ++ "/" ++ f) data) (trace w)) /\
  (answers_suffice w files staticFiles \/ In (EvSettled 1 (Fulfilled tt)) (trace w) ->
   forall f data, In f staticFiles -> includes f "." = true ->
     fs_readFileSync w (dist_static_of w ++ "\" ++ f) = inr data ->
     In (EvWriteFile (static_of w ++ "/" ++ f) data) (trace w)).
Proof.
  intros H.
  destruct (transfer_trace w env config files staticFiles H)
    as (d1 & d2 & d3 & p1 & p2 & D1 & D2 & D3 & P1 & P2 & A & _ & ->).
  unfold deploy_events, batch_events. split.
  - intros f data Hf He Hr. repeat rewrite in_app_iff. right. right. left. left. left.
    apply launch_events_write. exists f. split; [|now split].
    apply filter_In. now split.
  - intros Hs f data Hf He Hr.
    assert (E : p1 = Fulfilled tt).
    { destruct Hs as [Hs|Hs]; [now apply A|].
      destruct P1 as [->|E]; [exfalso|exact E].
      assert (F : Forall (fun e => settled_of 1 e = false)
                    (setup_events w env
                       ++ [EvTask (Uploading (List.length (filter has_extension
                                                             (files ++ staticFiles))))]
                       ++ (flat_map (launch_events w 1 (dist_of w) (dest_of w))
                             (filter has_extension files) ++ d1 ++ settled_mark 1 Pending)
                            ++ [])).
      { cbn [settled_mark settled]. apply Forall_app; split; [setup_ok|].
        repeat (apply Forall_app; split);
          first [ apply Forall_launch; intros; reflexivity
                | apply Forall_done; [intros; reflexivity | assumption]
                | repeat constructor ]. }
      rewrite Forall_forall in F. unfold finished_events in Hs.
      rewrite app_nil_r in Hs. specialize (F _ Hs). discriminate. }
    subst p1. repeat rewrite in_app_iff. right. right. left. right. left.
    apply launch_events_write. exists f. split; [|now split].
    apply filter_In. now split.
Qed.

(** X15 on [deploying_world]. *)
Lemma readable_files_are_written_witness :
  (forall f data, In f ["a.js"; "static"; "b.js"] -> includes f "." = true ->
     fs_readFileSync deploying_world (dist_of deploying_world ++ "\" ++ f)%string = inr data ->
     In (EvWriteFile (dest_of deploying_world ++ "/" ++ f) data) (trace deploying_world)) /\
  (answers_suffice deploying_world ["a.js"; "static"; "b.js"] ["c.css"] \/
   In (EvSettled 1 (Fulfilled tt)) (trace deploying_world) ->
   forall f data, In f ["c.css"] -> includes f "." = true ->
     fs_readFileSync deploying_world (dist_static_of deploying_world ++ "\" ++ f)%string
     = inr data ->
     In (EvWriteFile (static_of deploying_world ++ "/" ++ f) data)
        (trace deploying_world)).
Proof.
  apply (readable_files_are_written deploying_world "sandbox" sample_config
           ["a.js"; "static"; "b.js"] ["c.css"]).
  exact deploying_world_reaches_transfer.
Defined.

(** Up to the first [UploadFiles]: the state in which it is called, and
    the run when it stays pending. *)
Lemma transfer_first_batch w env config files staticFiles :
  reaches_transfer w env config files staticFiles ->
  exists st0,
    inflight st0 = [] /\ arrivals st0 = arrival w /\
    log st0 = setup_events w env
                ++ [EvTask (Uploading (List.length (filter has_extension
                                                      (files ++ staticFiles))))] /\
    (fst (UploadFiles w 1 (dist_of w) (dest_of w) files st0) = Pending ->
     run w = (NeverResumed, snd (UploadFiles w 1 (dist_of w) (dest_of w) files st0))).
Proof.
  intros (Ha & Hn & Hr & Hc & Hb & Hm1 & Hm2 & Hd1 & Hd2).
  unfold static_of, dest_of, dist_static_of, dist_of in *.
  remember (run w) as r eqn:E. unfold run, main, initial in E.
  rewrite Ha, Hn in E.
  unfold tasks, Listr_run, build_checkout, pre_deploy_setup, pre_deploy_try, try_await,
    MakeDir, ListFiles, update_ctx, get_ctx, set_ctx, set_timestamp, bind, emit, ret in E.
  cbn -[make_timestamp append deploy_checkout includes] in E.
  rewrite Hr, Hc, Hb in E. cbn -[make_timestamp append deploy_checkout includes] in E.
  rewrite Hm1, Hm2, Hd1, Hd2 in E.
  cbn -[make_timestamp append deploy_checkout includes] in E.
  unfold deploy_checkout, await_upload, get_ctx, bind, emit, ret in E.
  cbn -[make_timestamp append UploadFiles includes] in E.
  match type of E with
  | context [UploadFiles w 1 _ _ _ ?s] => exists s
  end.
  cbn [inflight arrivals log]. split; [reflexivity|]. split; [reflexivity|].
  split; [reflexivity|]. intros P. rewrite E.
  destruct (UploadFiles w 1 _ _ _ _) as [p st1]. cbn [fst snd] in *. now subst p.
Qed.

Lemma stalled_world_reaches_transfer :
  reaches_transfer stalled_world "sandbox" sample_config
    ["a.js"; "static"; "b.js"] ["c.css"].
Proof. repeat split. Qed.

(** X16.  In a run that reaches the transfer stage, when no upload of the
    first batch fails and the server sends fewer answers than that batch
    has files, Deploy Checkout never resumes: the trace ends with the
    writes of the first batch and the callbacks that ran; the second
    batch is not started and the banner is not printed. *)
Theorem unanswered_write_hangs (w : World) (env : string) (config : json)
    (files staticFiles : list string) :
  reaches_transfer w env config files staticFiles ->
  (forall f, In f files -> includes f "." = true ->
             upload_error w (dist_of w) (dest_of w) f = None) ->
  List.length (arrival w) < List.length (filter has_extension files) ->
  fst (run w) = NeverResumed /\
  exists done,
    Forall (fun e => is_done e = true) done /\
    trace w = setup_events w env
                ++ [EvTask (Uploading (List.length (filter has_extension
                                                      (files ++ staticFiles))))]
                ++ flat_map (launch_events w 1 (dist_of w) (dest_of w))
                     (filter has_extension files)
                ++ done.
Proof.
  intros H Hok Hans.
  destruct (transfer_first_batch w env config files staticFiles H)
    as (st0 & Hi & Hv & L & Hrun).
  assert (Ha : result (fst (UploadFiles_all w 1 (dist_of w) (dest_of w) files st0))
               = Pending).
  { apply UploadFiles_all_stays_pending; [exact Hok | now rewrite Hi | now rewrite Hv]. }
  destruct (UploadFiles_settled_log w 1 (dist_of w) (dest_of w) files st0) as [S L1].
  cbv zeta in S, L1. rewrite Ha in S.
  assert (P : fst (UploadFiles w 1 (dist_of w) (dest_of w) files st0) = Pending).
  { destruct (fst (UploadFiles w 1 (dist_of w) (dest_of w) files st0));
      [reflexivity | discriminate S | discriminate S]. }
  destruct (UploadFiles_all_spec w 1 (dist_of w) (dest_of w) files st0)
    as [_ (done & Fd & L2 & _)].
  unfold trace. rewrite (Hrun P). cbn [fst snd]. split; [reflexivity|].
  exists done. split; [exact Fd|].
  rewrite L1, P, L2. cbn [settled_mark settled extend log].
  rewrite L, app_nil_r. unfold has_extension. now rewrite <- !app_assoc.
Qed.

(** X16 on [stalled_world]. *)
Lemma unanswered_write_hangs_witness :
  fst (run stalled_world) = NeverResumed /\
  exists done,
    Forall (fun e => is_done e = true) done /\
    trace stalled_world
    = setup_events stalled_world "sandbox"
        ++ [EvTask (Uploading (List.length (filter has_extension
                                              (["a.js"; "static"; "b.js"] ++ ["c.css"]))))]
        ++ flat_map (launch_events stalled_world 1 (dist_of stalled_world)
                       (dest_of stalled_world))
             (filter has_extension ["a.js"; "static"; "b.js"])
        ++ done.
Proof.
  apply (unanswered_write_hangs stalled_world "sandbox" sample_config
           ["a.js"; "static"; "b.js"] ["c.css"]).
  - exact stalled_world_reaches_transfer.
  - intros f _ _. reflexivity.
  - vm_compute. lia.
Defined.

End OutcomeFacts.
